(** * The room-booking engine of the Hajzi server

    A shallow embedding of the booking model ([src/models/RoomBooking.js]),
    the booking validation schema ([createRoomBookingSchema]) and the booking
    controller ([createRoomBooking], [getBookingById], [updateBooking],
    [cancelBooking], [updateBookingStatus], [getCityAdminBookings]).

    Collections are finite maps from document ids to documents, a [Date] is
    its [getTime()] value (milliseconds since the epoch, an integer), and a
    request handler is a function from the database to a result and the
    database it leaves.  A [Number] holding a price is a double: it is
    modelled by the rational it holds, and the product that prices a stay
    is rounded to the nearest double as the language does ([binary64]).
    Differences of dates and their quotients by an hour or a day are exact
    (as they are in the code for every date a [Date] can hold within a few
    thousand years of the epoch); each handler reads the clock once. *)

From Stdlib Require Import ZArith QArith Qround.
From stdpp Require Import gmap strings list fin_maps sorting.

Close Scope Q_scope.
Open Scope Z_scope.

(** ** Documents *)

Definition ObjectId := positive.
Bind Scope positive_scope with ObjectId.
Definition Instant := Z.

Module User.
Inductive Role := super_admin | city_admin | owner | customer.
Record t := mk { role : Role; cityId : option ObjectId }.

Definition role_eqb (a b : Role) : bool :=
  match a, b with
  | super_admin, super_admin | city_admin, city_admin
  | owner, owner | customer, customer => true
  | _, _ => false
  end.
End User.

Module Hotel.
Inductive Status := pending | approved | rejected.
Record t := mk {
  ownerId : ObjectId;
  cityId : ObjectId;
  status : Status;
  isVisible : bool
}.

Definition is_approved (s : Status) : bool :=
  match s with approved => true | _ => false end.
End Hotel.

Module Room.
Record t := mk { hotelId : ObjectId; basePrice : Q }.
End Room.

Module Booking.
Inductive Status := pending | confirmed | cancelled | rejected.

(** The fields of [roomBookingSchema] that a rule of the engine reads or
    writes.  [discountCode], [notes] and [ownerWhatsappLink] are free text
    carried along unchanged, and the store's own [createdAt]/[updatedAt]
    stamps are not part of the document here. *)
Record t := mk {
  fullName : string;
  guestName : string;
  phoneNumber : string;
  checkIn : Instant;
  checkOut : Instant;
  adults : Z;
  children : Z;
  userId : ObjectId;
  ownerId : ObjectId;
  roomId : ObjectId;
  hotelId : ObjectId;
  price : Q;
  status : Status
}.

Definition status_name (s : Status) : string :=
  match s with
  | pending => "pending" | confirmed => "confirmed"
  | cancelled => "cancelled" | rejected => "rejected"
  end.

(** The enum of the [status] path: the four names and nothing else. *)
Definition parse_status (s : string) : option Status :=
  if String.eqb s "pending" then Some pending
  else if String.eqb s "confirmed" then Some confirmed
  else if String.eqb s "cancelled" then Some cancelled
  else if String.eqb s "rejected" then Some rejected
  else None.

(** [['pending', 'confirmed'].includes(status)] *)
Definition is_active (s : Status) : bool :=
  match s with pending | confirmed => true | _ => false end.

Definition set_status (s : Status) (b : t) : t :=
  mk (fullName b) (guestName b) (phoneNumber b) (checkIn b) (checkOut b)
     (adults b) (children b) (userId b) (ownerId b) (roomId b) (hotelId b)
     (price b) s.
End Booking.

(** The four collections the engine touches. *)
Record Db := mkDb {
  users : gmap ObjectId User.t;
  hotels : gmap ObjectId Hotel.t;
  rooms : gmap ObjectId Room.t;
  bookings : gmap ObjectId Booking.t
}.

Definition with_bookings (bs : gmap ObjectId Booking.t) (db : Db) : Db :=
  mkDb (users db) (hotels db) (rooms db) bs.

(** The authenticated principal, [req.user]. *)
Record Principal := mkPrincipal {
  _id : ObjectId;
  role : User.Role;
  cityId : option ObjectId
}.

(** ** What the libraries decide

    The string rules of the two validators, the regular-expression search of
    the store, the key a named field sorts by, and what [this.checkIn] is
    when the [checkOut] validator runs on an update (where [this] is not
    the booking) are the libraries', not this repository's; the handlers
    are written over any choice of them. *)
Record Lib := mkLib {
  joi_text : string → string → bool;
  schema_text : string → string → bool;
  regex_i : string → string → bool;
  sort_key : string → ObjectId → Booking.t → Z;
  update_this_checkIn : option Instant
}.

(** ** Errors and handlers *)

(** [new AppError(message, statusCode)]; an error without a status code
    leaves the global error handler as a 500. *)
Record AppError := mkAppError { message : string; statusCode : Z }.

Inductive Res (A : Type) : Type :=
| Ok (a : A)
| Err (e : AppError).
Arguments Ok {A} a.
Arguments Err {A} e.

Definition is_ok {A} (r : Res A) : bool :=
  match r with Ok _ => true | Err _ => false end.

Definition Handler (A : Type) : Type := Db → Res A * Db.

Definition ret {A} (a : A) : Handler A := λ db, (Ok a, db).
Definition throw {A} (e : AppError) : Handler A := λ db, (Err e, db).
Definition bind {A B} (m : Handler A) (k : A → Handler B) : Handler B :=
  λ db, match m db with
        | (Ok a, db') => k a db'
        | (Err e, db') => (Err e, db')
        end.
Definition get : Handler Db := λ db, (Ok db, db).
Definition put (db' : Db) : Handler unit := λ _, (Ok tt, db').

Declare Scope handler_scope.
Delimit Scope handler_scope with handler.
Notation "x <- m ;; k" := (bind m (λ x, k))
  (at level 100, m at next level, right associativity) : handler_scope.
Notation "m ;;; k" := (bind m (λ _, k))
  (at level 100, right associativity) : handler_scope.
Open Scope handler_scope.

(** [if (c) return next(new AppError(...))] *)
Definition fail_if (c : bool) (e : AppError) : Handler unit :=
  if c then throw e else ret tt.

(** [const x = await Model.findById(id); if (!x) return next(e)] *)
Definition find_or {A} (o : option A) (e : AppError) : Handler A :=
  match o with Some a => ret a | None => throw e end.

(** ** Dates and prices *)

Definition ms_per_hour : Z := 1000 * 60 * 60.
Definition ms_per_day : Z := 1000 * 60 * 60 * 24.

(** [(checkInDate - now) / (1000 * 60 * 60)] *)
Definition hoursUntilCheckIn (now checkIn : Instant) : Q :=
  (inject_Z (checkIn - now) / inject_Z ms_per_hour)%Q.

(** [Math.ceil((checkOut - checkIn) / (1000 * 60 * 60 * 24))] *)
Definition nights (checkIn checkOut : Instant) : Z :=
  Qceiling (inject_Z (checkOut - checkIn) / inject_Z ms_per_day)%Q.

(** *** Doubles

    The arithmetic of the language is that of IEEE 754 doubles: the result
    of an operation is the exact result rounded to the nearest number with
    a significand of 53 bits, ties going to the even significand, and to
    the nearest multiple of [2^-1074] below the normal range.  A number
    here is finite: [Infinity] and [NaN] have no rational value, and a
    product too large for a double, which the language makes [Infinity],
    is kept here as the rounded rational (no price that a validated
    request can store comes near it). *)

(** [2^e] *)
Definition pow2 (e : Z) : Q :=
  if 0 <=? e then inject_Z (2 ^ e) else (1 # Z.to_pos (2 ^ (- e)))%Q.

(** The integer nearest to [n / d] for [0 < d], ties to even. *)
Definition round_half_even (n d : Z) : Z :=
  let q := n / d in
  match 2 * (n mod d) ?= d with
  | Lt => q
  | Gt => q + 1
  | Eq => if Z.even q then q else q + 1
  end.

(** The exponent of the last place of the double nearest to [n / d], for
    [0 < n] and [0 < d]: [⌊log2 (n / d)⌋ - 52], and [-1074] at least. *)
Definition last_place (n d : Z) : Z :=
  let l := Z.log2 n - Z.log2 d in
  let reaches := if 0 <=? l then d * 2 ^ l <=? n else d <=? n * 2 ^ (- l) in
  Z.max ((if reaches then l else l - 1) - 52) (-1074).

(** The double nearest to a rational, in lowest terms. *)
Definition binary64 (x : Q) : Q :=
  let n := Qnum x in
  let d := Z.pos (Qden x) in
  if n =? 0 then 0%Q
  else
    let e := last_place (Z.abs n) d in
    let m := if 0 <=? e then round_half_even (Z.abs n) (d * 2 ^ e)
             else round_half_even (Z.abs n * 2 ^ (- e)) d in
    Qred (inject_Z (Z.sgn n * m) * pow2 e)%Q.

(** [room.basePrice * nights] *)
Definition stay_price (basePrice : Q) (checkIn checkOut : Instant) : Q :=
  binary64 (basePrice * inject_Z (nights checkIn checkOut))%Q.

(** [a > b] on numbers. *)
Definition Qgtb (a b : Q) : bool := negb (Qle_bool a b).

(** ** The booking model ([RoomBooking.js]) *)

Module RoomBooking.

(** An update document, and equally the body of an update request: every
    path is optional. *)
Record Patch := mkPatch {
  p_fullName : option string;
  p_guestName : option string;
  p_phoneNumber : option string;
  p_checkIn : option Instant;
  p_checkOut : option Instant;
  p_adults : option Z;
  p_children : option Z;
  p_roomId : option ObjectId;
  p_hotelId : option ObjectId;
  p_status : option string;
  p_price : option Q;
  p_userId : option ObjectId;
  p_ownerId : option ObjectId
}.

(** [{ status }] *)
Definition status_patch (s : string) : Patch :=
  mkPatch None None None None None None None None None (Some s) None None None.

(** The filter of [checkRoomAvailability], on one document: same room,
    status pending or confirmed, [checkIn < $checkOut], [checkOut > $checkIn],
    and [_id ≠ excludeBookingId] when one is given. *)
Definition conflicts_with (roomId : ObjectId) (checkIn checkOut : Instant)
    (excludeBookingId : option ObjectId) (id : ObjectId) (b : Booking.t) : bool :=
  Pos.eqb (Booking.roomId b) roomId
  && Booking.is_active (Booking.status b)
  && (Booking.checkIn b <? checkOut)
  && (checkIn <? Booking.checkOut b)
  && match excludeBookingId with
     | Some ex => negb (Pos.eqb id ex)
     | None => true
     end.

Definition checkRoomAvailability (bs : gmap ObjectId Booking.t)
    (roomId : ObjectId) (checkIn checkOut : Instant)
    (excludeBookingId : option ObjectId) : list (ObjectId * Booking.t) :=
  map_to_list
    (filter (λ kb, conflicts_with roomId checkIn checkOut excludeBookingId
                     kb.1 kb.2 = true) bs).

(** [conflictingBookings.length > 0] *)
Definition hasConflict (bs : gmap ObjectId Booking.t)
    (roomId : ObjectId) (checkIn checkOut : Instant)
    (excludeBookingId : option ObjectId) : bool :=
  Nat.ltb 0 (length (checkRoomAvailability bs roomId checkIn checkOut
                       excludeBookingId)).

Definition isOwnedByUser (b : Booking.t) (userId : ObjectId) : bool :=
  Pos.eqb (Booking.userId b) userId.

Definition isOwnedByHotelOwner (b : Booking.t) (ownerId : ObjectId) : bool :=
  Pos.eqb (Booking.ownerId b) ownerId.

(** *** After [populate]

    [populate('userId', ..)] and [populate('ownerId', ..)] put the user a
    path refers to in the place of the id, or [null] when no such user is
    left.  A method called on the populated booking reads that value:
    [toString()] of a document gives its printed fields, never the 24 hex
    digits that [toString()] of an id gives, and [null] has no
    [toString]. *)
Module Populated.

Inductive Ref := document (id : ObjectId) (u : User.t) | null.

Record t := mk { booking : Booking.t; user : Ref; owner : Ref }.

(** What [toString()] returns. *)
Inductive Text := hex (id : ObjectId) | printed (id : ObjectId) (u : User.t).

(** [===] on two such strings. *)
Definition Text_eqb (a b : Text) : bool :=
  match a, b with
  | hex i, hex j => Pos.eqb i j
  | printed i u, printed j v =>
      Pos.eqb i j && User.role_eqb (User.role u) (User.role v)
      && bool_decide (User.cityId u = User.cityId v)
  | _, _ => false
  end.

Definition no_toString : AppError :=
  mkAppError "Cannot read properties of null (reading 'toString')" 500.

Definition toString (r : Ref) : Handler Text :=
  match r with
  | document id u => ret (printed id u)
  | null => throw no_toString
  end.

(** [this.userId.toString() === userId.toString()] *)
Definition isOwnedByUser (b : t) (userId : ObjectId) : Handler bool :=
  text <- toString (user b);;
  ret (Text_eqb text (hex userId)).

(** [this.ownerId.toString() === ownerId.toString()] *)
Definition isOwnedByHotelOwner (b : t) (ownerId : ObjectId) : Handler bool :=
  text <- toString (owner b);;
  ret (Text_eqb text (hex ownerId)).

End Populated.

Definition populate_ref (db : Db) (id : ObjectId) : Populated.Ref :=
  match users db !! id with
  | Some u => Populated.document id u
  | None => Populated.null
  end.

(** [.populate('userId', ..).populate('ownerId', ..)]; the room and the
    hotel are populated too, and no rule reads them. *)
Definition populate (db : Db) (b : Booking.t) : Populated.t :=
  Populated.mk b (populate_ref db (Booking.userId b))
    (populate_ref db (Booking.ownerId b)).

Definition canBeCancelled (now : Instant) (b : Booking.t) : bool :=
  Booking.is_active (Booking.status b)
  && Qgtb (hoursUntilCheckIn now (Booking.checkIn b)) 24.

Definition canBeModified (now : Instant) (b : Booking.t) : bool :=
  match Booking.status b with Booking.pending => true | _ => false end
  && Qgtb (hoursUntilCheckIn now (Booking.checkIn b)) 48.

Definition in_range (lo hi v : Z) : bool := (lo <=? v) && (v <=? hi).

(** The path validators of the schema on a whole document (a save). *)
Definition validate (L : Lib) (now : Instant) (b : Booking.t) : bool :=
  schema_text L "fullName" (Booking.fullName b)
  && schema_text L "guestName" (Booking.guestName b)
  && schema_text L "phoneNumber" (Booking.phoneNumber b)
  && (now <? Booking.checkIn b)
  && (Booking.checkIn b <? Booking.checkOut b)
  && in_range 1 20 (Booking.adults b)
  && in_range 0 10 (Booking.children b)
  && Qle_bool 0 (Booking.price b).

Definition on_path {A} (o : option A) (v : A → bool) : bool :=
  match o with Some a => v a | None => true end.

(** The same validators on the paths an update sets ([runValidators]);
    [v > this.checkIn] compares with whatever [this.checkIn] is there. *)
Definition validate_update (L : Lib) (now : Instant) (p : Patch) : bool :=
  on_path (p_fullName p) (schema_text L "fullName")
  && on_path (p_guestName p) (schema_text L "guestName")
  && on_path (p_phoneNumber p) (schema_text L "phoneNumber")
  && on_path (p_checkIn p) (λ v, now <? v)
  && on_path (p_checkOut p)
       (λ v, match update_this_checkIn L with
             | Some c => c <? v
             | None => false
             end)
  && on_path (p_adults p) (in_range 1 20)
  && on_path (p_children p) (in_range 0 10)
  && on_path (p_price p) (Qle_bool 0)
  && on_path (p_status p) (λ s, bool_decide (is_Some (Booking.parse_status s))).

Definition validation_failed : AppError := mkAppError "Validation failed" 500.
Definition hook_error (msg : string) : AppError := mkAppError msg 500.

Definition set_price (q : Q) (b : Booking.t) : Booking.t :=
  Booking.mk (Booking.fullName b) (Booking.guestName b) (Booking.phoneNumber b)
    (Booking.checkIn b) (Booking.checkOut b) (Booking.adults b)
    (Booking.children b) (Booking.userId b) (Booking.ownerId b)
    (Booking.roomId b) (Booking.hotelId b) q (Booking.status b).

(** [pre('save')] on a new document, where every path counts as modified:
    the price is set from the room, the room must belong to the hotel and
    the hotel to the owner, the user must be a customer and the owner an
    owner, and the room must be free. *)
Definition preSave (doc : Booking.t) : Handler Booking.t :=
  db <- get;;
  room <- find_or (rooms db !! Booking.roomId doc) (hook_error "Room not found");;
  let doc := set_price (stay_price (Room.basePrice room) (Booking.checkIn doc)
                          (Booking.checkOut doc)) doc in
  fail_if (negb (Pos.eqb (Room.hotelId room) (Booking.hotelId doc)))
    (hook_error "Room does not belong to the specified hotel");;;
  hotel <- find_or (hotels db !! Booking.hotelId doc)
             (hook_error "Hotel does not belong to the specified owner");;
  fail_if (negb (Pos.eqb (Hotel.ownerId hotel) (Booking.ownerId doc)))
    (hook_error "Hotel does not belong to the specified owner");;;
  user <- find_or (users db !! Booking.userId doc) (hook_error "User not found");;
  fail_if (negb (User.role_eqb (User.role user) User.customer))
    (hook_error "Only customers can make bookings");;;
  owner <- find_or (users db !! Booking.ownerId doc) (hook_error "Owner not found");;
  fail_if (negb (User.role_eqb (User.role owner) User.owner))
    (hook_error "User must have owner role to receive bookings");;;
  fail_if (hasConflict (bookings db) (Booking.roomId doc) (Booking.checkIn doc)
             (Booking.checkOut doc) None)
    (hook_error "Room is not available for the selected dates");;;
  ret doc.

(** [RoomBooking.create(doc)]: validate, run the save hook, insert under a
    new id. *)
Definition create (L : Lib) (now : Instant) (doc : Booking.t)
    : Handler (ObjectId * Booking.t) :=
  fail_if (negb (validate L now doc)) validation_failed;;;
  doc' <- preSave doc;;
  db <- get;;
  let id := fresh (dom (bookings db)) in
  put (with_bookings (<[id := doc']> (bookings db)) db);;;
  ret (id, doc').

(** [create] in two parts, split at the last [await] before the write:
    the validators and the save hook, which only read, and the insert. *)
Definition checked (L : Lib) (now : Instant) (doc : Booking.t)
    : Handler Booking.t :=
  fail_if (negb (validate L now doc)) validation_failed;;;
  preSave doc.

Definition insertOne (doc : Booking.t) : Handler (ObjectId * Booking.t) :=
  db <- get;;
  let id := fresh (dom (bookings db)) in
  put (with_bookings (<[id := doc]> (bookings db)) db);;;
  ret (id, doc).

(** [$set] of the paths the update names. *)
Definition apply_patch (p : Patch) (b : Booking.t) : Booking.t :=
  Booking.mk
    (default (Booking.fullName b) (p_fullName p))
    (default (Booking.guestName b) (p_guestName p))
    (default (Booking.phoneNumber b) (p_phoneNumber p))
    (default (Booking.checkIn b) (p_checkIn p))
    (default (Booking.checkOut b) (p_checkOut p))
    (default (Booking.adults b) (p_adults p))
    (default (Booking.children b) (p_children p))
    (default (Booking.userId b) (p_userId p))
    (default (Booking.ownerId b) (p_ownerId p))
    (default (Booking.roomId b) (p_roomId p))
    (default (Booking.hotelId b) (p_hotelId p))
    (default (Booking.price b) (p_price p))
    (default (Booking.status b) (p_status p ≫= Booking.parse_status)).

(** [findByIdAndUpdate(id, update, { new: true, runValidators: true })]:
    no save hook runs; the updated document is returned, or [null] when
    the id is unknown.  The store also sets the [updatedAt] stamp of the
    document, which is not among the fields of [Booking.t]: what is said
    below of a booking after an update is said of those fields. *)
Definition findByIdAndUpdate (L : Lib) (now : Instant) (id : ObjectId)
    (update : Patch) : Handler (option (ObjectId * Booking.t)) :=
  fail_if (negb (validate_update L now update)) validation_failed;;;
  db <- get;;
  match bookings db !! id with
  | None => ret None
  | Some b =>
      let b' := apply_patch update b in
      put (with_bookings (<[id := b']> (bookings db)) db);;;
      ret (Some (id, b'))
  end.

End RoomBooking.

(** ** Request validation ([createRoomBookingSchema]) *)

Module validation.

(** The body of [POST /api/room-bookings]. *)
Record CreateBody := mkCreateBody {
  fullName : string;
  guestName : string;
  phoneNumber : string;
  checkIn : Instant;
  checkOut : Instant;
  adults : Z;
  children : Z;
  roomId : ObjectId
}.

(** [checkIn: Joi.date().iso().greater('now')],
    [checkOut: Joi.date().iso().greater(Joi.ref('checkIn'))],
    [adults: integer, 1..20], [children: integer, 0..10]. *)
Definition createRoomBookingSchema (L : Lib) (now : Instant) (body : CreateBody)
    : bool :=
  joi_text L "fullName" (fullName body)
  && joi_text L "guestName" (guestName body)
  && joi_text L "phoneNumber" (phoneNumber body)
  && (now <? checkIn body)
  && (checkIn body <? checkOut body)
  && RoomBooking.in_range 1 20 (adults body)
  && RoomBooking.in_range 0 10 (children body).

Definition validation_error : AppError := mkAppError "Validation error" 400.

(** [validateCreateRoomBooking]: answer 400 or call [next()]. *)
Definition validateCreateRoomBooking (L : Lib) (now : Instant)
    (body : CreateBody) : Handler unit :=
  fail_if (negb (createRoomBookingSchema L now body)) validation_error.

End validation.

(** ** The booking controller *)

Module roomBookingController.

Import validation.

Definition room_not_found := mkAppError "Room not found" 404.
Definition hotel_not_found := mkAppError "Hotel not found" 404.
Definition hotel_not_available :=
  mkAppError "Hotel is not available for booking" 400.
Definition owner_not_found := mkAppError "Hotel owner not found" 400.
Definition owner_without_role :=
  mkAppError "Hotel owner does not have owner role" 400.
Definition room_not_available :=
  mkAppError "Room is not available for the selected dates" 400.
Definition booking_not_found := mkAppError "Booking not found" 404.
Definition cannot_view :=
  mkAppError "You do not have permission to view this booking" 403.
Definition not_your_booking_update :=
  mkAppError "You can only update your own bookings" 403.
Definition cannot_be_modified :=
  mkAppError "This booking cannot be modified. Check-in is too soon or booking is not in pending status" 400.
Definition not_your_booking_cancel :=
  mkAppError "You can only cancel your own bookings" 403.
Definition cannot_be_cancelled :=
  mkAppError "This booking cannot be cancelled. Check-in is too soon" 400.
Definition not_your_hotel :=
  mkAppError "You can only update bookings for your hotels" 403.
Definition invalid_status :=
  mkAppError "Invalid status. Must be one of: pending, confirmed, cancelled, rejected" 400.
Definition no_assigned_city :=
  mkAppError "City admin must have an assigned city" 403.
(** Reading a property of [null] throws; the global handler answers 500. *)
Definition type_error :=
  mkAppError "Cannot read properties of null (reading 'basePrice')" 500.
Definition negative_skip :=
  mkAppError "Skip value must be non-negative" 500.

(** [createRoomBooking]: the hotel is the room's, the owner is the hotel's
    (a [populate] of a missing user leaves [null]); the body's own ids, if
    any, are never read. *)
Definition createRoomBooking (L : Lib) (now : Instant) (user : Principal)
    (body : CreateBody) : Handler (ObjectId * Booking.t) :=
  db <- get;;
  room <- find_or (rooms db !! roomId body) room_not_found;;
  let hotelId := Room.hotelId room in
  hotel <- find_or (hotels db !! hotelId) hotel_not_found;;
  fail_if (negb (Hotel.isVisible hotel)
           || negb (Hotel.is_approved (Hotel.status hotel)))
    hotel_not_available;;;
  owner <- find_or (users db !! Hotel.ownerId hotel) owner_not_found;;
  fail_if (negb (User.role_eqb (User.role owner) User.owner))
    owner_without_role;;;
  fail_if (RoomBooking.hasConflict (bookings db) (roomId body) (checkIn body)
             (checkOut body) None)
    room_not_available;;;
  let price := stay_price (Room.basePrice room) (checkIn body) (checkOut body) in
  RoomBooking.create L now
    (Booking.mk (fullName body) (guestName body) (phoneNumber body)
       (checkIn body) (checkOut body) (adults body) (children body)
       (_id user) (Hotel.ownerId hotel) (roomId body) hotelId price
       Booking.pending).

(** [createRoomBooking] as far as the insert: everything it awaits before
    the document is written. *)
Definition createRoomBooking_reads (L : Lib) (now : Instant) (user : Principal)
    (body : CreateBody) : Handler Booking.t :=
  db <- get;;
  room <- find_or (rooms db !! roomId body) room_not_found;;
  let hotelId := Room.hotelId room in
  hotel <- find_or (hotels db !! hotelId) hotel_not_found;;
  fail_if (negb (Hotel.isVisible hotel)
           || negb (Hotel.is_approved (Hotel.status hotel)))
    hotel_not_available;;;
  owner <- find_or (users db !! Hotel.ownerId hotel) owner_not_found;;
  fail_if (negb (User.role_eqb (User.role owner) User.owner))
    owner_without_role;;;
  fail_if (RoomBooking.hasConflict (bookings db) (roomId body) (checkIn body)
             (checkOut body) None)
    room_not_available;;;
  let price := stay_price (Room.basePrice room) (checkIn body) (checkOut body) in
  RoomBooking.checked L now
    (Booking.mk (fullName body) (guestName body) (phoneNumber body)
       (checkIn body) (checkOut body) (adults body) (children body)
       (_id user) (Hotel.ownerId hotel) (roomId body) hotelId price
       Booking.pending).

(** Two requests to book served together.  Every [await] of a handler
    gives way to the other requests in progress, and no transaction, lock
    or unique index ties a request's availability query to its insert: the
    reads of the second request can all be answered before the insert of
    the first is applied. *)
Definition createRoomBooking_interleaved (L : Lib) (now : Instant)
    (user1 : Principal) (body1 : CreateBody)
    (user2 : Principal) (body2 : CreateBody)
    : Handler ((ObjectId * Booking.t) * (ObjectId * Booking.t)) :=
  doc1 <- createRoomBooking_reads L now user1 body1;;
  doc2 <- createRoomBooking_reads L now user2 body2;;
  booking1 <- RoomBooking.insertOne doc1;;
  booking2 <- RoomBooking.insertOne doc2;;
  ret (booking1, booking2).

(** The handlers of [POST /] after the role gate, in order. *)
Definition postRoomBooking (L : Lib) (now : Instant) (user : Principal)
    (body : CreateBody) : Handler (ObjectId * Booking.t) :=
  validateCreateRoomBooking L now body;;;
  createRoomBooking L now user body.

(** [getBookingById].  The booking is found with its references populated,
    so the two ownership methods of the access check read documents in the
    place of ids; [||] evaluates its right side only when the left one is
    false.  The answer carries the booking. *)
Definition getBookingById (user : Principal) (id : ObjectId)
    : Handler (ObjectId * Booking.t) :=
  db <- get;;
  booking <- find_or (RoomBooking.populate db <$> bookings db !! id)
               booking_not_found;;
  ownsIt <- RoomBooking.Populated.isOwnedByUser booking (_id user);;
  ownsHotel <-
    (if ownsIt then ret true
     else RoomBooking.Populated.isOwnedByHotelOwner booking (_id user));;
  let canView :=
    ownsIt || ownsHotel || User.role_eqb (role user) User.super_admin in
  fail_if (negb canView) cannot_view;;;
  ret (id, RoomBooking.Populated.booking booking).

(** [const { status, price, userId, ownerId, ...updateData } = req.body] *)
Definition strip_protected (body : RoomBooking.Patch) : RoomBooking.Patch :=
  RoomBooking.mkPatch
    (RoomBooking.p_fullName body) (RoomBooking.p_guestName body)
    (RoomBooking.p_phoneNumber body) (RoomBooking.p_checkIn body)
    (RoomBooking.p_checkOut body) (RoomBooking.p_adults body)
    (RoomBooking.p_children body) (RoomBooking.p_roomId body)
    (RoomBooking.p_hotelId body) None None None None.

(** [updateData.price = ...] *)
Definition with_price (q : Q) (p : RoomBooking.Patch) : RoomBooking.Patch :=
  RoomBooking.mkPatch
    (RoomBooking.p_fullName p) (RoomBooking.p_guestName p)
    (RoomBooking.p_phoneNumber p) (RoomBooking.p_checkIn p)
    (RoomBooking.p_checkOut p) (RoomBooking.p_adults p)
    (RoomBooking.p_children p) (RoomBooking.p_roomId p)
    (RoomBooking.p_hotelId p) (RoomBooking.p_status p) (Some q)
    (RoomBooking.p_userId p) (RoomBooking.p_ownerId p).

(** [updateData.checkIn || updateData.checkOut || updateData.roomId] *)
Definition touches_stay (p : RoomBooking.Patch) : bool :=
  bool_decide (is_Some (RoomBooking.p_checkIn p))
  || bool_decide (is_Some (RoomBooking.p_checkOut p))
  || bool_decide (is_Some (RoomBooking.p_roomId p)).

Definition updateBooking (L : Lib) (now : Instant) (user : Principal)
    (id : ObjectId) (body : RoomBooking.Patch)
    : Handler (option (ObjectId * Booking.t)) :=
  db <- get;;
  booking <- find_or (bookings db !! id) booking_not_found;;
  fail_if (negb (RoomBooking.isOwnedByUser booking (_id user)))
    not_your_booking_update;;;
  fail_if (negb (RoomBooking.canBeModified now booking)) cannot_be_modified;;;
  let updateData := strip_protected body in
  updateData <-
    (if touches_stay updateData then
       let checkInDate :=
         default (Booking.checkIn booking) (RoomBooking.p_checkIn updateData) in
       let checkOutDate :=
         default (Booking.checkOut booking) (RoomBooking.p_checkOut updateData) in
       let roomId :=
         default (Booking.roomId booking) (RoomBooking.p_roomId updateData) in
       fail_if (RoomBooking.hasConflict (bookings db) roomId checkInDate
                  checkOutDate (Some id))
         room_not_available;;;
       room <- find_or (rooms db !! roomId) type_error;;
       ret (with_price (stay_price (Room.basePrice room) checkInDate checkOutDate)
              updateData)
     else ret updateData);;
  RoomBooking.findByIdAndUpdate L now id updateData.

Definition cancelBooking (L : Lib) (now : Instant) (user : Principal)
    (id : ObjectId) : Handler (option (ObjectId * Booking.t)) :=
  db <- get;;
  booking <- find_or (bookings db !! id) booking_not_found;;
  fail_if (negb (RoomBooking.isOwnedByUser booking (_id user)))
    not_your_booking_cancel;;;
  fail_if (negb (RoomBooking.canBeCancelled now booking)) cannot_be_cancelled;;;
  RoomBooking.findByIdAndUpdate L now id (RoomBooking.status_patch "cancelled").

Definition canUpdateStatus (user : Principal) (booking : Booking.t) : bool :=
  RoomBooking.isOwnedByHotelOwner booking (_id user)
  || User.role_eqb (role user) User.super_admin.

Definition updateBookingStatus (L : Lib) (now : Instant) (user : Principal)
    (id : ObjectId) (status : string)
    : Handler (option (ObjectId * Booking.t)) :=
  db <- get;;
  booking <- find_or (bookings db !! id) booking_not_found;;
  fail_if (negb (canUpdateStatus user booking)) not_your_hotel;;;
  fail_if (negb (bool_decide (is_Some (Booking.parse_status status))))
    invalid_status;;;
  RoomBooking.findByIdAndUpdate L now id (RoomBooking.status_patch status).

(** The query string of a listing. *)
Record ListQuery := mkListQuery {
  page : Z;
  pageSize : Z;
  status : option string;
  search : option string;
  sortBy : string;
  sortDir : string
}.

(** [status && status !== 'all'] (a non-empty string is truthy), then
    [filter.status = status]. *)
Definition status_filter (q : ListQuery) (b : Booking.t) : bool :=
  match status q with
  | Some s =>
      if negb (String.eqb s "") && negb (String.eqb s "all")
      then String.eqb (Booking.status_name (Booking.status b)) s
      else true
  | None => true
  end.

(** [$or] of the three case-insensitive [$regex] tests. *)
Definition search_filter (L : Lib) (q : ListQuery) (b : Booking.t) : bool :=
  match search q with
  | Some s =>
      if negb (String.eqb s "")
      then regex_i L s (Booking.fullName b)
           || regex_i L s (Booking.guestName b)
           || regex_i L s (Booking.phoneNumber b)
      else true
  | None => true
  end.

(** The order of [.sort({ [sortBy]: 1 })] and of [.sort({ [sortBy]: -1 })]. *)
Definition key_le (L : Lib) (field : string) (x y : ObjectId * Booking.t) : Prop :=
  sort_key L field x.1 x.2 ≤ sort_key L field y.1 y.2.
Definition key_ge (L : Lib) (field : string) (x y : ObjectId * Booking.t) : Prop :=
  sort_key L field y.1 y.2 ≤ sort_key L field x.1 x.2.

#[global] Instance key_le_dec L field x y : Decision (key_le L field x y).
Proof. unfold key_le. apply _. Defined.
#[global] Instance key_ge_dec L field x y : Decision (key_ge L field x y).
Proof. unfold key_ge. apply _. Defined.

(** [.sort({ [sortBy]: sortDir === 'desc' ? -1 : 1 })] *)
Definition sort_bookings (L : Lib) (q : ListQuery)
    (l : list (ObjectId * Booking.t)) : list (ObjectId * Booking.t) :=
  if String.eqb (sortDir q) "desc"
  then merge_sort (key_ge L (sortBy q)) l
  else merge_sort (key_le L (sortBy q)) l.

(** [.skip(skip).limit(limit)]; a limit of 0 is no limit. *)
Definition skip_limit {A} (skip limit : Z) (l : list A) : list A :=
  let l := drop (Z.to_nat skip) l in
  if limit =? 0 then l else take (Z.abs_nat limit) l.

(** [Hotel.find({ cityId: req.user.cityId }).select('_id')], then the ids. *)
Definition city_hotel_ids (db : Db) (cityId : option ObjectId) : list ObjectId :=
  (map_to_list
     (filter (λ kh : ObjectId * Hotel.t, Some (Hotel.cityId kh.2) = cityId)
        (hotels db))).*1.

(** [getCityAdminBookings]: the hotels of the principal's city first, then
    the bookings whose [hotelId] is [$in] them. *)
Definition getCityAdminBookings (L : Lib) (user : Principal) (q : ListQuery)
    : Handler (list (ObjectId * Booking.t)) :=
  fail_if (User.role_eqb (role user) User.city_admin
           && negb (bool_decide (is_Some (cityId user))))
    no_assigned_city;;;
  db <- get;;
  let hotelIds := city_hotel_ids db (cityId user) in
  let found :=
    map_to_list
      (filter (λ kb : ObjectId * Booking.t,
                 bool_decide (Booking.hotelId kb.2 ∈ hotelIds)
                 && status_filter q kb.2
                 && search_filter L q kb.2 = true)
         (bookings db)) in
  let skip := (page q - 1) * pageSize q in
  fail_if (skip <? 0) negative_skip;;;
  ret (skip_limit skip (pageSize q) (sort_bookings L q found)).

End roomBookingController.

(** The document [createRoomBooking] hands to [RoomBooking.create]. *)
Definition new_booking (user : Principal) (body : validation.CreateBody)
    (room : Room.t) (hotel : Hotel.t) : Booking.t :=
  Booking.mk (validation.fullName body) (validation.guestName body)
    (validation.phoneNumber body) (validation.checkIn body)
    (validation.checkOut body) (validation.adults body)
    (validation.children body) (_id user) (Hotel.ownerId hotel)
    (validation.roomId body) (Room.hotelId room)
    (stay_price (Room.basePrice room) (validation.checkIn body)
       (validation.checkOut body))
    Booking.pending.

(** ** The consistency invariant *)

(** Two stays overlap as half-open intervals [[checkIn, checkOut)]. *)
Definition overlap (a b : Booking.t) : Prop :=
  Booking.checkIn a < Booking.checkOut b ∧ Booking.checkIn b < Booking.checkOut a.

(** No two pending or confirmed bookings of one room overlap. *)
Definition no_double_booking (bs : gmap ObjectId Booking.t) : Prop :=
  ∀ i j a b,
    bs !! i = Some a → bs !! j = Some b → i ≠ j →
    Booking.roomId a = Booking.roomId b →
    Booking.is_active (Booking.status a) = true →
    Booking.is_active (Booking.status b) = true →
    ¬ overlap a b.

(** ** A worked scenario

    Two customers, two owners with one hotel each in two cities, a city
    administrator of the first city and a super administrator; one room
    per hotel. *)

Module Scenario.

Definition lib : Lib :=
  mkLib (λ _ _, true) (λ _ _, true) (λ _ _, true) (λ _ id _, Z.pos id) None.

Definition jan_1_2025 : Instant := 1735689600000.
Definition jan_2_2025 : Instant := jan_1_2025 + ms_per_day.
Definition jan_3_2025 : Instant := jan_1_2025 + 2 * ms_per_day.
Definition jan_4_2025 : Instant := 1735948800000.
Definition dec_1_2024 : Instant := jan_1_2025 - 31 * ms_per_day.

Definition customer_a : Principal := mkPrincipal 1 User.customer None.
Definition customer_b : Principal := mkPrincipal 2 User.customer None.
Definition owner_a : Principal := mkPrincipal 3 User.owner None.
Definition owner_b : Principal := mkPrincipal 4 User.owner None.
Definition city_admin_x : Principal := mkPrincipal 5 User.city_admin (Some 100%positive).
Definition city_admin_nowhere : Principal := mkPrincipal 7 User.city_admin None.
Definition admin : Principal := mkPrincipal 6 User.super_admin None.

Definition db : Db :=
  mkDb
    (list_to_map
       [(1%positive, User.mk User.customer None);
        (2%positive, User.mk User.customer None);
        (3%positive, User.mk User.owner None);
        (4%positive, User.mk User.owner None);
        (5%positive, User.mk User.city_admin (Some 100%positive));
        (6%positive, User.mk User.super_admin None);
        (7%positive, User.mk User.city_admin None)])
    (list_to_map
       [(10%positive, Hotel.mk 3 100 Hotel.approved true);
        (11%positive, Hotel.mk 4 101 Hotel.approved true)])
    (list_to_map
       [(20%positive, Room.mk 10 (100 # 1));
        (21%positive, Room.mk 11 (150 # 1))])
    ∅.

(** The request of customer A: room 20 from 1 to 4 January 2025. *)
Definition request : validation.CreateBody :=
  validation.mkCreateBody "Ahmed Said" "Ahmed Said" "+967712345678"
    jan_1_2025 jan_4_2025 2 1 20.

(** The booking it makes. *)
Definition stay : Booking.t :=
  Booking.mk "Ahmed Said" "Ahmed Said" "+967712345678"
    jan_1_2025 jan_4_2025 2 1 1 3 20 10 (300 # 1) Booking.pending.

(** A booking of customer B inside the same days, same room. *)
Definition rival : Booking.t :=
  Booking.mk "Bilal Omar" "Bilal Omar" "+967712345679"
    jan_2_2025 jan_3_2025 1 0 2 3 20 10 (100 # 1) Booking.confirmed.

Definition db_stay : Db := with_bookings {[1%positive := stay]} db.

Definition db_confirmed : Db :=
  with_bookings {[1%positive := Booking.set_status Booking.confirmed stay]} db.

Definition db_cancelled : Db :=
  with_bookings {[1%positive := Booking.set_status Booking.cancelled stay]} db.

(** Customer A has cancelled, then customer B has booked and been confirmed. *)
Definition db_rebooked : Db :=
  with_bookings
    (<[2%positive := rival]> {[1%positive := Booking.set_status Booking.cancelled stay]})
    db.

(** Both bookings of room 20 active at once. *)
Definition db_double_booked : Db :=
  with_bookings
    (<[2%positive := rival]> {[1%positive := Booking.set_status Booking.confirmed stay]})
    db.

(** [{ roomId: 21 }], [{ checkIn: 2 January }] and a listing's query. *)
Definition move_to_room_21 : RoomBooking.Patch :=
  RoomBooking.mkPatch None None None None None None None (Some 21%positive)
    None None None None None.


(** The stay after each of the two updates. *)
Definition stay_in_room_21 : Booking.t :=
  Booking.mk "Ahmed Said" "Ahmed Said" "+967712345678"
    jan_1_2025 jan_4_2025 2 1 1 3 21 10 (450 # 1) Booking.pending.


(** [{ roomId: 21, hotelId: 99 }]: a hotel id of the client's choosing. *)
Definition move_and_name_hotel : RoomBooking.Patch :=
  RoomBooking.mkPatch None None None None None None None (Some 21%positive)
    (Some 99%positive) None None None None.

Definition stay_in_room_21_hotel_99 : Booking.t :=
  Booking.mk "Ahmed Said" "Ahmed Said" "+967712345678"
    jan_1_2025 jan_4_2025 2 1 1 3 21 99 (450 # 1) Booking.pending.

Definition first_page : roomBookingController.ListQuery :=
  roomBookingController.mkListQuery 1 20 None None "createdAt" "desc".

(** The request of customer B for a night inside the stay of customer A,
    and both stored as pending. *)
Definition rival_request : validation.CreateBody :=
  validation.mkCreateBody "Bilal Omar" "Bilal Omar" "+967712345679"
    jan_2_2025 jan_3_2025 1 0 20.

Definition db_raced : Db :=
  with_bookings
    (<[2%positive := Booking.set_status Booking.pending rival]>
       {[1%positive := stay]})
    db.

(** Room 20 priced at 0.1 a night, that is, at the double that [0.1]
    denotes, and what the request then makes: 0.30000000000000004. *)
Definition tenth : Q := binary64 (1 # 10).

Definition db_tenth : Db :=
  mkDb (users db) (hotels db) (<[20%positive := Room.mk 10 tenth]> (rooms db))
    (bookings db).

Definition stay_tenth : Booking.t :=
  Booking.mk "Ahmed Said" "Ahmed Said" "+967712345678"
    jan_1_2025 jan_4_2025 2 1 1 3 20 10
    (1351079888211149 # 4503599627370496) Booking.pending.

End Scenario.

(** ** The role gate ([middleware/auth.js]) *)

Module auth.

Definition not_authenticated : AppError :=
  mkAppError "You must be authenticated to access this route." 401.
Definition not_permitted : AppError :=
  mkAppError "You do not have permission to perform this action." 403.

(** [requireRole(...roles)]: [req.user] must be there and its role among
    [roles]. *)
Definition requireRole (roles : list User.Role) (user : option Principal)
    : Handler unit :=
  match user with
  | None => throw not_authenticated
  | Some u => fail_if (negb (existsb (User.role_eqb (role u)) roles)) not_permitted
  end.

End auth.

(** ** The listings and the statistics of the booking controller *)

Module bookingLists.

Import roomBookingController.

(** The [pagination] object of a listing.  [totalPages] is
    [Math.ceil(totalCount / pageSize)], which is not a finite number when
    the page size is 0 (and is then sent as [null]). *)
Record Pagination := mkPagination {
  currentPage : Z;
  pg_pageSize : Z;
  totalPages : option Z;
  totalCount : Z;
  hasNextPage : bool;
  hasPrevPage : bool
}.

Record Listing := mkListing {
  items : list (ObjectId * Booking.t);
  pagination : Pagination
}.

(** [Math.ceil(totalCount / pageSize)] *)
Definition totalPages_of (totalCount pageSize : Z) : option Z :=
  if pageSize =? 0 then None
  else Some (Qceiling (inject_Z totalCount / inject_Z pageSize)%Q).

(** [page < totalPages]: everything is below [Infinity] and nothing is
    below [NaN] (0 / 0). *)
Definition hasNextPage_of (page totalCount : Z) (totalPages : option Z) : bool :=
  match totalPages with
  | Some t => page <? t
  | None => 0 <? totalCount
  end.

Definition pagination_of (q : ListQuery) (totalCount : Z) : Pagination :=
  let pages := totalPages_of totalCount (pageSize q) in
  mkPagination (page q) (pageSize q) pages totalCount
    (hasNextPage_of (page q) totalCount pages) (1 <? page q).

(** [Model.countDocuments(filter)] *)
Definition countDocuments (P : ObjectId * Booking.t → bool)
    (bs : gmap ObjectId Booking.t) : Z :=
  Z.of_nat (size (filter (λ kb, P kb = true) bs)).

(** [.sort({ [sortBy]: sortDir === 'asc' ? 1 : -1 })] *)
Definition sort_desc_unless_asc (L : Lib) (q : ListQuery)
    (l : list (ObjectId * Booking.t)) : list (ObjectId * Booking.t) :=
  if String.eqb (sortDir q) "asc"
  then merge_sort (key_le L (sortBy q)) l
  else merge_sort (key_ge L (sortBy q)) l.

(** The query, the cursor and the count that the listings share:
    [find(filter).sort(..).skip(skip).limit(limit)] beside
    [countDocuments(filter)], then the response. *)
Definition run_listing
    (sort : list (ObjectId * Booking.t) → list (ObjectId * Booking.t))
    (P : ObjectId * Booking.t → bool) (q : ListQuery) : Handler Listing :=
  db <- get;;
  let found := map_to_list (filter (λ kb, P kb = true) (bookings db)) in
  let skip := (page q - 1) * pageSize q in
  fail_if (skip <? 0) negative_skip;;;
  ret (mkListing (skip_limit skip (pageSize q) (sort found))
         (pagination_of q (countDocuments P (bookings db)))).

(** [getMyBookings]: [filter = { userId }], and the status when one is
    asked for. *)
Definition getMyBookings (L : Lib) (user : Principal) (q : ListQuery)
    : Handler Listing :=
  run_listing (sort_desc_unless_asc L q)
    (λ kb, Pos.eqb (Booking.userId kb.2) (_id user) && status_filter q kb.2) q.

(** The query of the owner's and the administrator's listings: a hotel and
    an owner can be asked for ([None] when absent, empty or ['all']). *)
Record ManagerQuery := mkManagerQuery {
  base : ListQuery;
  q_hotelId : option ObjectId;
  q_ownerId : option ObjectId
}.

Definition id_filter (wanted : option ObjectId) (actual : ObjectId) : bool :=
  match wanted with Some w => Pos.eqb actual w | None => true end.

(** The order of the static [getOwnerBookings]: the [sort] option of
    [find], then [.sort({ createdAt: -1 })] added to it -- by the asked
    field first and by creation, newest first, among equals; asking for
    [createdAt] itself leaves newest first. *)
Definition owner_order (L : Lib) (q : ListQuery) (x y : ObjectId * Booking.t)
    : Prop :=
  if String.eqb (sortBy q) "createdAt" then key_ge L "createdAt" x y
  else
    let kx := sort_key L (sortBy q) x.1 x.2 in
    let ky := sort_key L (sortBy q) y.1 y.2 in
    if String.eqb (sortDir q) "asc"
    then kx < ky ∨ (kx = ky ∧ key_ge L "createdAt" x y)
    else ky < kx ∨ (kx = ky ∧ key_ge L "createdAt" x y).

#[global] Instance owner_order_dec L q x y : Decision (owner_order L q x y).
Proof. unfold owner_order. repeat case_match; apply _. Defined.

(** The static [RoomBooking.getOwnerBookings(ownerId, filter, options)]:
    [ownerId ? { ownerId, ...filter } : filter]. *)
Definition static_getOwnerBookings (L : Lib) (ownerId : option ObjectId)
    (P : ObjectId * Booking.t → bool) (q : ListQuery)
    (bs : gmap ObjectId Booking.t) : list (ObjectId * Booking.t) :=
  let ownerFilter kb := id_filter ownerId (Booking.ownerId kb.2) && P kb in
  skip_limit ((page q - 1) * pageSize q) (pageSize q)
    (merge_sort (owner_order L q)
       (map_to_list (filter (λ kb, ownerFilter kb = true) bs))).

(** [getOwnerBookings]: [filter = { ownerId }], the status and the hotel
    when asked for. *)
Definition getOwnerBookings (L : Lib) (user : Principal) (q : ManagerQuery)
    : Handler Listing :=
  let P kb :=
    Pos.eqb (Booking.ownerId kb.2) (_id user)
    && status_filter (base q) kb.2
    && id_filter (q_hotelId q) (Booking.hotelId kb.2) in
  db <- get;;
  fail_if ((page (base q) - 1) * pageSize (base q) <? 0) negative_skip;;;
  ret (mkListing
         (static_getOwnerBookings L (Some (_id user)) P (base q) (bookings db))
         (pagination_of (base q) (countDocuments P (bookings db)))).

(** [getAllBookings]: the status, the hotel, the owner and the search when
    asked for; the static is called with no owner. *)
Definition getAllBookings (L : Lib) (q : ManagerQuery) : Handler Listing :=
  let P kb :=
    status_filter (base q) kb.2
    && id_filter (q_hotelId q) (Booking.hotelId kb.2)
    && id_filter (q_ownerId q) (Booking.ownerId kb.2)
    && search_filter L (base q) kb.2 in
  db <- get;;
  fail_if ((page (base q) - 1) * pageSize (base q) <? 0) negative_skip;;;
  ret (mkListing
         (static_getOwnerBookings L None P (base q) (bookings db))
         (pagination_of (base q) (countDocuments P (bookings db)))).

(** The [stats] object of [getBookingStats]. *)
Record Stats := mkStats {
  totalBookings : Z;
  pendingBookings : Z;
  confirmedBookings : Z;
  cancelledBookings : Z;
  rejectedBookings : Z;
  totalRevenue : Q
}.

Definition has_status (s : Booking.Status) (kb : ObjectId * Booking.t) : bool :=
  String.eqb (Booking.status_name (Booking.status kb.2)) (Booking.status_name s).

(** [{ $match: { status: 'confirmed' } }, { $group: { _id: null, total:
    { $sum: '$price' } } }], then [length > 0 ? [0].total : 0].  The
    prices are doubles and are added one after the other, every sum
    rounded, in the order in which the store meets the documents. *)
Definition sum_prices (group : list (ObjectId * Booking.t)) : Q :=
  foldl (λ total kb, binary64 (total + Booking.price kb.2)%Q) 0%Q group.

Definition confirmed_revenue (bs : gmap ObjectId Booking.t) : Q :=
  match map_to_list (filter (λ kb, has_status Booking.confirmed kb = true) bs) with
  | [] => 0%Q
  | group => sum_prices group
  end.

Definition getBookingStats : Handler Stats :=
  db <- get;;
  ret (mkStats
         (countDocuments (λ _, true) (bookings db))
         (countDocuments (has_status Booking.pending) (bookings db))
         (countDocuments (has_status Booking.confirmed) (bookings db))
         (countDocuments (has_status Booking.cancelled) (bookings db))
         (countDocuments (has_status Booking.rejected) (bookings db))
         (confirmed_revenue (bookings db))).

(** [{ ...q, page }] *)
Definition on_page (p : Z) (q : ListQuery) : ListQuery :=
  mkListQuery p (pageSize q) (status q) (search q) (sortBy q) (sortDir q).




#[global] Instance status_eq_dec : EqDecision Booking.Status.
Proof. solve_decision. Defined.

(** The counter of a status in the statistics. *)
Definition count_of (s : Booking.Status) (stats : Stats) : Z :=
  match s with
  | Booking.pending => pendingBookings stats
  | Booking.confirmed => confirmedBookings stats
  | Booking.cancelled => cancelledBookings stats
  | Booking.rejected => rejectedBookings stats
  end.

End bookingLists.

(** ** Moderating hotels, deleting rooms and users *)

Module hotelController.

Definition with_hotels (hs : gmap ObjectId Hotel.t) (db : Db) : Db :=
  mkDb (users db) hs (rooms db) (bookings db).

Definition set_status (s : Hotel.Status) (h : Hotel.t) : Hotel.t :=
  Hotel.mk (Hotel.ownerId h) (Hotel.cityId h) s (Hotel.isVisible h).

Definition set_isVisible (v : bool) (h : Hotel.t) : Hotel.t :=
  Hotel.mk (Hotel.ownerId h) (Hotel.cityId h) (Hotel.status h) v.

(** [hotelSchema.methods.isOwnedBy] *)
Definition isOwnedBy (h : Hotel.t) (userId : ObjectId) : bool :=
  Pos.eqb (Hotel.ownerId h) userId.

(** [hotelSchema.methods.isPubliclyVisible] *)
Definition isPubliclyVisible (h : Hotel.t) : bool :=
  Hotel.is_approved (Hotel.status h) && Hotel.isVisible h.

Definition hotel_not_found : AppError := mkAppError "Hotel not found" 404.
Definition not_your_hotel : AppError :=
  mkAppError "You can only show/hide your own hotels" 403.
Definition not_approved : AppError :=
  mkAppError "Only approved hotels can be made visible" 400.

(** [Hotel.findByIdAndUpdate(id, update, { new: true })], the update being
    one of [{ status }] and [{ isVisible }]: the updated hotel, or [null].
    The store also sets the [updatedAt] stamp of the hotel, which is not
    among the fields of [Hotel.t]. *)
Definition findByIdAndUpdate (id : ObjectId) (update : Hotel.t → Hotel.t)
    : Handler (option Hotel.t) :=
  db <- get;;
  match hotels db !! id with
  | None => ret None
  | Some h =>
      put (with_hotels (<[id := update h]> (hotels db)) db);;;
      ret (Some (update h))
  end.

Definition approveHotel (id : ObjectId) : Handler Hotel.t :=
  hotel <- findByIdAndUpdate id (set_status Hotel.approved);;
  find_or hotel hotel_not_found.

Definition rejectHotel (id : ObjectId) : Handler Hotel.t :=
  hotel <- findByIdAndUpdate id (set_status Hotel.rejected);;
  find_or hotel hotel_not_found.

Definition showHotel (currentUser : Principal) (id : ObjectId)
    : Handler (option Hotel.t) :=
  db <- get;;
  hotel <- find_or (hotels db !! id) hotel_not_found;;
  fail_if (negb (isOwnedBy hotel (_id currentUser))) not_your_hotel;;;
  fail_if (negb (Hotel.is_approved (Hotel.status hotel))) not_approved;;;
  findByIdAndUpdate id (set_isVisible true).

Definition hideHotel (currentUser : Principal) (id : ObjectId)
    : Handler (option Hotel.t) :=
  db <- get;;
  hotel <- find_or (hotels db !! id) hotel_not_found;;
  fail_if (negb (isOwnedBy hotel (_id currentUser))) not_your_hotel;;;
  findByIdAndUpdate id (set_isVisible false).


End hotelController.

Module roomController.



End roomController.

Module userController.

Definition with_users (us : gmap ObjectId User.t) (db : Db) : Db :=
  mkDb us (hotels db) (rooms db) (bookings db).

Definition user_not_found : AppError := mkAppError "User not found" 404.
Definition cannot_delete_super_admin : AppError :=
  mkAppError "Cannot delete super admin user" 403.

Definition deleteUser (id : ObjectId) : Handler unit :=
  db <- get;;
  user <- find_or (users db !! id) user_not_found;;
  fail_if (User.role_eqb (User.role user) User.super_admin)
    cannot_delete_super_admin;;;
  put (with_users (delete id (users db)) db).

End userController.

(** ** The routes, after authentication

    Each route is its chain of handlers in order; [requireAuth] has set
    [req.user]. *)

Module routes.

Import roomBookingController.

(** [updateBookingStatusSchema]: [status] is one of the four names. *)
Definition validateUpdateBookingStatus (status : string) : Handler unit :=
  fail_if (negb (bool_decide (is_Some (Booking.parse_status status))))
    validation.validation_error.

(** [DELETE /api/room-bookings/:id] *)
Definition delete_booking (L : Lib) (now : Instant) (user : Principal)
    (id : ObjectId) : Handler (option (ObjectId * Booking.t)) :=
  auth.requireRole [User.customer] (Some user);;;
  cancelBooking L now user id.

(** [PATCH /api/room-bookings/:id/status] *)
Definition patch_booking_status (L : Lib) (now : Instant) (user : Principal)
    (id : ObjectId) (status : string)
    : Handler (option (ObjectId * Booking.t)) :=
  auth.requireRole [User.owner; User.super_admin] (Some user);;;
  validateUpdateBookingStatus status;;;
  updateBookingStatus L now user id status.

(** [POST /api/hotels/:id/show] and [/hide]: the body filled in by
    [validateHotelVisibility] is not read by the handlers. *)
Definition post_hotel_show (user : Principal) (id : ObjectId)
    : Handler (option Hotel.t) :=
  auth.requireRole [User.owner] (Some user);;;
  hotelController.showHotel user id.

Definition post_hotel_hide (user : Principal) (id : ObjectId)
    : Handler (option Hotel.t) :=
  auth.requireRole [User.owner] (Some user);;;
  hotelController.hideHotel user id.

(** [POST /api/hotels/:id/approve] and [/reject] *)
Definition post_hotel_approve (user : Principal) (id : ObjectId)
    : Handler Hotel.t :=
  auth.requireRole [User.super_admin] (Some user);;;
  hotelController.approveHotel id.

Definition post_hotel_reject (user : Principal) (id : ObjectId)
    : Handler Hotel.t :=
  auth.requireRole [User.super_admin] (Some user);;;
  hotelController.rejectHotel id.

End routes.

(** * Properties *)

Import roomBookingController.

(** ** Hours, nights and prices *)

Lemma Qgtb_true_iff (a b : Q) : Qgtb a b = true ↔ (b < a)%Q.
Proof.
  unfold Qgtb. rewrite negb_true_iff, <- not_true_iff_false, Qle_bool_iff.
  split; [apply Qnot_le_lt | apply Qlt_not_le].
Qed.

Lemma hours_lt_iff (h : Z) (now checkIn : Instant) :
  (inject_Z h < hoursUntilCheckIn now checkIn)%Q ↔ h * ms_per_hour < checkIn - now.
Proof.
  unfold hoursUntilCheckIn, Qlt, Qdiv, Qmult, Qinv, inject_Z. simpl.
  change ms_per_hour with 3600000. lia.
Qed.

Lemma nights_eq (checkIn checkOut : Instant) :
  nights checkIn checkOut = - ((- (checkOut - checkIn)) / ms_per_day).
Proof.
  unfold nights, Qceiling, Qfloor, Qopp, Qdiv, Qmult, Qinv, inject_Z. simpl.
  change ms_per_day with 86400000. f_equal. f_equal. lia.
Qed.

Lemma nights_bounds (checkIn checkOut : Instant) :
  (nights checkIn checkOut - 1) * ms_per_day < checkOut - checkIn
  ∧ checkOut - checkIn ≤ nights checkIn checkOut * ms_per_day.
Proof.
  rewrite nights_eq. change ms_per_day with 86400000.
  pose proof (Z.div_mod (- (checkOut - checkIn)) 86400000 ltac:(lia)) as Hdm.
  pose proof (Z.mod_pos_bound (- (checkOut - checkIn)) 86400000 ltac:(lia)) as Hb.
  lia.
Qed.

(** ** The availability check *)

Lemma conflicts_with_true_iff roomId checkIn checkOut ex id (b : Booking.t) :
  RoomBooking.conflicts_with roomId checkIn checkOut ex id b = true ↔
    Booking.roomId b = roomId
    ∧ (Booking.status b = Booking.pending ∨ Booking.status b = Booking.confirmed)
    ∧ Booking.checkIn b < checkOut
    ∧ checkIn < Booking.checkOut b
    ∧ ex ≠ Some id.
Proof.
  unfold RoomBooking.conflicts_with.
  rewrite !andb_true_iff, Pos.eqb_eq, !Z.ltb_lt.
  assert (Booking.is_active (Booking.status b) = true ↔
          Booking.status b = Booking.pending ∨ Booking.status b = Booking.confirmed)
    as ->.
  { destruct (Booking.status b); simpl; intuition congruence. }
  assert (match ex with Some e => negb (Pos.eqb id e) | None => true end = true
          ↔ ex ≠ Some id) as ->.
  { destruct ex as [e|]; [|done].
    rewrite negb_true_iff, Pos.eqb_neq. split; congruence. }
  tauto.
Qed.

Lemma checkRoomAvailability_elem bs roomId checkIn checkOut ex id (b : Booking.t) :
  (id, b) ∈ RoomBooking.checkRoomAvailability bs roomId checkIn checkOut ex ↔
    bs !! id = Some b
    ∧ RoomBooking.conflicts_with roomId checkIn checkOut ex id b = true.
Proof.
  unfold RoomBooking.checkRoomAvailability.
  rewrite elem_of_map_to_list, map_lookup_filter_Some. done.
Qed.

Lemma hasConflict_true_iff bs roomId checkIn checkOut ex :
  RoomBooking.hasConflict bs roomId checkIn checkOut ex = true ↔
    ∃ id b, bs !! id = Some b
            ∧ RoomBooking.conflicts_with roomId checkIn checkOut ex id b = true.
Proof.
  unfold RoomBooking.hasConflict. rewrite Nat.ltb_lt. split.
  - intros Hlen.
    destruct (RoomBooking.checkRoomAvailability bs roomId checkIn checkOut ex)
      as [|[id b] l] eqn:Hl; [simpl in Hlen; lia|].
    exists id, b. apply checkRoomAvailability_elem. rewrite Hl. left.
  - intros (id & b & Hb & Hc).
    assert ((id, b) ∈ RoomBooking.checkRoomAvailability bs roomId checkIn checkOut ex)
      as Hin by (by apply checkRoomAvailability_elem).
    destruct (RoomBooking.checkRoomAvailability bs roomId checkIn checkOut ex);
      [by apply elem_of_nil in Hin | simpl; lia].
Qed.

Lemma hasConflict_false_iff bs roomId checkIn checkOut ex :
  RoomBooking.hasConflict bs roomId checkIn checkOut ex = false ↔
    ∀ id b, bs !! id = Some b →
            RoomBooking.conflicts_with roomId checkIn checkOut ex id b = false.
Proof.
  rewrite <- not_true_iff_false, hasConflict_true_iff. split.
  - intros Hno id b Hb. apply not_true_iff_false. intros Hc. apply Hno. eauto.
  - intros Hall (id & b & Hb & Hc). rewrite (Hall id b Hb) in Hc. done.
Qed.

(** C2. The availability check answers true exactly when some booking of
    the room, other than the excluded one, is pending or confirmed and
    overlaps the candidate stay as a half-open interval
    ([existing.checkIn < checkOut] and [checkIn < existing.checkOut]); a
    booking that ends when the candidate starts, or starts when it ends, is
    not among the conflicts, and neither is a cancelled or rejected one. *)
Theorem hasConflict_iff_active_overlap
    (bs : gmap ObjectId Booking.t) (roomId : ObjectId)
    (checkIn checkOut : Instant) (excludeBookingId : option ObjectId) :
  (RoomBooking.hasConflict bs roomId checkIn checkOut excludeBookingId = true ↔
     ∃ id existing,
       bs !! id = Some existing
       ∧ excludeBookingId ≠ Some id
       ∧ Booking.roomId existing = roomId
       ∧ (Booking.status existing = Booking.pending
          ∨ Booking.status existing = Booking.confirmed)
       ∧ Booking.checkIn existing < checkOut
       ∧ checkIn < Booking.checkOut existing)
  ∧ (∀ id existing,
       Booking.checkOut existing = checkIn ∨ Booking.checkIn existing = checkOut →
       (id, existing) ∉ RoomBooking.checkRoomAvailability bs roomId checkIn checkOut
                          excludeBookingId)
  ∧ (∀ id existing,
       Booking.status existing = Booking.cancelled
       ∨ Booking.status existing = Booking.rejected →
       (id, existing) ∉ RoomBooking.checkRoomAvailability bs roomId checkIn checkOut
                          excludeBookingId).
Proof.
  split; [|split].
  - rewrite hasConflict_true_iff. split.
    + intros (id & b & Hb & Hc). apply conflicts_with_true_iff in Hc.
      exists id, b. tauto.
    + intros (id & b & Hb & Hc). exists id, b. split; [done|].
      apply conflicts_with_true_iff. tauto.
  - intros id b Hadj Hin. apply checkRoomAvailability_elem in Hin as [_ Hc].
    apply conflicts_with_true_iff in Hc. lia.
  - intros id b Hst Hin. apply checkRoomAvailability_elem in Hin as [_ Hc].
    apply conflicts_with_true_iff in Hc.
    destruct Hc as (_ & [Hs|Hs] & _), Hst as [Ht|Ht]; congruence.
Qed.

(** ** Running the store operations *)

Lemma validate_update_status L now s :
  RoomBooking.validate_update L now (RoomBooking.status_patch s)
  = bool_decide (is_Some (Booking.parse_status s)).
Proof. reflexivity. Qed.

Lemma findByIdAndUpdate_run L now id p db (b : Booking.t) :
  RoomBooking.validate_update L now p = true →
  bookings db !! id = Some b →
  RoomBooking.findByIdAndUpdate L now id p db
  = (Ok (Some (id, RoomBooking.apply_patch p b)),
     with_bookings (<[id := RoomBooking.apply_patch p b]> (bookings db)) db).
Proof.
  intros Hv Hb. unfold RoomBooking.findByIdAndUpdate, bind, fail_if, get.
  rewrite Hv. simpl. rewrite Hb. reflexivity.
Qed.

Lemma findByIdAndUpdate_invalid L now id p db :
  RoomBooking.validate_update L now p = false →
  RoomBooking.findByIdAndUpdate L now id p db
  = (Err RoomBooking.validation_failed, db).
Proof.
  intros Hv. unfold RoomBooking.findByIdAndUpdate, bind, fail_if.
  rewrite Hv. reflexivity.
Qed.

Lemma isOwnedByUser_true_iff (b : Booking.t) (u : ObjectId) :
  RoomBooking.isOwnedByUser b u = true ↔ u = Booking.userId b.
Proof. unfold RoomBooking.isOwnedByUser. rewrite Pos.eqb_eq. split; congruence. Qed.

Lemma isOwnedByHotelOwner_true_iff (b : Booking.t) (u : ObjectId) :
  RoomBooking.isOwnedByHotelOwner b u = true ↔ u = Booking.ownerId b.
Proof.
  unfold RoomBooking.isOwnedByHotelOwner. rewrite Pos.eqb_eq. split; congruence.
Qed.

Lemma is_active_true_iff (s : Booking.Status) :
  Booking.is_active s = true ↔ s = Booking.pending ∨ s = Booking.confirmed.
Proof. destruct s; simpl; intuition congruence. Qed.

Lemma canBeCancelled_true_iff now (b : Booking.t) :
  RoomBooking.canBeCancelled now b = true ↔
    (Booking.status b = Booking.pending ∨ Booking.status b = Booking.confirmed)
    ∧ (24 < hoursUntilCheckIn now (Booking.checkIn b))%Q.
Proof.
  unfold RoomBooking.canBeCancelled.
  rewrite andb_true_iff, is_active_true_iff, Qgtb_true_iff. done.
Qed.

Lemma canBeModified_true_iff now (b : Booking.t) :
  RoomBooking.canBeModified now b = true ↔
    Booking.status b = Booking.pending
    ∧ (48 < hoursUntilCheckIn now (Booking.checkIn b))%Q.
Proof.
  unfold RoomBooking.canBeModified. rewrite andb_true_iff, Qgtb_true_iff.
  destruct (Booking.status b); intuition congruence.
Qed.

(** ** Cancelling *)

Lemma cancelBooking_run L now user id db (b : Booking.t) :
  bookings db !! id = Some b →
  cancelBooking L now user id db =
    if negb (RoomBooking.isOwnedByUser b (_id user))
    then (Err not_your_booking_cancel, db)
    else if negb (RoomBooking.canBeCancelled now b)
    then (Err cannot_be_cancelled, db)
    else (Ok (Some (id, Booking.set_status Booking.cancelled b)),
          with_bookings (<[id := Booking.set_status Booking.cancelled b]> (bookings db)) db).
Proof.
  intros Hb. unfold cancelBooking, bind, get, find_or, fail_if. rewrite Hb. simpl.
  destruct (RoomBooking.isOwnedByUser b (_id user)); [|reflexivity]. simpl.
  destruct (RoomBooking.canBeCancelled now b); [|reflexivity]. simpl.
  by rewrite (findByIdAndUpdate_run L now id _ db b).
Qed.

(** C5. Cancelling a booking succeeds exactly when the principal is the
    customer who made it, its status is pending or confirmed, and check-in
    is more than 24 hours away; a success stores and returns the booking
    with status cancelled and a failure changes nothing.  A confirmed
    booking 10 hours before check-in is refused with a 400, and 30 hours
    before check-in it is cancelled. *)
Theorem cancelBooking_succeeds_iff
    (L : Lib) (now : Instant) (user : Principal) (id : ObjectId) (db : Db)
    (booking : Booking.t) :
  bookings db !! id = Some booking →
  (is_ok (cancelBooking L now user id db).1 = true ↔
     _id user = Booking.userId booking
     ∧ (Booking.status booking = Booking.pending
        ∨ Booking.status booking = Booking.confirmed)
     ∧ (24 < hoursUntilCheckIn now (Booking.checkIn booking))%Q)
  ∧ (is_ok (cancelBooking L now user id db).1 = true →
     cancelBooking L now user id db
     = (Ok (Some (id, Booking.set_status Booking.cancelled booking)),
        with_bookings
          (<[id := Booking.set_status Booking.cancelled booking]> (bookings db)) db))
  ∧ (is_ok (cancelBooking L now user id db).1 = false →
     (cancelBooking L now user id db).2 = db)
  ∧ (_id user = Booking.userId booking →
     Booking.status booking = Booking.confirmed →
     Booking.checkIn booking - now = 10 * ms_per_hour →
     cancelBooking L now user id db = (Err cannot_be_cancelled, db)
     ∧ statusCode cannot_be_cancelled = 400)
  ∧ (_id user = Booking.userId booking →
     Booking.status booking = Booking.confirmed →
     Booking.checkIn booking - now = 30 * ms_per_hour →
     cancelBooking L now user id db
     = (Ok (Some (id, Booking.set_status Booking.cancelled booking)),
        with_bookings
          (<[id := Booking.set_status Booking.cancelled booking]> (bookings db)) db)).
Proof.
  intros Hb. rewrite (cancelBooking_run L now user id db booking Hb).
  pose proof (isOwnedByUser_true_iff booking (_id user)) as Hown.
  pose proof (canBeCancelled_true_iff now booking) as Hcan.
  pose proof (hours_lt_iff 24 now (Booking.checkIn booking)) as Hh.
  change (inject_Z 24) with 24%Q in Hh. change ms_per_hour with 3600000 in *.
  assert (Booking.status booking = Booking.confirmed →
          Booking.checkIn booking - now = 10 * 3600000 →
          RoomBooking.canBeCancelled now booking = false) as H10.
  { intros _ Hd. apply not_true_iff_false. rewrite Hcan, Hh. lia. }
  assert (Booking.status booking = Booking.confirmed →
          Booking.checkIn booking - now = 30 * 3600000 →
          RoomBooking.canBeCancelled now booking = true) as H30.
  { intros Hs Hd. rewrite Hcan, Hh. split; [by right | lia]. }
  destruct (RoomBooking.isOwnedByUser booking (_id user)) eqn:Ho; simpl.
  - assert (_id user = Booking.userId booking) as Hu by (by apply Hown).
    destruct (RoomBooking.canBeCancelled now booking) eqn:Hc; simpl.
    + split; [tauto|]. split; [done|]. split; [done|]. split; [|done].
      intros _ Hs Hd. discriminate (H10 Hs Hd).
    + split; [|split; [done|split; [done|split; [done|]]]].
      * split; [done|]. intros (_ & Hq). by apply Hcan.
      * intros _ Hs Hd. discriminate (H30 Hs Hd).
  - assert (_id user ≠ Booking.userId booking) as Hu.
    { intros Hu. apply Hown in Hu. done. }
    split; [|split; [done|split; [done|split; done]]].
    split; [done|]. intros (Hu' & _). done.
Qed.

Lemma cancelBooking_succeeds_iff_witness :
  cancelBooking Scenario.lib (Scenario.jan_1_2025 - 30 * ms_per_hour)
    Scenario.customer_a 1 Scenario.db_confirmed
  = (Ok (Some (1%positive, Booking.set_status Booking.cancelled Scenario.stay)),
     Scenario.db_cancelled).
Proof.
  destruct (cancelBooking_succeeds_iff Scenario.lib
              (Scenario.jan_1_2025 - 30 * ms_per_hour) Scenario.customer_a 1
              Scenario.db_confirmed
              (Booking.set_status Booking.confirmed Scenario.stay) eq_refl)
    as (_ & _ & _ & _ & H30).
  rewrite H30; reflexivity.
Defined.

(** ** Viewing *)

Lemma role_eqb_true_iff (a b : User.Role) : User.role_eqb a b = true ↔ a = b.
Proof. destruct a, b; simpl; intuition congruence. Qed.

(** What looking a booking up answers: the two ownership tests compare the
    printed user with an id and are never true, so the role alone decides,
    once both users are there to be printed. *)
Lemma getBookingById_run (user : Principal) (id : ObjectId) (db : Db)
    (b : Booking.t) :
  bookings db !! id = Some b →
  getBookingById user id db =
    match users db !! Booking.userId b, users db !! Booking.ownerId b with
    | Some _, Some _ =>
        if User.role_eqb (role user) User.super_admin then (Ok (id, b), db)
        else (Err cannot_view, db)
    | _, _ => (Err RoomBooking.Populated.no_toString, db)
    end.
Proof.
  intros Hb. unfold getBookingById, bind, get, find_or. rewrite Hb. simpl.
  unfold RoomBooking.Populated.isOwnedByUser,
    RoomBooking.Populated.isOwnedByHotelOwner, bind.
  simpl. unfold RoomBooking.populate_ref.
  destruct (users db !! Booking.userId b) as [u|]; [|done]. simpl.
  destruct (users db !! Booking.ownerId b) as [o|]; [|done]. simpl.
  unfold fail_if. by destruct (User.role_eqb (role user) User.super_admin).
Qed.

(** C8, on the code: the customer who made booking 1 of the scenario and
    the owner it is assigned to both exist, ask for it, and are answered
    403; the super administrator is answered with the booking.  In
    general a booking whose customer and owner exist is returned exactly
    to super administrators. *)
Theorem getBookingById_refuses_customer_and_owner :
  bookings Scenario.db_stay !! 1%positive = Some Scenario.stay
  ∧ Booking.userId Scenario.stay = _id Scenario.customer_a
  ∧ Booking.ownerId Scenario.stay = _id Scenario.owner_a
  ∧ getBookingById Scenario.customer_a 1 Scenario.db_stay
    = (Err cannot_view, Scenario.db_stay)
  ∧ getBookingById Scenario.owner_a 1 Scenario.db_stay
    = (Err cannot_view, Scenario.db_stay)
  ∧ statusCode cannot_view = 403
  ∧ getBookingById Scenario.admin 1 Scenario.db_stay
    = (Ok (1%positive, Scenario.stay), Scenario.db_stay)
  ∧ (∀ user id db (b : Booking.t),
       bookings db !! id = Some b →
       is_Some (users db !! Booking.userId b) →
       is_Some (users db !! Booking.ownerId b) →
       ((getBookingById user id db).1 = Ok (id, b)
        ↔ role user = User.super_admin)
       ∧ (role user ≠ User.super_admin →
          getBookingById user id db = (Err cannot_view, db))).
Proof.
  do 7 (split; [vm_compute; reflexivity|]).
  intros user id db b Hb [u Hu] [o Ho].
  rewrite (getBookingById_run user id db b Hb), Hu, Ho.
  pose proof (role_eqb_true_iff (role user) User.super_admin) as Hrole.
  destruct (User.role_eqb (role user) User.super_admin); simpl.
  - split; [tauto|]. intros Hn. exfalso. apply Hn. by apply Hrole.
  - split; [|done]. split; [done|]. intros Hs. apply Hrole in Hs. done.
Qed.

(** ** Changing the status *)

Lemma set_status_same (b : Booking.t) : Booking.set_status (Booking.status b) b = b.
Proof. by destruct b. Qed.

Lemma with_bookings_same (db : Db) : with_bookings (bookings db) db = db.
Proof. by destruct db. Qed.

Lemma parse_status_name (s : Booking.Status) :
  Booking.parse_status (Booking.status_name s) = Some s.
Proof. by destruct s. Qed.

Lemma updateBookingStatus_run L now user id db (b : Booking.t) (s : string) :
  bookings db !! id = Some b →
  updateBookingStatus L now user id s db =
    if negb (canUpdateStatus user b) then (Err not_your_hotel, db)
    else match Booking.parse_status s with
         | None => (Err invalid_status, db)
         | Some st =>
             (Ok (Some (id, Booking.set_status st b)),
              with_bookings (<[id := Booking.set_status st b]> (bookings db)) db)
         end.
Proof.
  intros Hb. unfold updateBookingStatus, bind, get, find_or, fail_if.
  rewrite Hb. simpl.
  destruct (canUpdateStatus user b); [|reflexivity]. simpl.
  destruct (Booking.parse_status s) as [st|] eqn:Hs; simpl.
  - rewrite (findByIdAndUpdate_run L now id _ db b); [|by rewrite validate_update_status, Hs|done].
    unfold RoomBooking.apply_patch, RoomBooking.status_patch. simpl. by rewrite Hs.
  - reflexivity.
Qed.

(** Setting the status a booking already has is accepted and changes
    nothing. *)
Lemma updateBookingStatus_same_status L now user id db (b : Booking.t) :
  bookings db !! id = Some b →
  canUpdateStatus user b = true →
  updateBookingStatus L now user id (Booking.status_name (Booking.status b)) db
  = (Ok (Some (id, b)), db).
Proof.
  intros Hb Hcan. rewrite (updateBookingStatus_run L now user id db b _ Hb).
  rewrite Hcan, parse_status_name. simpl.
  rewrite set_status_same, insert_id, with_bookings_same; done.
Qed.

(** The owner of the hotel, or a super administrator, moves a booking from
    any status to any of the four. *)
Lemma updateBookingStatus_any_transition L now user id db (b : Booking.t)
    (target : Booking.Status) :
  bookings db !! id = Some b →
  canUpdateStatus user b = true →
  updateBookingStatus L now user id (Booking.status_name target) db
  = (Ok (Some (id, Booking.set_status target b)),
     with_bookings (<[id := Booking.set_status target b]> (bookings db)) db).
Proof.
  intros Hb Hcan. rewrite (updateBookingStatus_run L now user id db b _ Hb).
  by rewrite Hcan, parse_status_name.
Qed.

(** C3, on the code: a cancelled booking is not terminal.  The owner's
    request to confirm the cancelled stay of the scenario is answered with
    the booking, now confirmed, where the specification has a refusal that
    leaves it cancelled; the same request on the already confirmed stay is
    the accepted no-op the specification describes. *)
Theorem updateBookingStatus_confirms_cancelled :
  updateBookingStatus Scenario.lib Scenario.dec_1_2024 Scenario.owner_a 1
    "confirmed" Scenario.db_cancelled
  = (Ok (Some (1%positive, Booking.set_status Booking.confirmed Scenario.stay)),
     Scenario.db_confirmed)
  ∧ updateBookingStatus Scenario.lib Scenario.dec_1_2024 Scenario.owner_a 1
      "confirmed" Scenario.db_confirmed
    = (Ok (Some (1%positive, Booking.set_status Booking.confirmed Scenario.stay)),
       Scenario.db_confirmed).
Proof. split; reflexivity. Qed.

(** ** Creating *)

Lemma createRoomBooking_run L now user body db :
  createRoomBooking L now user body db =
    match rooms db !! validation.roomId body with
    | None => (Err room_not_found, db)
    | Some room =>
    match hotels db !! Room.hotelId room with
    | None => (Err hotel_not_found, db)
    | Some hotel =>
    if negb (Hotel.isVisible hotel) || negb (Hotel.is_approved (Hotel.status hotel))
    then (Err hotel_not_available, db) else
    match users db !! Hotel.ownerId hotel with
    | None => (Err owner_not_found, db)
    | Some owner =>
    if negb (User.role_eqb (User.role owner) User.owner)
    then (Err owner_without_role, db) else
    if RoomBooking.hasConflict (bookings db) (validation.roomId body)
         (validation.checkIn body) (validation.checkOut body) None
    then (Err room_not_available, db) else
    if negb (RoomBooking.validate L now (new_booking user body room hotel))
    then (Err RoomBooking.validation_failed, db) else
    match users db !! _id user with
    | None => (Err (RoomBooking.hook_error "User not found"), db)
    | Some u =>
    if negb (User.role_eqb (User.role u) User.customer)
    then (Err (RoomBooking.hook_error "Only customers can make bookings"), db)
    else
      (Ok (fresh (dom (bookings db)), new_booking user body room hotel),
       with_bookings
         (<[fresh (dom (bookings db)) := new_booking user body room hotel]>
            (bookings db)) db)
    end end end end.
Proof.
  unfold createRoomBooking, bind, get, find_or, fail_if. simpl.
  destruct (rooms db !! validation.roomId body) as [room|] eqn:Hroom; [|reflexivity].
  simpl. destruct (hotels db !! Room.hotelId room) as [hotel|] eqn:Hhotel; [|reflexivity].
  simpl. destruct (negb (Hotel.isVisible hotel) || _); [reflexivity|].
  simpl. destruct (users db !! Hotel.ownerId hotel) as [owner|] eqn:Howner; [|reflexivity].
  simpl. destruct (negb (User.role_eqb (User.role owner) User.owner)) eqn:Hrole; [reflexivity|].
  simpl. destruct (RoomBooking.hasConflict _ _ _ _ _) eqn:Hfree; [reflexivity|].
  simpl. unfold RoomBooking.create, RoomBooking.preSave, bind, get, find_or, fail_if.
  fold (new_booking user body room hotel).
  destruct (negb (RoomBooking.validate L now (new_booking user body room hotel)));
    [reflexivity|].
  simpl. rewrite Hroom. simpl. rewrite Pos.eqb_refl, Hhotel. simpl.
  rewrite Pos.eqb_refl. simpl.
  destruct (users db !! _id user) as [u|]; [|reflexivity]. simpl.
  destruct (negb (User.role_eqb (User.role u) User.customer)); [reflexivity|].
  simpl. rewrite Howner. simpl. rewrite Hrole. simpl. rewrite Hfree. reflexivity.
Qed.

(** What a successful creation has established. *)
Lemma createRoomBooking_ok L now user body db id (b : Booking.t) db' :
  createRoomBooking L now user body db = (Ok (id, b), db') →
  ∃ room hotel,
    rooms db !! validation.roomId body = Some room
    ∧ hotels db !! Room.hotelId room = Some hotel
    ∧ RoomBooking.hasConflict (bookings db) (validation.roomId body)
        (validation.checkIn body) (validation.checkOut body) None = false
    ∧ RoomBooking.validate L now (new_booking user body room hotel) = true
    ∧ b = new_booking user body room hotel
    ∧ bookings db !! id = None
    ∧ db' = with_bookings (<[id := b]> (bookings db)) db.
Proof.
  rewrite createRoomBooking_run. intros H.
  repeat case_match; simplify_eq.
  eexists _, _. repeat split; try done.
  - by destruct (RoomBooking.validate L now _).
  - apply not_elem_of_dom, is_fresh.
Qed.

Lemma createRoomBooking_err L now user body db e db' :
  createRoomBooking L now user body db = (Err e, db') → db' = db.
Proof.
  rewrite createRoomBooking_run. intros H. by repeat case_match; simplify_eq.
Qed.

(** ** The invariant and the operations that keep it *)

Lemma overlap_sym (a b : Booking.t) : overlap a b → overlap b a.
Proof. unfold overlap. tauto. Qed.

(** Writing a booking that overlaps no other active booking of its room
    keeps the invariant. *)
Lemma no_double_booking_insert (bs : gmap ObjectId Booking.t) id (b : Booking.t) :
  no_double_booking bs →
  (∀ j e, j ≠ id → bs !! j = Some e →
          Booking.roomId e = Booking.roomId b →
          Booking.is_active (Booking.status e) = true →
          Booking.is_active (Booking.status b) = true →
          ¬ overlap e b) →
  no_double_booking (<[id := b]> bs).
Proof.
  intros Hinv Hnew i j x y Hi Hj Hne Hroom Hx Hy.
  apply lookup_insert_Some in Hi as [[<- <-]|[Hni Hi]];
    apply lookup_insert_Some in Hj as [[<- <-]|[Hnj Hj]].
  - done.
  - intros Ho. apply (Hnew j y); auto using overlap_sym.
  - apply (Hnew i x); auto.
  - by apply (Hinv i j).
Qed.

Lemma conflicts_with_false_no_overlap ex j (e b : Booking.t) :
  RoomBooking.conflicts_with (Booking.roomId b) (Booking.checkIn b)
    (Booking.checkOut b) ex j e = false →
  ex ≠ Some j →
  Booking.roomId e = Booking.roomId b →
  Booking.is_active (Booking.status e) = true →
  ¬ overlap e b.
Proof.
  intros Hc Hex Hroom Hact [Ho1 Ho2].
  apply not_true_iff_false in Hc. apply Hc.
  apply conflicts_with_true_iff. rewrite <- is_active_true_iff. done.
Qed.

(** Creating a booking keeps the invariant, whatever the outcome. *)
Lemma createRoomBooking_keeps_no_double_booking L now user body db r db' :
  no_double_booking (bookings db) →
  createRoomBooking L now user body db = (r, db') →
  no_double_booking (bookings db').
Proof.
  intros Hinv Hrun. destruct r as [[id b]|e].
  - apply createRoomBooking_ok in Hrun
      as (room & hotel & _ & _ & Hfree & _ & -> & _ & ->).
    simpl. apply no_double_booking_insert; [done|].
    intros j e Hne He Hroom Hact _.
    rewrite hasConflict_false_iff in Hfree.
    apply (conflicts_with_false_no_overlap None j); [by apply Hfree|done..].
  - by rewrite (createRoomBooking_err _ _ _ _ _ _ _ Hrun).
Qed.

(** Cancelling keeps the invariant, whatever the outcome. *)
Lemma cancelBooking_keeps_no_double_booking L now user id db r db' :
  no_double_booking (bookings db) →
  cancelBooking L now user id db = (r, db') →
  no_double_booking (bookings db').
Proof.
  intros Hinv Hrun.
  destruct (bookings db !! id) as [b|] eqn:Hb.
  - rewrite (cancelBooking_run L now user id db b Hb) in Hrun.
    repeat case_match; simplify_eq; try done.
    simpl. apply no_double_booking_insert; [done|]. intros j e _ _ _ _ Hact. done.
  - unfold cancelBooking, bind, get, find_or in Hrun. rewrite Hb in Hrun.
    by simplify_eq/=.
Qed.

Lemma db_rebooked_no_double_booking :
  no_double_booking (bookings Scenario.db_rebooked).
Proof.
  simpl. apply no_double_booking_insert.
  - intros i j a b Hi Hj Hne.
    apply lookup_singleton_Some in Hi as [<- <-].
    apply lookup_singleton_Some in Hj as [<- <-]. done.
  - intros j e _ He _ Hact. apply lookup_singleton_Some in He as [_ <-]. done.
Qed.

(** The scenario's database is reached by the handlers themselves:
    customer A books and cancels, customer B books days inside A's stay
    and the owner confirms B. *)
Lemma db_rebooked_reached :
  ∃ db1 db2 db3,
    (postRoomBooking Scenario.lib Scenario.dec_1_2024 Scenario.customer_a
       Scenario.request Scenario.db).2 = db1
    ∧ (cancelBooking Scenario.lib Scenario.dec_1_2024 Scenario.customer_a 1 db1).2
      = db2
    ∧ (postRoomBooking Scenario.lib Scenario.dec_1_2024 Scenario.customer_b
         (validation.mkCreateBody "Bilal Omar" "Bilal Omar" "+967712345679"
            Scenario.jan_2_2025 Scenario.jan_3_2025 1 0 20) db2).2 = db3
    ∧ (updateBookingStatus Scenario.lib Scenario.dec_1_2024 Scenario.owner_a 2
         "confirmed" db3).2 = Scenario.db_rebooked.
Proof. eexists _, _, _. repeat split; vm_compute; reflexivity. Qed.

(** C1, on the code: changing the status does not keep the invariant.  In
    the scenario no two active bookings of room 20 overlap; the owner's
    request to confirm the cancelled stay is accepted, and afterwards the
    confirmed bookings 1 and 2 of room 20 overlap on 2 January. *)
Theorem updateBookingStatus_breaks_no_double_booking :
  no_double_booking (bookings Scenario.db_rebooked)
  ∧ updateBookingStatus Scenario.lib Scenario.dec_1_2024 Scenario.owner_a 1
      "confirmed" Scenario.db_rebooked
    = (Ok (Some (1%positive, Booking.set_status Booking.confirmed Scenario.stay)),
       Scenario.db_double_booked)
  ∧ ¬ no_double_booking (bookings Scenario.db_double_booked).
Proof.
  split; [apply db_rebooked_no_double_booking|].
  split; [vm_compute; reflexivity|].
  intros Hinv.
  apply (Hinv 1%positive 2%positive
           (Booking.set_status Booking.confirmed Scenario.stay) Scenario.rival);
    done.
Qed.

(** ** Updating *)

Lemma updateBooking_run L now user id body db (b : Booking.t) :
  bookings db !! id = Some b →
  updateBooking L now user id body db =
    if negb (RoomBooking.isOwnedByUser b (_id user))
    then (Err not_your_booking_update, db) else
    if negb (RoomBooking.canBeModified now b)
    then (Err cannot_be_modified, db) else
    let updateData := strip_protected body in
    if touches_stay updateData then
      let checkInDate := default (Booking.checkIn b) (RoomBooking.p_checkIn body) in
      let checkOutDate := default (Booking.checkOut b) (RoomBooking.p_checkOut body) in
      let roomId := default (Booking.roomId b) (RoomBooking.p_roomId body) in
      if RoomBooking.hasConflict (bookings db) roomId checkInDate checkOutDate (Some id)
      then (Err room_not_available, db) else
      match rooms db !! roomId with
      | None => (Err type_error, db)
      | Some room =>
          let priced :=
            with_price (stay_price (Room.basePrice room) checkInDate checkOutDate)
              updateData in
          if RoomBooking.validate_update L now priced
          then (Ok (Some (id, RoomBooking.apply_patch priced b)),
                with_bookings (<[id := RoomBooking.apply_patch priced b]> (bookings db)) db)
          else (Err RoomBooking.validation_failed, db)
      end
    else
      if RoomBooking.validate_update L now updateData
      then (Ok (Some (id, RoomBooking.apply_patch updateData b)),
            with_bookings (<[id := RoomBooking.apply_patch updateData b]> (bookings db)) db)
      else (Err RoomBooking.validation_failed, db).
Proof.
  intros Hb. unfold updateBooking, bind, get, find_or, fail_if. rewrite Hb. simpl.
  destruct (RoomBooking.isOwnedByUser b (_id user)); [|reflexivity]. simpl.
  destruct (RoomBooking.canBeModified now b); [|reflexivity]. simpl.
  destruct (touches_stay (strip_protected body)); simpl.
  - destruct (RoomBooking.hasConflict _ _ _ _ _); [reflexivity|]. simpl.
    destruct (rooms db !! _) as [room|]; [|reflexivity]. simpl.
    destruct (RoomBooking.validate_update L now _) eqn:Hv.
    + by rewrite (findByIdAndUpdate_run L now id _ db b Hv Hb).
    + by rewrite (findByIdAndUpdate_invalid L now id _ db Hv).
  - destruct (RoomBooking.validate_update L now _) eqn:Hv.
    + by rewrite (findByIdAndUpdate_run L now id _ db b Hv Hb).
    + by rewrite (findByIdAndUpdate_invalid L now id _ db Hv).
Qed.

Lemma touches_stay_false (p : RoomBooking.Patch) :
  touches_stay p = false →
  RoomBooking.p_checkIn p = None ∧ RoomBooking.p_checkOut p = None
  ∧ RoomBooking.p_roomId p = None.
Proof.
  unfold touches_stay. destruct (RoomBooking.p_checkIn p), (RoomBooking.p_checkOut p),
    (RoomBooking.p_roomId p); simpl; try done.
Qed.

(** The availability check of an update leaves the booking itself out. *)
Lemma hasConflict_exclude (bs : gmap ObjectId Booking.t) roomId checkIn checkOut id :
  RoomBooking.hasConflict bs roomId checkIn checkOut (Some id)
  = RoomBooking.hasConflict (delete id bs) roomId checkIn checkOut None.
Proof.
  apply eq_true_iff_eq. rewrite !hasConflict_true_iff. split.
  - intros (j & e & He & Hc). exists j, e.
    pose proof Hc as Hc'. apply conflicts_with_true_iff in Hc' as (? & ? & ? & ? & Hne).
    split; [apply lookup_delete_Some; split; [congruence|done]|].
    apply conflicts_with_true_iff. done.
  - intros (j & e & He & Hc). apply lookup_delete_Some in He as [Hne He].
    exists j, e. split; [done|].
    apply conflicts_with_true_iff in Hc as (? & ? & ? & ? & _).
    apply conflicts_with_true_iff. repeat split; try done. congruence.
Qed.

(** Updating a booking keeps the invariant, whatever the outcome. *)
Lemma updateBooking_keeps_no_double_booking L now user id body db r db' :
  no_double_booking (bookings db) →
  updateBooking L now user id body db = (r, db') →
  no_double_booking (bookings db').
Proof.
  intros Hinv Hrun.
  destruct (bookings db !! id) as [b|] eqn:Hb.
  - rewrite (updateBooking_run L now user id body db b Hb) in Hrun.
    cbv zeta in Hrun.
    destruct (negb (RoomBooking.isOwnedByUser b (_id user))); [by simplify_eq|].
    destruct (negb (RoomBooking.canBeModified now b)); [by simplify_eq|].
    destruct (touches_stay (strip_protected body)) eqn:Ht.
    + destruct (RoomBooking.hasConflict _ _ _ _ _) eqn:Hfree; [by simplify_eq|].
      destruct (rooms db !! _) as [room|]; [|by simplify_eq].
      destruct (RoomBooking.validate_update L now _); [|by simplify_eq].
      simplify_eq. simpl. apply no_double_booking_insert; [done|].
      intros j e Hne He Hroom Hact _.
      rewrite hasConflict_false_iff in Hfree.
      apply (conflicts_with_false_no_overlap (Some id) j); [|congruence|done..].
      by apply Hfree.
    + destruct (RoomBooking.validate_update L now _); [|by simplify_eq].
      simplify_eq. simpl. apply touches_stay_false in Ht as (Hci & Hco & Hr).
      simpl in Hci, Hco, Hr.
      apply no_double_booking_insert; [done|].
      intros j e Hne He Hroom Hact Hact'.
      unfold RoomBooking.apply_patch in *. simpl in *.
      rewrite Hci, Hco, Hr in *. simpl in *.
      intros [Ho1 Ho2]. by apply (Hinv j id e b).
  - unfold updateBooking, bind, get, find_or in Hrun. rewrite Hb in Hrun.
    by simplify_eq/=.
Qed.

(** A successful update, taken apart. *)
Lemma updateBooking_ok L now user id body db (b : Booking.t) updated db' :
  bookings db !! id = Some b →
  updateBooking L now user id body db = (Ok updated, db') →
  RoomBooking.isOwnedByUser b (_id user) = true
  ∧ RoomBooking.canBeModified now b = true
  ∧ ∃ patch,
      updated = Some (id, RoomBooking.apply_patch patch b)
      ∧ db' = with_bookings (<[id := RoomBooking.apply_patch patch b]> (bookings db)) db
      ∧ RoomBooking.validate_update L now patch = true
      ∧ if touches_stay (strip_protected body)
        then RoomBooking.hasConflict (bookings db)
               (default (Booking.roomId b) (RoomBooking.p_roomId body))
               (default (Booking.checkIn b) (RoomBooking.p_checkIn body))
               (default (Booking.checkOut b) (RoomBooking.p_checkOut body))
               (Some id) = false
             ∧ ∃ room,
                 rooms db !! default (Booking.roomId b) (RoomBooking.p_roomId body)
                 = Some room
                 ∧ patch = with_price
                             (stay_price (Room.basePrice room)
                                (default (Booking.checkIn b) (RoomBooking.p_checkIn body))
                                (default (Booking.checkOut b) (RoomBooking.p_checkOut body)))
                             (strip_protected body)
        else patch = strip_protected body.
Proof.
  intros Hb Hrun. rewrite (updateBooking_run L now user id body db b Hb) in Hrun.
  cbv zeta in Hrun.
  destruct (RoomBooking.isOwnedByUser b (_id user)); [|by simplify_eq]. simpl in Hrun.
  destruct (RoomBooking.canBeModified now b); [|by simplify_eq]. simpl in Hrun.
  split; [done|]. split; [done|].
  destruct (touches_stay (strip_protected body)).
  - destruct (RoomBooking.hasConflict _ _ _ _ _); [by simplify_eq|].
    destruct (rooms db !! _) as [room|] eqn:Hroom; [|by simplify_eq].
    destruct (RoomBooking.validate_update L now _) eqn:Hv; [|by simplify_eq].
    simplify_eq. eexists. repeat split; try done. by exists room.
  - destruct (RoomBooking.validate_update L now _) eqn:Hv; [|by simplify_eq].
    simplify_eq. eexists. repeat split; done.
Qed.

(** What a successful update stores. *)
Lemma updateBooking_stored L now user id body db (booking : Booking.t) updated db' :
  bookings db !! id = Some booking →
  updateBooking L now user id body db = (Ok updated, db') →
  ∃ b',
    updated = Some (id, b')
    ∧ bookings db' !! id = Some b'
    ∧ Booking.status b' = Booking.status booking
    ∧ Booking.userId b' = Booking.userId booking
    ∧ Booking.ownerId b' = Booking.ownerId booking
    ∧ (is_Some (RoomBooking.p_checkIn body)
       ∨ is_Some (RoomBooking.p_checkOut body)
       ∨ is_Some (RoomBooking.p_roomId body)
       ∨ Booking.checkIn b' ≠ Booking.checkIn booking
       ∨ Booking.checkOut b' ≠ Booking.checkOut booking
       ∨ Booking.roomId b' ≠ Booking.roomId booking →
       RoomBooking.hasConflict (bookings db) (Booking.roomId b')
         (Booking.checkIn b') (Booking.checkOut b') (Some id) = false
       ∧ RoomBooking.hasConflict (delete id (bookings db)) (Booking.roomId b')
           (Booking.checkIn b') (Booking.checkOut b') None = false
       ∧ ∃ room,
           rooms db !! Booking.roomId b' = Some room
           ∧ Booking.price b'
             = stay_price (Room.basePrice room) (Booking.checkIn b')
                 (Booking.checkOut b'))
    ∧ (RoomBooking.p_checkIn body = None
       ∧ RoomBooking.p_checkOut body = None
       ∧ RoomBooking.p_roomId body = None →
       Booking.price b' = Booking.price booking).
Proof.
  intros Hb Hrun.
  destruct (updateBooking_ok L now user id body db booking updated db' Hb Hrun)
    as (_ & _ & patch & -> & -> & Hv & Hpatch).
  eexists. split; [done|]. split; [simpl; apply lookup_insert_eq|].
  destruct (touches_stay (strip_protected body)) eqn:Ht.
  - destruct Hpatch as (Hfree & room & Hroom & ->).
    split; [done|]. split; [done|]. split; [done|]. split.
    + intros _. simpl. split; [done|]. split; [by rewrite <- hasConflict_exclude|].
      by exists room.
    + intros (Hci & Hco & Hr). unfold touches_stay in Ht. simpl in Ht.
      rewrite Hci, Hco, Hr in Ht. done.
  - subst patch. apply touches_stay_false in Ht as (Hci & Hco & Hr).
    simpl in Hci, Hco, Hr.
    split; [done|]. split; [done|]. split; [done|]. split; [|done].
    simpl. rewrite Hci, Hco, Hr. simpl.
    intros [[? [=]]|[[? [=]]|[[? [=]]|[?|[?|?]]]]]; done.
Qed.



(** ** Prices *)

Lemma binary64_zero (x : Q) : Qnum x = 0 → binary64 x = 0%Q.
Proof. unfold binary64. by intros ->. Qed.

Lemma round_half_even_whole (n : Z) : round_half_even n 1 = n.
Proof. unfold round_half_even. by rewrite Z.div_1_r, Z.mod_1_r. Qed.

Lemma Qred_whole (k : Z) : Qred (inject_Z k) = inject_Z k.
Proof.
  unfold Qred, inject_Z.
  pose proof (Z.ggcd_gcd k 1) as Hg.
  pose proof (Z.ggcd_correct_divisors k 1) as Hd.
  destruct (Z.ggcd k 1) as (g & aa & bb). simpl in *.
  rewrite Z.gcd_1_r in Hg. subst g. destruct Hd as [Ha Hb].
  f_equal; [lia|]. by replace bb with 1 by lia.
Qed.

(** A whole number below [2^53] in size is a double. *)
Lemma binary64_whole (k : Z) : Z.abs k < 2 ^ 53 → binary64 (inject_Z k) = inject_Z k.
Proof.
  intros Hk. unfold binary64.
  change (Qnum (inject_Z k)) with k. change (Z.pos (Qden (inject_Z k))) with 1.
  destruct (k =? 0) eqn:Hz; [apply Z.eqb_eq in Hz; by subst|].
  apply Z.eqb_neq in Hz.
  etrans; [|apply Qred_whole]. apply Qred_complete.
  assert (0 < Z.abs k) as Hpos by lia.
  unfold last_place. change (Z.log2 1) with 0. rewrite Z.sub_0_r.
  pose proof (Z.log2_nonneg (Z.abs k)) as Hl0.
  pose proof (proj1 (Z.log2_lt_pow2 (Z.abs k) 53 Hpos) Hk) as Hl.
  pose proof (Z.log2_spec (Z.abs k) Hpos) as [Hlow _].
  assert ((0 <=? Z.log2 (Z.abs k)) = true) as -> by (apply Z.leb_le; lia).
  assert ((1 * 2 ^ Z.log2 (Z.abs k) <=? Z.abs k) = true) as ->
    by (apply Z.leb_le; lia).
  rewrite Z.max_l by lia.
  set (e := Z.log2 (Z.abs k) - 52).
  assert (-52 ≤ e ≤ 0) as He by (unfold e; lia).
  destruct (0 <=? e) eqn:H0.
  - apply Z.leb_le in H0. assert (e = 0) as -> by lia.
    change (1 * 2 ^ 0) with 1. rewrite round_half_even_whole.
    unfold pow2. simpl. unfold Qeq. simpl.
    pose proof (Z.abs_sgn k). lia.
  - rewrite round_half_even_whole. unfold pow2. rewrite H0.
    assert (0 < 2 ^ (- e)) as Hp by (apply Z.pow_pos_nonneg; lia).
    unfold Qeq. simpl. rewrite Pos.mul_1_l, Z2Pos.id by done.
    pose proof (Z.abs_sgn k). nia.
Qed.

(** The [checkOut] validator of an update compares with [this.checkIn];
    where there is none to read, no update that names [checkOut] passes. *)
Lemma updateBooking_naming_checkOut_refused L now user id body db :
  update_this_checkIn L = None →
  is_Some (RoomBooking.p_checkOut body) →
  is_ok (updateBooking L now user id body db).1 = false.
Proof.
  intros HL [v Hv].
  assert (∀ p, RoomBooking.p_checkOut p = Some v →
               RoomBooking.validate_update L now p = false) as Hinvalid.
  { intros p Hp. unfold RoomBooking.validate_update. rewrite Hp, HL. simpl.
    by rewrite andb_false_r. }
  destruct (bookings db !! id) as [b|] eqn:Hb.
  - rewrite (updateBooking_run L now user id body db b Hb). cbv zeta.
    repeat case_match; try done;
      match goal with
      | H : RoomBooking.validate_update _ _ _ = true |- _ =>
          rewrite Hinvalid in H by done; discriminate H
      end.
  - unfold updateBooking, bind, get, find_or. by rewrite Hb.
Qed.

(** C6, as the code has it.  The number of nights is the least whole
    number of days that covers [checkOut - checkIn]; a created booking is
    stored with the product [room.basePrice * nights] of its room and stay
    as the language computes it -- the double nearest to the exact
    product -- and so is an updated booking whenever the update names or
    changes the room, the check-in or the check-out.  For a base price
    that is a whole number the stored price is the exact product as long
    as that is below [2^53]: a base price of 100 from 1 to 4 January 2025
    gives 300, which is also what the request of the scenario is stored
    with.  (An update that names the check-out is accepted only where the
    store's validator of that path finds a check-in to compare with;
    where it finds none, every such update is refused.) *)
Theorem price_is_double_nearest_product :
  (∀ checkIn checkOut : Instant,
     (nights checkIn checkOut - 1) * ms_per_day < checkOut - checkIn
     ∧ checkOut - checkIn ≤ nights checkIn checkOut * ms_per_day)
  ∧ (∀ L now user body db id (b : Booking.t) db',
       createRoomBooking L now user body db = (Ok (id, b), db') →
       bookings db' !! id = Some b
       ∧ ∃ room,
           rooms db !! Booking.roomId b = Some room
           ∧ Booking.price b
             = binary64
                 (Room.basePrice room
                  * inject_Z (nights (Booking.checkIn b) (Booking.checkOut b)))%Q
           ∧ (∀ whole : Z,
                Room.basePrice room = inject_Z whole →
                Z.abs (whole * nights (Booking.checkIn b) (Booking.checkOut b))
                < 2 ^ 53 →
                Booking.price b
                = inject_Z
                    (whole * nights (Booking.checkIn b) (Booking.checkOut b))))
  ∧ (∀ L now user id body db (booking b' : Booking.t) db',
       bookings db !! id = Some booking →
       updateBooking L now user id body db = (Ok (Some (id, b')), db') →
       is_Some (RoomBooking.p_roomId body)
       ∨ is_Some (RoomBooking.p_checkIn body)
       ∨ is_Some (RoomBooking.p_checkOut body)
       ∨ Booking.roomId b' ≠ Booking.roomId booking
       ∨ Booking.checkIn b' ≠ Booking.checkIn booking
       ∨ Booking.checkOut b' ≠ Booking.checkOut booking →
       bookings db' !! id = Some b'
       ∧ ∃ room,
           rooms db !! Booking.roomId b' = Some room
           ∧ Booking.price b'
             = binary64
                 (Room.basePrice room
                  * inject_Z (nights (Booking.checkIn b') (Booking.checkOut b')))%Q
           ∧ (∀ whole : Z,
                Room.basePrice room = inject_Z whole →
                Z.abs (whole * nights (Booking.checkIn b') (Booking.checkOut b'))
                < 2 ^ 53 →
                Booking.price b'
                = inject_Z
                    (whole * nights (Booking.checkIn b') (Booking.checkOut b'))))
  ∧ (∀ L now user id body db,
       update_this_checkIn L = None →
       is_Some (RoomBooking.p_checkOut body) →
       is_ok (updateBooking L now user id body db).1 = false)
  ∧ nights Scenario.jan_1_2025 Scenario.jan_4_2025 = 3
  ∧ stay_price (100 # 1) Scenario.jan_1_2025 Scenario.jan_4_2025 = (300 # 1)%Q
  ∧ postRoomBooking Scenario.lib Scenario.dec_1_2024 Scenario.customer_a
      Scenario.request Scenario.db
    = (Ok (1%positive, Scenario.stay), Scenario.db_stay)
  ∧ updateBooking Scenario.lib Scenario.dec_1_2024 Scenario.customer_a 1
      Scenario.move_to_room_21 Scenario.db_stay
    = (Ok (Some (1%positive, Scenario.stay_in_room_21)),
       with_bookings {[1%positive := Scenario.stay_in_room_21]} Scenario.db).
Proof.
  assert (∀ (price basePrice : Q) (n : Z),
            price = binary64 (basePrice * inject_Z n)%Q →
            ∀ whole : Z,
              basePrice = inject_Z whole → Z.abs (whole * n) < 2 ^ 53 →
              price = inject_Z (whole * n)) as Hwhole.
  { intros price basePrice n -> whole -> Hlt.
    change (inject_Z whole * inject_Z n)%Q with (inject_Z (whole * n)).
    by apply binary64_whole. }
  split; [apply nights_bounds|]. split; [|split].
  - intros L now user body db id b db' Hrun.
    apply createRoomBooking_ok in Hrun
      as (room & hotel & Hroom & _ & _ & _ & -> & _ & ->).
    split; [simpl; apply lookup_insert_eq|]. exists room.
    split; [done|]. split; [done|]. by apply Hwhole.
  - intros L now user id body db booking b' db' Hb Hrun Hstay.
    destruct (updateBooking_stored L now user id body db booking _ db' Hb Hrun)
      as (b'' & [= <-] & Hb' & _ & _ & _ & Hprice & _).
    split; [done|]. destruct Hprice as (_ & _ & room & Hroom & Hp); [tauto|].
    exists room. split; [done|]. split; [done|]. by apply Hwhole.
  - split; [apply updateBooking_naming_checkOut_refused|].
    repeat split; vm_compute; reflexivity.
Qed.

(** C6, as the claim has it, fails: the exact product is not what is
    stored.  At 0.1 a night the three nights of the scenario are stored
    as 0.30000000000000004, which is neither three times the base price
    nor the double that [0.3] denotes. *)
Lemma price_is_not_the_exact_product :
  createRoomBooking Scenario.lib Scenario.dec_1_2024 Scenario.customer_a
    Scenario.request Scenario.db_tenth
  = (Ok (1%positive, Scenario.stay_tenth),
     with_bookings {[1%positive := Scenario.stay_tenth]} Scenario.db_tenth)
  ∧ rooms Scenario.db_tenth !! Booking.roomId Scenario.stay_tenth
    = Some (Room.mk 10 Scenario.tenth)
  ∧ nights (Booking.checkIn Scenario.stay_tenth)
      (Booking.checkOut Scenario.stay_tenth) = 3
  ∧ ¬ (Booking.price Scenario.stay_tenth == Scenario.tenth * inject_Z 3)%Q
  ∧ ¬ (Booking.price Scenario.stay_tenth == binary64 (3 # 10))%Q.
Proof.
  split; [vm_compute; reflexivity|]. split; [vm_compute; reflexivity|].
  split; [vm_compute; reflexivity|].
  split; intros H; apply Qeq_bool_iff in H; vm_compute in H; discriminate H.
Qed.

(** ** The ownership chain *)

(** A created booking carries the hotel of its room and the owner of that
    hotel, as they are in the database at the time. *)
Lemma createRoomBooking_derives_owner L now user body db id (b : Booking.t) db' :
  createRoomBooking L now user body db = (Ok (id, b), db') →
  ∃ room hotel,
    rooms db !! Booking.roomId b = Some room
    ∧ hotels db !! Room.hotelId room = Some hotel
    ∧ Booking.hotelId b = Room.hotelId room
    ∧ Booking.ownerId b = Hotel.ownerId hotel
    ∧ Booking.userId b = _id user.
Proof.
  intros Hrun.
  apply createRoomBooking_ok in Hrun
    as (room & hotel & Hroom & Hhotel & _ & _ & -> & _ & _).
  by exists room, hotel.
Qed.

(** C4, on the code: an update that changes the room does not resolve the
    chain again.  Moving the stay of the scenario from room 20 (hotel 10,
    owner 3) to room 21 (hotel 11, owner 4) is accepted and stored with
    the new room and its price, and still with hotel 10 and owner 3; and a
    hotel id in the body is stored as sent. *)
Theorem updateBooking_keeps_stale_owner :
  updateBooking Scenario.lib Scenario.dec_1_2024 Scenario.customer_a 1
    Scenario.move_to_room_21 Scenario.db_stay
  = (Ok (Some (1%positive, Scenario.stay_in_room_21)),
     with_bookings {[1%positive := Scenario.stay_in_room_21]} Scenario.db)
  ∧ Booking.roomId Scenario.stay_in_room_21 = 21%positive
  ∧ rooms Scenario.db !! 21%positive = Some (Room.mk 11 (150 # 1))
  ∧ hotels Scenario.db !! 11%positive = Some (Hotel.mk 4 101 Hotel.approved true)
  ∧ Booking.hotelId Scenario.stay_in_room_21 = 10%positive
  ∧ Booking.ownerId Scenario.stay_in_room_21 = 3%positive
  ∧ updateBooking Scenario.lib Scenario.dec_1_2024 Scenario.customer_a 1
      Scenario.move_and_name_hotel Scenario.db_stay
    = (Ok (Some (1%positive, Scenario.stay_in_room_21_hotel_99)),
       with_bookings {[1%positive := Scenario.stay_in_room_21_hotel_99]} Scenario.db)
  ∧ Booking.hotelId Scenario.stay_in_room_21_hotel_99 = 99%positive.
Proof. repeat split; vm_compute; reflexivity. Qed.

(** ** Check-in must lie ahead *)

(** C10. A request to book whose check-in is at or before the time of the
    call is answered by the validator with the 400 "Validation error", and
    the database is left as it was; the controller on its own would not
    store it either. *)
Theorem postRoomBooking_requires_future_checkIn
    (L : Lib) (now : Instant) (user : Principal) (body : validation.CreateBody)
    (db : Db) :
  validation.checkIn body ≤ now →
  postRoomBooking L now user body db = (Err validation.validation_error, db)
  ∧ statusCode validation.validation_error = 400
  ∧ is_ok (createRoomBooking L now user body db).1 = false
  ∧ (createRoomBooking L now user body db).2 = db.
Proof.
  intros Hpast.
  assert ((now <? validation.checkIn body) = false) as Hlt by (apply Z.ltb_ge; lia).
  split; [|split; [done|]].
  - unfold postRoomBooking, validation.validateCreateRoomBooking,
      validation.createRoomBookingSchema, bind, fail_if.
    rewrite Hlt. by rewrite !andb_false_r.
  - rewrite createRoomBooking_run.
    assert (∀ room hotel, RoomBooking.validate L now (new_booking user body room hotel)
                          = false) as Hv.
    { intros room hotel. unfold RoomBooking.validate, new_booking. simpl.
      rewrite Hlt. by rewrite !andb_false_r. }
    repeat case_match; try done; by rewrite Hv in *.
Qed.

Lemma postRoomBooking_requires_future_checkIn_witness :
  postRoomBooking Scenario.lib Scenario.jan_1_2025 Scenario.customer_a
    Scenario.request Scenario.db
  = (Err validation.validation_error, Scenario.db).
Proof.
  apply (postRoomBooking_requires_future_checkIn Scenario.lib Scenario.jan_1_2025
           Scenario.customer_a Scenario.request Scenario.db).
  vm_compute. discriminate.
Defined.

(** ** Listing by city *)

Lemma skip_limit_elem {A} (skip limit : Z) (l : list A) (x : A) :
  x ∈ skip_limit skip limit l → x ∈ l.
Proof.
  unfold skip_limit. intros Hx.
  apply (subseteq_drop (Z.to_nat skip) l).
  destruct (limit =? 0); [done|].
  apply elem_of_take in Hx as (i & Hi & _). by apply list_elem_of_lookup_2 in Hi.
Qed.

Lemma sort_bookings_elem L q l (x : ObjectId * Booking.t) :
  x ∈ sort_bookings L q l → x ∈ l.
Proof.
  unfold sort_bookings. destruct (String.eqb (sortDir q) "desc");
    by rewrite merge_sort_Permutation.
Qed.

Lemma city_hotel_ids_elem db (city : option ObjectId) (h : ObjectId) :
  h ∈ city_hotel_ids db city ↔
    ∃ hotel, hotels db !! h = Some hotel ∧ Some (Hotel.cityId hotel) = city.
Proof.
  unfold city_hotel_ids. rewrite list_elem_of_fmap. split.
  - intros ([k hotel] & -> & Hin).
    apply elem_of_map_to_list, map_lookup_filter_Some in Hin as [Hk Hc].
    by exists hotel.
  - intros (hotel & Hh & Hc). exists (h, hotel). split; [done|].
    by apply elem_of_map_to_list, map_lookup_filter_Some.
Qed.

Lemma getCityAdminBookings_run L user q db :
  getCityAdminBookings L user q db =
    if User.role_eqb (role user) User.city_admin
       && negb (bool_decide (is_Some (cityId user)))
    then (Err no_assigned_city, db)
    else if (page q - 1) * pageSize q <? 0
    then (Err negative_skip, db)
    else
      (Ok (skip_limit ((page q - 1) * pageSize q) (pageSize q)
             (sort_bookings L q
                (map_to_list
                   (filter (λ kb : ObjectId * Booking.t,
                              bool_decide (Booking.hotelId kb.2
                                           ∈ city_hotel_ids db (cityId user))
                              && status_filter q kb.2
                              && search_filter L q kb.2 = true)
                      (bookings db))))),
       db).
Proof.
  unfold getCityAdminBookings, bind, get, fail_if.
  destruct (User.role_eqb _ _ && _); [reflexivity|]. simpl.
  destruct (_ <? 0); reflexivity.
Qed.

(** C9. For a city administrator, listing bookings is refused with a 403
    when the principal has no assigned city; otherwise every booking
    returned is a stored booking whose hotel exists and lies in the
    principal's city -- none of a hotel of another city is returned -- and
    matches the status asked for; the listing changes nothing, and it
    answers whenever the page number is at least 1 and the page size is not
    negative. *)
Theorem getCityAdminBookings_scoped_to_city
    (L : Lib) (user : Principal) (q : ListQuery) (db : Db) :
  role user = User.city_admin →
  (cityId user = None →
   getCityAdminBookings L user q db = (Err no_assigned_city, db)
   ∧ statusCode no_assigned_city = 403)
  ∧ (∀ city found db',
       cityId user = Some city →
       getCityAdminBookings L user q db = (Ok found, db') →
       db' = db
       ∧ ∀ id (b : Booking.t),
           (id, b) ∈ found →
           bookings db !! id = Some b
           ∧ status_filter q b = true
           ∧ (∃ hotel,
                hotels db !! Booking.hotelId b = Some hotel
                ∧ Hotel.cityId hotel = city)
           ∧ (∀ hotel,
                hotels db !! Booking.hotelId b = Some hotel →
                Hotel.cityId hotel = city))
  ∧ (∀ city,
       cityId user = Some city → 1 ≤ page q → 0 ≤ pageSize q →
       is_ok (getCityAdminBookings L user q db).1 = true).
Proof.
  intros Hrole. rewrite getCityAdminBookings_run, Hrole. simpl.
  split; [|split].
  - intros ->. done.
  - intros city found db' Hcity. rewrite Hcity. simpl.
    destruct (_ <? 0); [done|]. intros [= <- <-]. split; [done|].
    intros id b Hin.
    apply skip_limit_elem, sort_bookings_elem, elem_of_map_to_list,
      map_lookup_filter_Some in Hin as [Hb Hf].
    simpl in Hf. apply andb_true_iff in Hf as [Hf _].
    apply andb_true_iff in Hf as [Hin Hst].
    apply bool_decide_eq_true, city_hotel_ids_elem in Hin
      as (hotel & Hhotel & [= Hc]).
    split; [done|]. split; [done|]. split; [by exists hotel|].
    intros hotel' Hhotel'. congruence.
  - intros city Hcity Hpage Hsize. rewrite Hcity. simpl.
    destruct (_ <? 0) eqn:Hneg; [|done].
    apply Z.ltb_lt in Hneg. nia.
Qed.

Lemma getCityAdminBookings_scoped_to_city_witness :
  getCityAdminBookings Scenario.lib Scenario.city_admin_nowhere
    Scenario.first_page Scenario.db_stay
  = (Err no_assigned_city, Scenario.db_stay)
  ∧ is_ok (getCityAdminBookings Scenario.lib Scenario.city_admin_x
             Scenario.first_page Scenario.db_stay).1 = true.
Proof.
  split.
  - apply (getCityAdminBookings_scoped_to_city Scenario.lib
             Scenario.city_admin_nowhere Scenario.first_page Scenario.db_stay
             eq_refl).
    reflexivity.
  - destruct (getCityAdminBookings_scoped_to_city Scenario.lib
                Scenario.city_admin_x Scenario.first_page Scenario.db_stay eq_refl)
      as (_ & _ & Hanswers).
    apply (Hanswers 100%positive); [reflexivity | vm_compute; discriminate..].
Defined.

(** ** Further properties of the handlers *)

Lemma createRoomBooking_reads_then_insertOne L now user body db :
  createRoomBooking L now user body db
  = (doc <- createRoomBooking_reads L now user body;;
     RoomBooking.insertOne doc) db.
Proof.
  unfold createRoomBooking, createRoomBooking_reads, RoomBooking.create,
    RoomBooking.checked, RoomBooking.insertOne, RoomBooking.preSave,
    bind, get, find_or, fail_if, put, ret, throw.
  simpl. repeat (case_match; simplify_eq/=; try done).
Qed.

Lemma createRoomBooking_reads_only L now user body db :
  (createRoomBooking_reads L now user body db).2 = db.
Proof.
  unfold createRoomBooking_reads, RoomBooking.checked, RoomBooking.preSave,
    bind, get, find_or, fail_if, put, ret, throw.
  simpl. repeat (case_match; simplify_eq/=; try done).
Qed.

(** X1. Served one at a time, creating, updating and cancelling a booking
    each keep the invariant that no two pending or confirmed bookings of a
    room overlap, whether the request is accepted or refused.  Served
    together they do not: [createRoomBooking] is its reads, which change
    nothing, followed by one insert, and when the reads of two requests
    for overlapping nights in a free room are both answered before either
    insert, both bookings are stored. *)
Theorem no_double_booking_kept_one_at_a_time_only :
  (∀ L now user body db r db',
     no_double_booking (bookings db) →
     createRoomBooking L now user body db = (r, db') →
     no_double_booking (bookings db'))
  ∧ (∀ L now user id body db r db',
       no_double_booking (bookings db) →
       updateBooking L now user id body db = (r, db') →
       no_double_booking (bookings db'))
  ∧ (∀ L now user id db r db',
       no_double_booking (bookings db) →
       cancelBooking L now user id db = (r, db') →
       no_double_booking (bookings db'))
  ∧ (∀ L now user body db,
       createRoomBooking L now user body db
       = (doc <- createRoomBooking_reads L now user body;;
          RoomBooking.insertOne doc) db
       ∧ (createRoomBooking_reads L now user body db).2 = db)
  ∧ no_double_booking (bookings Scenario.db)
  ∧ createRoomBooking_interleaved Scenario.lib Scenario.dec_1_2024
      Scenario.customer_a Scenario.request
      Scenario.customer_b Scenario.rival_request Scenario.db
    = (Ok ((1%positive, Scenario.stay),
           (2%positive, Booking.set_status Booking.pending Scenario.rival)),
       Scenario.db_raced)
  ∧ ¬ no_double_booking (bookings Scenario.db_raced).
Proof.
  split; [apply createRoomBooking_keeps_no_double_booking|].
  split; [apply updateBooking_keeps_no_double_booking|].
  split; [apply cancelBooking_keeps_no_double_booking|].
  split.
  { intros L now user body db.
    split; [apply createRoomBooking_reads_then_insertOne
           |apply createRoomBooking_reads_only]. }
  split.
  { intros i j a b Hi. simpl in Hi. by rewrite lookup_empty in Hi. }
  split; [vm_compute; reflexivity|].
  intros Hinv.
  apply (Hinv 1%positive 2%positive Scenario.stay
           (Booking.set_status Booking.pending Scenario.rival)); done.
Qed.

Lemma no_double_booking_kept_one_at_a_time_only_witness :
  no_double_booking (bookings Scenario.db_stay)
  ∧ no_double_booking (bookings Scenario.db_cancelled).
Proof.
  destruct no_double_booking_kept_one_at_a_time_only
    as (Hcreate & _ & Hcancel & _).
  assert (no_double_booking (bookings Scenario.db_stay)) as Hstay.
  { apply (Hcreate Scenario.lib Scenario.dec_1_2024 Scenario.customer_a
             Scenario.request Scenario.db (Ok (1%positive, Scenario.stay))
             Scenario.db_stay).
    - intros i j a b Hi. simpl in Hi. by rewrite lookup_empty in Hi.
    - reflexivity. }
  split; [exact Hstay|].
  apply (Hcancel Scenario.lib Scenario.dec_1_2024 Scenario.customer_a 1%positive
           Scenario.db_stay
           (Ok (Some (1%positive, Booking.set_status Booking.cancelled Scenario.stay)))
           Scenario.db_cancelled Hstay).
  reflexivity.
Defined.

(** X2. Setting the status a booking already has, by the owner of its
    hotel or a super administrator, is accepted and not refused: the
    answer is the booking with its status, stay, guests, names, references
    and price as they were, it is stored so, and no other booking and no
    user, hotel or room changes.  (The store sets the [updatedAt] stamp of
    the booking anew on every update, this one included; the stamp is not
    a field of the document here and nothing is said of it.) *)
Theorem updateBookingStatus_current_status_is_accepted
    (L : Lib) (now : Instant) (user : Principal) (id : ObjectId) (db : Db)
    (booking : Booking.t) :
  bookings db !! id = Some booking →
  _id user = Booking.ownerId booking ∨ role user = User.super_admin →
  ∃ b' db',
    updateBookingStatus L now user id
      (Booking.status_name (Booking.status booking)) db
    = (Ok (Some (id, b')), db')
    ∧ bookings db' !! id = Some b'
    ∧ Booking.status b' = Booking.status booking
    ∧ Booking.checkIn b' = Booking.checkIn booking
    ∧ Booking.checkOut b' = Booking.checkOut booking
    ∧ Booking.adults b' = Booking.adults booking
    ∧ Booking.children b' = Booking.children booking
    ∧ Booking.fullName b' = Booking.fullName booking
    ∧ Booking.guestName b' = Booking.guestName booking
    ∧ Booking.phoneNumber b' = Booking.phoneNumber booking
    ∧ Booking.userId b' = Booking.userId booking
    ∧ Booking.ownerId b' = Booking.ownerId booking
    ∧ Booking.roomId b' = Booking.roomId booking
    ∧ Booking.hotelId b' = Booking.hotelId booking
    ∧ Booking.price b' = Booking.price booking
    ∧ (∀ j, j ≠ id → bookings db' !! j = bookings db !! j)
    ∧ users db' = users db
    ∧ hotels db' = hotels db
    ∧ rooms db' = rooms db.
Proof.
  intros Hb Hallowed. exists booking, db.
  split; [|by repeat split].
  apply updateBookingStatus_same_status; [done|].
  unfold canUpdateStatus.
  rewrite orb_true_iff, isOwnedByHotelOwner_true_iff, role_eqb_true_iff. done.
Qed.

Lemma updateBookingStatus_current_status_is_accepted_witness :
  ∃ b' db',
    updateBookingStatus Scenario.lib Scenario.dec_1_2024 Scenario.admin 1
      "confirmed" Scenario.db_confirmed
    = (Ok (Some (1%positive, b')), db')
    ∧ Booking.status b' = Booking.confirmed.
Proof.
  destruct (updateBookingStatus_current_status_is_accepted Scenario.lib
              Scenario.dec_1_2024 Scenario.admin 1 Scenario.db_confirmed
              (Booking.set_status Booking.confirmed Scenario.stay))
    as (b' & db' & Hrun & _ & Hstatus & _).
  - reflexivity.
  - right. reflexivity.
  - by exists b', db'.
Defined.

(** X3. A created booking is stored with the hotel of its room and the
    owner of that hotel as the database has them at the time, and with the
    principal as its customer; the request carries no hotel or owner of
    its own. *)
Theorem createRoomBooking_resolves_ownership_chain
    (L : Lib) (now : Instant) (user : Principal) (body : validation.CreateBody)
    (db : Db) (id : ObjectId) (b : Booking.t) (db' : Db) :
  createRoomBooking L now user body db = (Ok (id, b), db') →
  bookings db' !! id = Some b
  ∧ Booking.roomId b = validation.roomId body
  ∧ Booking.userId b = _id user
  ∧ ∃ room hotel,
      rooms db !! Booking.roomId b = Some room
      ∧ hotels db !! Room.hotelId room = Some hotel
      ∧ Booking.hotelId b = Room.hotelId room
      ∧ Booking.ownerId b = Hotel.ownerId hotel.
Proof.
  intros Hrun.
  destruct (createRoomBooking_derives_owner L now user body db id b db' Hrun)
    as (room & hotel & Hroom & Hhotel & Hh & Ho & Hu).
  apply createRoomBooking_ok in Hrun as (? & ? & _ & _ & _ & _ & -> & _ & ->).
  split; [simpl; apply lookup_insert_eq|]. split; [done|]. split; [done|].
  by exists room, hotel.
Qed.

Lemma createRoomBooking_resolves_ownership_chain_witness :
  Booking.hotelId Scenario.stay = 10%positive
  ∧ Booking.ownerId Scenario.stay = 3%positive.
Proof.
  destruct (createRoomBooking_resolves_ownership_chain Scenario.lib
              Scenario.dec_1_2024 Scenario.customer_a Scenario.request Scenario.db
              1%positive Scenario.stay Scenario.db_stay eq_refl)
    as (_ & _ & _ & room & hotel & Hroom & Hhotel & Hh & Ho).
  split; reflexivity.
Defined.

(** ** The theorems above, on the scenario *)

Lemma hasConflict_iff_active_overlap_witness :
  RoomBooking.hasConflict (bookings Scenario.db_stay) 20 Scenario.jan_2_2025
    Scenario.jan_3_2025 None = true
  ∧ (1%positive, Scenario.stay)
    ∉ RoomBooking.checkRoomAvailability (bookings Scenario.db_stay) 20
        Scenario.jan_4_2025 (Scenario.jan_4_2025 + ms_per_day) None.
Proof.
  split.
  - apply (hasConflict_iff_active_overlap (bookings Scenario.db_stay) 20
             Scenario.jan_2_2025 Scenario.jan_3_2025 None).
    exists 1%positive, Scenario.stay.
    repeat split; try reflexivity; [discriminate | by left].
  - destruct (hasConflict_iff_active_overlap (bookings Scenario.db_stay) 20
                Scenario.jan_4_2025 (Scenario.jan_4_2025 + ms_per_day) None)
      as (_ & Hadjacent & _).
    apply Hadjacent. left. reflexivity.
Defined.

Lemma price_is_double_nearest_product_witness :
  Booking.price Scenario.stay = inject_Z (100 * 3).
Proof.
  destruct price_is_double_nearest_product as (_ & Hcreate & _).
  destruct (Hcreate Scenario.lib Scenario.dec_1_2024 Scenario.customer_a
              Scenario.request Scenario.db 1%positive Scenario.stay Scenario.db_stay)
    as (_ & room & Hroom & _ & Hwhole); [reflexivity|].
  injection Hroom as <-.
  apply (Hwhole 100); [reflexivity | vm_compute; reflexivity].
Defined.

(** * Further properties of the booking handlers *)

Lemma validate_true L now (b : Booking.t) :
  RoomBooking.validate L now b = true →
  now < Booking.checkIn b
  ∧ Booking.checkIn b < Booking.checkOut b
  ∧ 1 ≤ Booking.adults b ≤ 20
  ∧ 0 ≤ Booking.children b ≤ 10
  ∧ (0 <= Booking.price b)%Q.
Proof.
  unfold RoomBooking.validate, RoomBooking.in_range.
  rewrite !andb_true_iff, !Z.ltb_lt, !Z.leb_le, Qle_bool_iff. tauto.
Qed.

Lemma nights_positive (checkIn checkOut : Instant) :
  checkIn < checkOut → 1 ≤ nights checkIn checkOut.
Proof.
  intros Hlt. pose proof (nights_bounds checkIn checkOut) as [_ Hub].
  change ms_per_day with 86400000 in Hub. lia.
Qed.

(** X4. A booking that [createRoomBooking] stores is pending, starts after
    the time of the call, ends after it starts, lasts at least one night,
    has 1 to 20 adults and 0 to 10 children and a price that is not
    negative; it is stored under an id no booking had, every other booking
    is left as it was, and users, hotels and rooms are not touched. *)
Theorem createRoomBooking_stores_well_formed
    (L : Lib) (now : Instant) (user : Principal) (body : validation.CreateBody)
    (db : Db) (id : ObjectId) (b : Booking.t) (db' : Db) :
  createRoomBooking L now user body db = (Ok (id, b), db') →
  Booking.status b = Booking.pending
  ∧ now < Booking.checkIn b
  ∧ Booking.checkIn b < Booking.checkOut b
  ∧ 1 ≤ nights (Booking.checkIn b) (Booking.checkOut b)
  ∧ 1 ≤ Booking.adults b ≤ 20
  ∧ 0 ≤ Booking.children b ≤ 10
  ∧ (0 <= Booking.price b)%Q
  ∧ bookings db !! id = None
  ∧ bookings db' !! id = Some b
  ∧ (∀ j, j ≠ id → bookings db' !! j = bookings db !! j)
  ∧ users db' = users db ∧ hotels db' = hotels db ∧ rooms db' = rooms db.
Proof.
  intros Hrun.
  apply createRoomBooking_ok in Hrun
    as (room & hotel & _ & _ & _ & Hvalid & -> & Hfresh & ->).
  apply validate_true in Hvalid as (Hnow & Hlt & Had & Hch & Hp).
  split; [done|]. split; [done|]. split; [done|].
  split; [by apply nights_positive|].
  split; [done|]. split; [done|]. split; [done|]. split; [done|].
  split; [simpl; apply lookup_insert_eq|].
  split; [|done]. intros j Hj. simpl. by apply lookup_insert_ne.
Qed.

Lemma createRoomBooking_stores_well_formed_witness :
  1 ≤ nights (Booking.checkIn Scenario.stay) (Booking.checkOut Scenario.stay)
  ∧ bookings Scenario.db !! 1%positive = None.
Proof.
  destruct (createRoomBooking_stores_well_formed Scenario.lib Scenario.dec_1_2024
              Scenario.customer_a Scenario.request Scenario.db 1%positive
              Scenario.stay Scenario.db_stay eq_refl)
    as (_ & _ & _ & Hn & _ & _ & _ & Hfresh & _).
  split; [exact Hn | exact Hfresh].
Defined.

(** [{ checkIn }] *)
Lemma validate_update_checkIn_only L now (d : Instant) (q : Q) :
  RoomBooking.validate_update L now
    (with_price q
       (strip_protected
          (RoomBooking.mkPatch None None None (Some d) None None None None None
             None None None None)))
  = (now <? d) && Qle_bool 0 q.
Proof. unfold RoomBooking.validate_update. simpl. by rewrite !andb_true_r. Qed.

(** X5. An update that moves only the check-in is checked against the
    clock, not against the stored check-out: the customer's request to
    start on the day the stay ends is accepted when the room is free, and
    the booking is stored with check-in equal to check-out, no nights and
    a price equal to zero. *)
Theorem updateBooking_accepts_stay_of_no_nights
    (L : Lib) (now : Instant) (user : Principal) (id : ObjectId) (db : Db)
    (booking : Booking.t) (room : Room.t) :
  bookings db !! id = Some booking →
  _id user = Booking.userId booking →
  Booking.status booking = Booking.pending →
  48 * ms_per_hour < Booking.checkIn booking - now →
  Booking.checkIn booking ≤ Booking.checkOut booking →
  rooms db !! Booking.roomId booking = Some room →
  RoomBooking.hasConflict (bookings db) (Booking.roomId booking)
    (Booking.checkOut booking) (Booking.checkOut booking) (Some id) = false →
  ∃ b',
    updateBooking L now user id
      (RoomBooking.mkPatch None None None (Some (Booking.checkOut booking)) None
         None None None None None None None None) db
    = (Ok (Some (id, b')), with_bookings (<[id := b']> (bookings db)) db)
    ∧ Booking.checkIn b' = Booking.checkOut b'
    ∧ Booking.checkOut b' = Booking.checkOut booking
    ∧ nights (Booking.checkIn b') (Booking.checkOut b') = 0
    ∧ (Booking.price b' == 0)%Q.
Proof.
  intros Hb Hu Hs Hh Hle Hroom Hfree.
  rewrite (updateBooking_run L now user id _ db booking Hb). cbv zeta.
  assert (RoomBooking.isOwnedByUser booking (_id user) = true) as ->
    by (by apply isOwnedByUser_true_iff).
  assert (RoomBooking.canBeModified now booking = true) as ->.
  { apply canBeModified_true_iff. split; [done|].
    by apply (hours_lt_iff 48). }
  simpl. rewrite Hfree, Hroom.
  rewrite validate_update_checkIn_only.
  assert (nights (Booking.checkOut booking) (Booking.checkOut booking) = 0) as Hn.
  { rewrite nights_eq. replace (Booking.checkOut booking - Booking.checkOut booking)
      with 0 by lia. reflexivity. }
  assert ((now <? Booking.checkOut booking) = true) as ->.
  { apply Z.ltb_lt. change ms_per_hour with 3600000 in Hh. lia. }
  assert (stay_price (Room.basePrice room) (Booking.checkOut booking)
            (Booking.checkOut booking) = 0%Q) as ->.
  { unfold stay_price. rewrite Hn. apply binary64_zero. simpl. lia. }
  simpl. eexists. split; [reflexivity|]. simpl. done.
Qed.

Lemma updateBooking_accepts_stay_of_no_nights_witness :
  ∃ b',
    (updateBooking Scenario.lib Scenario.dec_1_2024 Scenario.customer_a 1
       (RoomBooking.mkPatch None None None (Some Scenario.jan_4_2025) None None
          None None None None None None None) Scenario.db_stay).1
    = Ok (Some (1%positive, b'))
    ∧ Booking.checkIn b' = Booking.checkOut b'.
Proof.
  destruct (updateBooking_accepts_stay_of_no_nights Scenario.lib
              Scenario.dec_1_2024 Scenario.customer_a 1 Scenario.db_stay
              Scenario.stay (Room.mk 10 (100 # 1)))
    as (b' & Hrun & Heq & _); try reflexivity.
  - vm_compute. discriminate.
  - exists b'. split; [exact (f_equal fst Hrun) | exact Heq].
Defined.

(** A booking is created only for a customer and an owner who exist. *)
Lemma createRoomBooking_users L now user body db id (b : Booking.t) db' :
  createRoomBooking L now user body db = (Ok (id, b), db') →
  is_Some (users db' !! Booking.userId b)
  ∧ is_Some (users db' !! Booking.ownerId b).
Proof.
  intros Hrun.
  pose proof (createRoomBooking_ok L now user body db id b db' Hrun)
    as (room & hotel & Hroom & Hhotel & _ & _ & -> & _ & ->).
  rewrite createRoomBooking_run, Hroom, Hhotel in Hrun. simpl.
  repeat case_match; simplify_eq; done.
Qed.

(** X6. What [createRoomBooking] stores can be read back by super
    administrators only: looking the new id up in the database it leaves
    returns the booking to every super administrator and refuses every
    other principal with a 403 -- the customer who has just made it and
    the owner it was assigned to included, since both exist and are
    populated into the booking before the access check. *)
Theorem createRoomBooking_then_getBookingById
    (L : Lib) (now : Instant) (user : Principal) (body : validation.CreateBody)
    (db : Db) (id : ObjectId) (b : Booking.t) (db' : Db) :
  createRoomBooking L now user body db = (Ok (id, b), db') →
  Booking.userId b = _id user
  ∧ (∀ reader,
       role reader = User.super_admin →
       getBookingById reader id db' = (Ok (id, b), db'))
  ∧ (∀ reader,
       role reader ≠ User.super_admin →
       getBookingById reader id db' = (Err cannot_view, db')).
Proof.
  intros Hrun.
  destruct (createRoomBooking_users L now user body db id b db' Hrun)
    as [[u Hu] [o Ho]].
  apply createRoomBooking_ok in Hrun as (room & hotel & _ & _ & _ & _ & -> & _ & ->).
  split; [done|].
  assert (∀ reader,
            getBookingById reader id
              (with_bookings (<[id := new_booking user body room hotel]> (bookings db)) db)
            = if User.role_eqb (role reader) User.super_admin
              then (Ok (id, new_booking user body room hotel),
                    with_bookings
                      (<[id := new_booking user body room hotel]> (bookings db)) db)
              else (Err cannot_view,
                    with_bookings
                      (<[id := new_booking user body room hotel]> (bookings db)) db))
    as Hget.
  { intros reader.
    rewrite (getBookingById_run reader id _ (new_booking user body room hotel))
      by (simpl; apply lookup_insert_eq).
    by rewrite Hu, Ho. }
  split.
  - intros reader Hr. rewrite Hget.
    by rewrite (proj2 (role_eqb_true_iff _ _) Hr).
  - intros reader Hr. rewrite Hget.
    destruct (User.role_eqb (role reader) User.super_admin) eqn:Heq; [|done].
    by apply role_eqb_true_iff in Heq.
Qed.

Lemma createRoomBooking_then_getBookingById_witness :
  getBookingById Scenario.customer_a 1 Scenario.db_stay
  = (Err cannot_view, Scenario.db_stay)
  ∧ getBookingById Scenario.admin 1 Scenario.db_stay
    = (Ok (1%positive, Scenario.stay), Scenario.db_stay).
Proof.
  destruct (createRoomBooking_then_getBookingById Scenario.lib Scenario.dec_1_2024
              Scenario.customer_a Scenario.request Scenario.db 1%positive
              Scenario.stay Scenario.db_stay eq_refl)
    as (_ & Hadmin & Hother).
  split; [apply Hother; discriminate | by apply Hadmin].
Defined.

(** A cancelled or rejected booking fails both customer guards. *)
Lemma inactive_cannot_be_cancelled_or_modified now (b : Booking.t) :
  Booking.is_active (Booking.status b) = false →
  RoomBooking.canBeCancelled now b = false
  ∧ RoomBooking.canBeModified now b = false.
Proof.
  unfold RoomBooking.canBeCancelled, RoomBooking.canBeModified.
  intros Hinactive. by destruct (Booking.status b).
Qed.

(** X7. Once a booking has been cancelled the customer's handlers are
    closed to it: at any later time and for any principal, cancelling it
    again is refused, and so is every update, and both leave the database
    as it is; its own customer is told 400. *)
Theorem cancelled_booking_is_closed_to_customer
    (L : Lib) (now : Instant) (user : Principal) (id : ObjectId) (db : Db)
    (cancelled : option (ObjectId * Booking.t)) (db' : Db) :
  cancelBooking L now user id db = (Ok cancelled, db') →
  ∀ now' anyone,
    is_ok (cancelBooking L now' anyone id db').1 = false
    ∧ (cancelBooking L now' anyone id db').2 = db'
    ∧ cancelBooking L now' user id db' = (Err cannot_be_cancelled, db')
    ∧ ∀ body,
        is_ok (updateBooking L now' anyone id body db').1 = false
        ∧ (updateBooking L now' anyone id body db').2 = db'
        ∧ updateBooking L now' user id body db' = (Err cannot_be_modified, db').
Proof.
  intros Hrun now' anyone.
  destruct (bookings db !! id) as [b|] eqn:Hb.
  2:{ unfold cancelBooking, bind, get, find_or in Hrun. rewrite Hb in Hrun.
      by simplify_eq/=. }
  rewrite (cancelBooking_run L now user id db b Hb) in Hrun.
  destruct (RoomBooking.isOwnedByUser b (_id user)) eqn:Hown; [|by simplify_eq].
  destruct (RoomBooking.canBeCancelled now b); [|by simplify_eq].
  simpl in Hrun. simplify_eq.
  set (b' := Booking.set_status Booking.cancelled b).
  set (db' := with_bookings (<[id := b']> (bookings db)) db).
  assert (bookings db' !! id = Some b') as Hb' by (simpl; apply lookup_insert_eq).
  destruct (inactive_cannot_be_cancelled_or_modified now' b' eq_refl) as [Hc Hm].
  assert (RoomBooking.isOwnedByUser b' (_id user) = true) as Hown' by done.
  rewrite !(cancelBooking_run L now' _ id db' b' Hb'), Hc, Hown'. simpl.
  split; [by destruct (RoomBooking.isOwnedByUser b' (_id anyone))|].
  split; [by destruct (RoomBooking.isOwnedByUser b' (_id anyone))|].
  split; [done|]. intros body.
  rewrite !(updateBooking_run L now' _ id body db' b' Hb'), Hm, Hown'. simpl.
  by destruct (RoomBooking.isOwnedByUser b' (_id anyone)).
Qed.

Lemma cancelled_booking_is_closed_to_customer_witness :
  cancelBooking Scenario.lib Scenario.dec_1_2024 Scenario.customer_a 1
    Scenario.db_cancelled
  = (Err cannot_be_cancelled, Scenario.db_cancelled).
Proof.
  apply (cancelled_booking_is_closed_to_customer Scenario.lib Scenario.dec_1_2024
           Scenario.customer_a 1 Scenario.db_stay
           (Some (1%positive, Booking.set_status Booking.cancelled Scenario.stay))
           Scenario.db_cancelled eq_refl Scenario.dec_1_2024 Scenario.customer_a).
Defined.

(** X8. Cancelling gives the stay back: in a database where no two active
    bookings of a room overlap, after a booking has been cancelled the
    availability check for its own room and dates finds no conflict. *)
Theorem cancelBooking_frees_the_stay
    (L : Lib) (now : Instant) (user : Principal) (id : ObjectId) (db : Db)
    (booking : Booking.t) (cancelled : option (ObjectId * Booking.t)) (db' : Db) :
  no_double_booking (bookings db) →
  bookings db !! id = Some booking →
  cancelBooking L now user id db = (Ok cancelled, db') →
  RoomBooking.hasConflict (bookings db') (Booking.roomId booking)
    (Booking.checkIn booking) (Booking.checkOut booking) None = false.
Proof.
  intros Hinv Hb Hrun.
  rewrite (cancelBooking_run L now user id db booking Hb) in Hrun.
  destruct (RoomBooking.isOwnedByUser booking (_id user)); [|by simplify_eq].
  destruct (RoomBooking.canBeCancelled now booking) eqn:Hcan; [|by simplify_eq].
  simpl in Hrun. simplify_eq.
  apply canBeCancelled_true_iff in Hcan as [Hact _].
  apply is_active_true_iff in Hact.
  apply hasConflict_false_iff. intros j e He.
  apply not_true_iff_false. intros Hc.
  apply conflicts_with_true_iff in Hc as (Hroom & Hst & Ho1 & Ho2 & _).
  simpl in He. apply lookup_insert_Some in He as [[<- <-]|[Hne He]].
  - simpl in Hst. destruct Hst; discriminate.
  - apply (Hinv j id e booking He Hb); [congruence|done|by apply is_active_true_iff|done|].
    split; done.
Qed.

Lemma cancelBooking_frees_the_stay_witness :
  RoomBooking.hasConflict (bookings Scenario.db_cancelled) 20 Scenario.jan_1_2025
    Scenario.jan_4_2025 None = false
  ∧ RoomBooking.hasConflict (bookings Scenario.db_stay) 20 Scenario.jan_1_2025
      Scenario.jan_4_2025 None = true.
Proof.
  split; [|reflexivity].
  apply (cancelBooking_frees_the_stay Scenario.lib Scenario.dec_1_2024
           Scenario.customer_a 1 Scenario.db_stay Scenario.stay
           (Some (1%positive, Booking.set_status Booking.cancelled Scenario.stay))
           Scenario.db_cancelled).
  - intros i j a b Hi Hj Hne. simpl in Hi, Hj.
    apply lookup_singleton_Some in Hi as [<- _].
    apply lookup_singleton_Some in Hj as [<- _]. done.
  - reflexivity.
  - reflexivity.
Defined.

(** * Hotels, rooms and users under the booking handlers *)

Import hotelController.

Lemma is_approved_true_iff (s : Hotel.Status) :
  Hotel.is_approved s = true ↔ s = Hotel.approved.
Proof. destruct s; simpl; intuition congruence. Qed.

Lemma isOwnedBy_true_iff (h : Hotel.t) (u : ObjectId) :
  isOwnedBy h u = true ↔ u = Hotel.ownerId h.
Proof. unfold isOwnedBy. rewrite Pos.eqb_eq. split; congruence. Qed.

Lemma hotel_findByIdAndUpdate_run id update db (h : Hotel.t) :
  hotels db !! id = Some h →
  findByIdAndUpdate id update db
  = (Ok (Some (update h)), with_hotels (<[id := update h]> (hotels db)) db).
Proof. intros Hh. unfold findByIdAndUpdate, bind, get, put. by rewrite Hh. Qed.

Lemma showHotel_run user id db (h : Hotel.t) :
  hotels db !! id = Some h →
  showHotel user id db =
    if negb (isOwnedBy h (_id user)) then (Err not_your_hotel, db)
    else if negb (Hotel.is_approved (Hotel.status h)) then (Err not_approved, db)
    else (Ok (Some (set_isVisible true h)),
          with_hotels (<[id := set_isVisible true h]> (hotels db)) db).
Proof.
  intros Hh. unfold showHotel, bind, get, find_or, fail_if. rewrite Hh. simpl.
  destruct (isOwnedBy h (_id user)); [|done]. simpl.
  destruct (Hotel.is_approved (Hotel.status h)); [|done]. simpl.
  by rewrite (hotel_findByIdAndUpdate_run id _ db h Hh).
Qed.

Lemma hideHotel_run user id db (h : Hotel.t) :
  hotels db !! id = Some h →
  hideHotel user id db =
    if negb (isOwnedBy h (_id user)) then (Err not_your_hotel, db)
    else (Ok (Some (set_isVisible false h)),
          with_hotels (<[id := set_isVisible false h]> (hotels db)) db).
Proof.
  intros Hh. unfold hideHotel, bind, get, find_or, fail_if. rewrite Hh. simpl.
  destruct (isOwnedBy h (_id user)); [|done]. simpl.
  by rewrite (hotel_findByIdAndUpdate_run id _ db h Hh).
Qed.

Lemma set_status_run status id db :
  (hotel <- findByIdAndUpdate id (set_status status);;
   find_or hotel hotel_not_found) db =
    match hotels db !! id with
    | Some h => (Ok (set_status status h),
                 with_hotels (<[id := set_status status h]> (hotels db)) db)
    | None => (Err hotel_not_found, db)
    end.
Proof.
  unfold findByIdAndUpdate, bind, get, put, find_or.
  by destruct (hotels db !! id).
Qed.

(** X9. The owner's request to show a hotel goes through exactly when the
    principal owns it and it is approved, and the hotel is then approved
    and visible; another principal is refused with a 403 and an owner
    whose hotel is pending or rejected with a 400, the database unchanged. *)
Theorem showHotel_succeeds_iff
    (user : Principal) (id : ObjectId) (db : Db) (hotel : Hotel.t) :
  hotels db !! id = Some hotel →
  (is_ok (showHotel user id db).1 = true ↔
     _id user = Hotel.ownerId hotel ∧ Hotel.status hotel = Hotel.approved)
  ∧ (is_ok (showHotel user id db).1 = true →
     showHotel user id db
     = (Ok (Some (set_isVisible true hotel)),
        with_hotels (<[id := set_isVisible true hotel]> (hotels db)) db)
     ∧ isPubliclyVisible (set_isVisible true hotel) = true)
  ∧ (_id user ≠ Hotel.ownerId hotel →
     showHotel user id db = (Err hotelController.not_your_hotel, db)
     ∧ statusCode hotelController.not_your_hotel = 403)
  ∧ (_id user = Hotel.ownerId hotel → Hotel.status hotel ≠ Hotel.approved →
     showHotel user id db = (Err not_approved, db)
     ∧ statusCode not_approved = 400).
Proof.
  intros Hh. rewrite (showHotel_run user id db hotel Hh).
  pose proof (isOwnedBy_true_iff hotel (_id user)) as Hown.
  pose proof (is_approved_true_iff (Hotel.status hotel)) as Happ.
  unfold isPubliclyVisible.
  destruct (isOwnedBy hotel (_id user)) eqn:Ho; simpl.
  - assert (_id user = Hotel.ownerId hotel) as Hu by (by apply Hown).
    destruct (Hotel.is_approved (Hotel.status hotel)) eqn:Ha; simpl.
    + assert (Hotel.status hotel = Hotel.approved) as Hs by (by apply Happ).
      split; [tauto|]. split; [done|]. split; [done|]. done.
    + assert (Hotel.status hotel ≠ Hotel.approved) as Hs.
      { intros Hs. apply Happ in Hs. discriminate Hs. }
      split; [|done]. split; [done|]. intros [_ ?]. done.
  - assert (_id user ≠ Hotel.ownerId hotel) as Hu.
    { intros Hu. apply Hown in Hu. discriminate Hu. }
    split; [|done]. split; [done|]. intros [? _]. done.
Qed.

Lemma showHotel_succeeds_iff_witness :
  is_ok (showHotel Scenario.owner_a 10 Scenario.db).1 = true
  ∧ showHotel Scenario.owner_b 10 Scenario.db
    = (Err hotelController.not_your_hotel, Scenario.db).
Proof.
  destruct (showHotel_succeeds_iff Scenario.owner_a 10 Scenario.db
              (Hotel.mk 3 100 Hotel.approved true) eq_refl) as (Hiff & _).
  destruct (showHotel_succeeds_iff Scenario.owner_b 10 Scenario.db
              (Hotel.mk 3 100 Hotel.approved true) eq_refl) as (_ & _ & Hother & _).
  split; [by apply Hiff | apply Hother; discriminate].
Defined.

Lemma createRoomBooking_hotel_gate L now user body db (room : Room.t) (hotel : Hotel.t) :
  rooms db !! validation.roomId body = Some room →
  hotels db !! Room.hotelId room = Some hotel →
  isPubliclyVisible hotel = false →
  createRoomBooking L now user body db = (Err hotel_not_available, db).
Proof.
  intros Hroom Hhotel Hpub. rewrite createRoomBooking_run, Hroom, Hhotel.
  unfold isPubliclyVisible in Hpub.
  destruct (Hotel.isVisible hotel), (Hotel.is_approved (Hotel.status hotel)); done.
Qed.

(** X10. A hotel that its owner has hidden or a super administrator has
    rejected takes no new bookings: afterwards every request to book one of
    its rooms is refused with the 400 "Hotel is not available for booking"
    and changes nothing, while the bookings that were there, confirmed
    ones included, stay as they were. *)
Theorem hidden_or_rejected_hotel_takes_no_bookings
    (owner : Principal) (id : ObjectId) (db db' : Db) :
  (∃ h, hideHotel owner id db = (Ok h, db'))
  ∨ (∃ h, rejectHotel id db = (Ok h, db')) →
  bookings db' = bookings db
  ∧ rooms db' = rooms db
  ∧ ∀ L now customer body room,
      rooms db' !! validation.roomId body = Some room →
      Room.hotelId room = id →
      createRoomBooking L now customer body db' = (Err hotel_not_available, db').
Proof.
  intros Hclosed.
  assert (∃ h, hotels db' !! id = Some h ∧ isPubliclyVisible h = false
               ∧ bookings db' = bookings db ∧ rooms db' = rooms db)
    as (h & Hh & Hpub & Hbs & Hrs).
  { destruct Hclosed as [[r Hrun]|[r Hrun]].
    - destruct (hotels db !! id) as [h|] eqn:Hh.
      + rewrite (hideHotel_run owner id db h Hh) in Hrun.
        destruct (isOwnedBy h (_id owner)); [|by simplify_eq]. simpl in Hrun.
        simplify_eq. exists (set_isVisible false h).
        split; [simpl; apply lookup_insert_eq|]. split; [|done].
        unfold isPubliclyVisible. simpl. apply andb_false_r.
      + unfold hideHotel, bind, get, find_or in Hrun. rewrite Hh in Hrun.
        by simplify_eq/=.
    - unfold rejectHotel in Hrun. rewrite set_status_run in Hrun.
      destruct (hotels db !! id) as [h|] eqn:Hh; [|by simplify_eq].
      simplify_eq. exists (set_status Hotel.rejected h).
      split; [simpl; apply lookup_insert_eq|]. done. }
  split; [done|]. split; [done|].
  intros L now customer body room Hroom <-.
  by apply (createRoomBooking_hotel_gate L now customer body db' room h).
Qed.

Lemma hidden_or_rejected_hotel_takes_no_bookings_witness :
  createRoomBooking Scenario.lib Scenario.dec_1_2024 Scenario.customer_a
    Scenario.request (hideHotel Scenario.owner_a 10 Scenario.db).2
  = (Err hotel_not_available, (hideHotel Scenario.owner_a 10 Scenario.db).2).
Proof.
  destruct (hidden_or_rejected_hotel_takes_no_bookings Scenario.owner_a 10
              Scenario.db (hideHotel Scenario.owner_a 10 Scenario.db).2)
    as (_ & _ & Hclosed).
  - left. eexists. reflexivity.
  - apply (Hclosed Scenario.lib Scenario.dec_1_2024 Scenario.customer_a
             Scenario.request (Room.mk 10 (100 # 1))); reflexivity.
Defined.

Lemma with_hotels_same (db : Db) : with_hotels (hotels db) db = db.
Proof. by destruct db. Qed.

Lemma set_status_back (h : Hotel.t) s :
  set_status (Hotel.status h) (set_status s h) = h.
Proof. by destruct h. Qed.

Lemma set_isVisible_back (h : Hotel.t) v :
  set_isVisible (Hotel.isVisible h) (set_isVisible v h) = h.
Proof. by destruct h. Qed.

(** X11. Rejecting a hotel changes its status only: it keeps the
    visibility it had, so approving it again leaves the hotel approved with
    the visibility, the owner and the city from before the rejection --
    bookable again without its owner -- and leaves every other hotel and
    every room, booking and user as they were; likewise the owner's hide
    followed by show leaves an approved, visible hotel approved and
    visible.  (Each of the four updates sets the hotel's [updatedAt] stamp
    anew; the stamp is not a field of the document here and nothing is
    said of it.) *)
Theorem reject_approve_and_hide_show_restore_the_hotel
    (id : ObjectId) (db : Db) (hotel : Hotel.t) :
  hotels db !! id = Some hotel →
  Hotel.status hotel = Hotel.approved →
  (∃ db1 db2 hotel2,
     rejectHotel id db = (Ok (set_status Hotel.rejected hotel), db1)
     ∧ Hotel.isVisible (set_status Hotel.rejected hotel) = Hotel.isVisible hotel
     ∧ approveHotel id db1 = (Ok hotel2, db2)
     ∧ hotels db2 !! id = Some hotel2
     ∧ Hotel.status hotel2 = Hotel.approved
     ∧ Hotel.isVisible hotel2 = Hotel.isVisible hotel
     ∧ Hotel.ownerId hotel2 = Hotel.ownerId hotel
     ∧ Hotel.cityId hotel2 = Hotel.cityId hotel
     ∧ (∀ j, j ≠ id → hotels db2 !! j = hotels db !! j)
     ∧ rooms db2 = rooms db
     ∧ bookings db2 = bookings db
     ∧ users db2 = users db)
  ∧ (∀ owner,
       _id owner = Hotel.ownerId hotel → Hotel.isVisible hotel = true →
       ∃ db1 db2 hotel2,
         hideHotel owner id db = (Ok (Some (set_isVisible false hotel)), db1)
         ∧ showHotel owner id db1 = (Ok (Some hotel2), db2)
         ∧ hotels db2 !! id = Some hotel2
         ∧ Hotel.status hotel2 = Hotel.approved
         ∧ Hotel.isVisible hotel2 = true
         ∧ Hotel.ownerId hotel2 = Hotel.ownerId hotel
         ∧ Hotel.cityId hotel2 = Hotel.cityId hotel
         ∧ (∀ j, j ≠ id → hotels db2 !! j = hotels db !! j)
         ∧ rooms db2 = rooms db
         ∧ bookings db2 = bookings db
         ∧ users db2 = users db).
Proof.
  intros Hh Hs. split.
  - exists (with_hotels (<[id := set_status Hotel.rejected hotel]> (hotels db)) db),
      db, hotel.
    unfold rejectHotel, approveHotel. rewrite set_status_run, Hh.
    split; [reflexivity|]. split; [done|]. split; [|by repeat split].
    rewrite set_status_run. simpl. rewrite lookup_insert_eq.
    rewrite <- Hs, !set_status_back. f_equal.
    unfold with_hotels. simpl. rewrite insert_insert_eq, insert_id by done.
    by destruct db.
  - intros owner Ho Hv.
    exists (with_hotels (<[id := set_isVisible false hotel]> (hotels db)) db),
      db, hotel.
    rewrite (hideHotel_run owner id db hotel Hh).
    assert (isOwnedBy hotel (_id owner) = true) as Hown
      by (by apply isOwnedBy_true_iff).
    rewrite Hown. simpl. split; [reflexivity|]. split; [|by repeat split].
    rewrite (showHotel_run owner id _ (set_isVisible false hotel))
      by (simpl; apply lookup_insert_eq).
    assert (isOwnedBy (set_isVisible false hotel) (_id owner) = true) as -> by done.
    simpl. rewrite Hs. simpl.
    rewrite <- Hv, !set_isVisible_back. f_equal.
    unfold with_hotels. simpl. rewrite insert_insert_eq, insert_id by done.
    by destruct db.
Qed.

Lemma reject_approve_and_hide_show_restore_the_hotel_witness :
  ∃ hotel2 db2,
    approveHotel 10 (rejectHotel 10 Scenario.db).2 = (Ok hotel2, db2)
    ∧ isPubliclyVisible hotel2 = true.
Proof.
  destruct (reject_approve_and_hide_show_restore_the_hotel 10 Scenario.db
              (Hotel.mk 3 100 Hotel.approved true) eq_refl eq_refl)
    as ((db1 & db2 & hotel2 & Hreject & _ & Happrove & _ & Hs & Hv & _) & _).
  exists hotel2, db2. rewrite Hreject. split; [exact Happrove|].
  unfold isPubliclyVisible. by rewrite Hs, Hv.
Defined.







Lemma deleteUser_run id db :
  userController.deleteUser id db =
    match users db !! id with
    | None => (Err userController.user_not_found, db)
    | Some u =>
        if User.role_eqb (User.role u) User.super_admin
        then (Err userController.cannot_delete_super_admin, db)
        else (Ok tt, userController.with_users (delete id (users db)) db)
    end.
Proof.
  unfold userController.deleteUser, bind, get, find_or, fail_if, put.
  destruct (users db !! id) as [u|]; [|done]. simpl.
  by destruct (User.role_eqb (User.role u) User.super_admin).
Qed.

(** X14. Deleting a user succeeds exactly for an existing user who is not
    a super administrator, so no call removes a super administrator; it
    deletes that user and nothing else.  After an owner has been deleted,
    a request to book a room of one of that owner's approved, visible
    hotels is refused with the 400 "Hotel owner not found". *)
Theorem deleteUser_spares_super_admins_and_strands_hotels
    (id : ObjectId) (db : Db) :
  (is_ok (userController.deleteUser id db).1 = true ↔
     ∃ u, users db !! id = Some u ∧ User.role u ≠ User.super_admin)
  ∧ (∀ k u, users db !! k = Some u → User.role u = User.super_admin →
            users (userController.deleteUser id db).2 !! k = Some u)
  ∧ users (userController.deleteUser id db).2
    = (if is_ok (userController.deleteUser id db).1
       then delete id (users db) else users db)
  ∧ bookings (userController.deleteUser id db).2 = bookings db
  ∧ hotels (userController.deleteUser id db).2 = hotels db
  ∧ rooms (userController.deleteUser id db).2 = rooms db
  ∧ (is_ok (userController.deleteUser id db).1 = true →
     ∀ L now customer body room hotel,
       rooms db !! validation.roomId body = Some room →
       hotels db !! Room.hotelId room = Some hotel →
       Hotel.ownerId hotel = id →
       isPubliclyVisible hotel = true →
       createRoomBooking L now customer body (userController.deleteUser id db).2
       = (Err owner_not_found, (userController.deleteUser id db).2)
       ∧ statusCode owner_not_found = 400).
Proof.
  rewrite deleteUser_run.
  destruct (users db !! id) as [u|] eqn:Hu.
  - pose proof (role_eqb_true_iff (User.role u) User.super_admin) as Hrole.
    destruct (User.role_eqb (User.role u) User.super_admin) eqn:Hr; simpl.
    + split; [|done]. split; [done|]. intros (u' & [= <-] & Hne).
      exfalso. apply Hne. by apply Hrole.
    + assert (User.role u ≠ User.super_admin) as Hne.
      { intros Heq. apply Hrole in Heq. discriminate Heq. }
      split; [split; [by exists u|done]|]. split.
      { intros k u' Hk Hsuper. apply lookup_delete_Some. split; [|done].
        intros <-. congruence. }
      split; [done|]. split; [done|]. split; [done|]. split; [done|].
      intros _ L now customer body room hotel Hroom Hhotel Howner Hpub.
      split; [|done]. rewrite createRoomBooking_run. simpl.
      rewrite Hroom, Hhotel. unfold isPubliclyVisible in Hpub.
      apply andb_true_iff in Hpub as [-> ->]. simpl.
      by rewrite Howner, lookup_delete_eq.
  - simpl. split; [|done]. split; [done|]. by intros (u & ? & _).
Qed.

Lemma deleteUser_spares_super_admins_and_strands_hotels_witness :
  is_ok (userController.deleteUser 6 Scenario.db).1 = false
  ∧ createRoomBooking Scenario.lib Scenario.dec_1_2024 Scenario.customer_a
      Scenario.request (userController.deleteUser 3 Scenario.db).2
    = (Err owner_not_found, (userController.deleteUser 3 Scenario.db).2).
Proof.
  split; [reflexivity|].
  destruct (deleteUser_spares_super_admins_and_strands_hotels 3 Scenario.db)
    as (_ & _ & _ & _ & _ & _ & Hstranded).
  apply (Hstranded eq_refl Scenario.lib Scenario.dec_1_2024 Scenario.customer_a
           Scenario.request (Room.mk 10 (100 # 1))
           (Hotel.mk 3 100 Hotel.approved true)); reflexivity.
Defined.

(** * The routes *)

Lemma requireRole_run (roles : list User.Role) (user : Principal) db :
  auth.requireRole roles (Some user) db =
    if existsb (User.role_eqb (role user)) roles then (Ok tt, db)
    else (Err auth.not_permitted, db).
Proof.
  unfold auth.requireRole, fail_if. by destruct (existsb _ roles).
Qed.

Lemma patch_booking_status_run L now user id status db :
  routes.patch_booking_status L now user id status db =
    if negb (User.role_eqb (role user) User.owner
             || User.role_eqb (role user) User.super_admin)
    then (Err auth.not_permitted, db)
    else if negb (bool_decide (is_Some (Booking.parse_status status)))
    then (Err validation.validation_error, db)
    else updateBookingStatus L now user id status db.
Proof.
  unfold routes.patch_booking_status, routes.validateUpdateBookingStatus, bind,
    fail_if.
  rewrite requireRole_run. simpl. rewrite orb_false_r.
  destruct (User.role_eqb (role user) User.owner || _); [|done]. simpl.
  by destruct (bool_decide (is_Some (Booking.parse_status status))).
Qed.

(** X15. Through [PATCH /:id/status], the status of an existing booking is
    set to any of the four names exactly when the principal has the owner
    role and is the owner the booking is assigned to, or is a super
    administrator -- with no condition on the booking's current status or
    on the time left before check-in.  Customers and city administrators
    are refused with a 403 by the role gate, an owner of another hotel with
    a 403 by the handler, and a status outside the four names with the 400
    of the validator before the booking is looked up. *)
Theorem patch_booking_status_succeeds_iff
    (L : Lib) (now : Instant) (user : Principal) (id : ObjectId)
    (status : string) (db : Db) (booking : Booking.t) (target : Booking.Status) :
  bookings db !! id = Some booking →
  Booking.parse_status status = Some target →
  (is_ok (routes.patch_booking_status L now user id status db).1 = true ↔
     (role user = User.owner ∧ _id user = Booking.ownerId booking)
     ∨ role user = User.super_admin)
  ∧ (is_ok (routes.patch_booking_status L now user id status db).1 = true →
     routes.patch_booking_status L now user id status db
     = (Ok (Some (id, Booking.set_status target booking)),
        with_bookings (<[id := Booking.set_status target booking]> (bookings db)) db))
  ∧ (role user = User.customer ∨ role user = User.city_admin →
     routes.patch_booking_status L now user id status db
     = (Err auth.not_permitted, db))
  ∧ (role user = User.owner → _id user ≠ Booking.ownerId booking →
     routes.patch_booking_status L now user id status db
     = (Err roomBookingController.not_your_hotel, db))
  ∧ (∀ id' other,
       Booking.parse_status other = None →
       role user = User.owner ∨ role user = User.super_admin →
       routes.patch_booking_status L now user id' other db
       = (Err validation.validation_error, db)).
Proof.
  intros Hb Hs.
  split; [|split; [|split; [|split]]].
  - rewrite patch_booking_status_run, Hs.
    rewrite (updateBookingStatus_run L now user id db booking status Hb), Hs.
    unfold canUpdateStatus.
    pose proof (isOwnedByHotelOwner_true_iff booking (_id user)) as Hown.
    destruct (RoomBooking.isOwnedByHotelOwner booking (_id user)),
      (role user); simpl; intuition (try congruence; try done).
  - rewrite patch_booking_status_run, Hs.
    rewrite (updateBookingStatus_run L now user id db booking status Hb), Hs.
    destruct (negb (User.role_eqb (role user) User.owner || _)); [done|].
    simpl. by destruct (negb (canUpdateStatus user booking)).
  - rewrite patch_booking_status_run. by intros [-> | ->].
  - intros Hr Hne. rewrite patch_booking_status_run, Hs, Hr. simpl.
    rewrite (updateBookingStatus_run L now user id db booking status Hb).
    unfold canUpdateStatus. rewrite Hr. simpl. rewrite orb_false_r.
    destruct (RoomBooking.isOwnedByHotelOwner booking (_id user)) eqn:Ho;
      simpl; [|done].
    apply isOwnedByHotelOwner_true_iff in Ho. done.
  - intros id' other Hnone Hr. rewrite patch_booking_status_run, Hnone.
    by destruct Hr as [-> | ->].
Qed.

Lemma patch_booking_status_succeeds_iff_witness :
  is_ok (routes.patch_booking_status Scenario.lib Scenario.dec_1_2024
           Scenario.owner_a 1 "cancelled" Scenario.db_stay).1 = true
  ∧ routes.patch_booking_status Scenario.lib Scenario.dec_1_2024
      Scenario.customer_a 1 "cancelled" Scenario.db_stay
    = (Err auth.not_permitted, Scenario.db_stay).
Proof.
  destruct (patch_booking_status_succeeds_iff Scenario.lib Scenario.dec_1_2024
              Scenario.owner_a 1 "cancelled" Scenario.db_stay Scenario.stay
              Booking.cancelled eq_refl eq_refl) as (Hiff & _).
  destruct (patch_booking_status_succeeds_iff Scenario.lib Scenario.dec_1_2024
              Scenario.customer_a 1 "cancelled" Scenario.db_stay Scenario.stay
              Booking.cancelled eq_refl eq_refl) as (_ & _ & Hcust & _).
  split; [apply Hiff; by left | apply Hcust; by left].
Defined.

Lemma delete_booking_run L now user id db :
  routes.delete_booking L now user id db =
    if User.role_eqb (role user) User.customer
    then cancelBooking L now user id db
    else (Err auth.not_permitted, db).
Proof.
  unfold routes.delete_booking, bind. rewrite requireRole_run. simpl.
  rewrite orb_false_r. by destruct (User.role_eqb (role user) User.customer).
Qed.

(** X16. Through [DELETE /:id], an existing booking is cancelled exactly
    when the principal has the customer role, made the booking, the booking
    is pending or confirmed and check-in is more than 24 hours away; every
    other role is refused with a 403 by the role gate, the hotel's owner
    and super administrators included, and nothing is changed. *)
Theorem delete_booking_succeeds_iff
    (L : Lib) (now : Instant) (user : Principal) (id : ObjectId) (db : Db)
    (booking : Booking.t) :
  bookings db !! id = Some booking →
  (is_ok (routes.delete_booking L now user id db).1 = true ↔
     role user = User.customer
     ∧ _id user = Booking.userId booking
     ∧ (Booking.status booking = Booking.pending
        ∨ Booking.status booking = Booking.confirmed)
     ∧ 24 * ms_per_hour < Booking.checkIn booking - now)
  ∧ (is_ok (routes.delete_booking L now user id db).1 = true →
     routes.delete_booking L now user id db
     = (Ok (Some (id, Booking.set_status Booking.cancelled booking)),
        with_bookings
          (<[id := Booking.set_status Booking.cancelled booking]> (bookings db)) db))
  ∧ (role user ≠ User.customer →
     routes.delete_booking L now user id db = (Err auth.not_permitted, db)).
Proof.
  intros Hb. rewrite delete_booking_run.
  rewrite (cancelBooking_run L now user id db booking Hb).
  pose proof (role_eqb_true_iff (role user) User.customer) as Hrole.
  pose proof (isOwnedByUser_true_iff booking (_id user)) as Hown.
  pose proof (canBeCancelled_true_iff now booking) as Hcan.
  pose proof (hours_lt_iff 24 now (Booking.checkIn booking)) as Hh.
  change (inject_Z 24) with 24%Q in Hh.
  destruct (User.role_eqb (role user) User.customer).
  - assert (role user = User.customer) as Hr by (by apply Hrole).
    destruct (RoomBooking.isOwnedByUser booking (_id user)); simpl.
    + destruct (RoomBooking.canBeCancelled now booking); simpl.
      * split; [|done]. split; [intros _|done].
        split; [done|]. split; [by apply Hown|]. 
        destruct Hcan as [Hcan _]. destruct (Hcan eq_refl) as [? Hq].
        split; [done|]. by apply Hh.
      * split; [|done]. split; [done|]. intros (_ & _ & Hst & Hlt).
        apply Hh in Hlt. destruct Hcan as [_ Hcan]. by apply Hcan.
    + split; [|done]. split; [done|]. intros (_ & Hu & _).
      destruct Hown as [_ Hown]. by apply Hown.
  - simpl. split; [|done]. split; [done|]. intros (Hr & _).
    destruct Hrole as [_ Hrole]. by apply Hrole.
Qed.

Lemma delete_booking_succeeds_iff_witness :
  is_ok (routes.delete_booking Scenario.lib Scenario.dec_1_2024
           Scenario.customer_a 1 Scenario.db_stay).1 = true
  ∧ routes.delete_booking Scenario.lib Scenario.dec_1_2024 Scenario.admin 1
      Scenario.db_stay
    = (Err auth.not_permitted, Scenario.db_stay).
Proof.
  destruct (delete_booking_succeeds_iff Scenario.lib Scenario.dec_1_2024
              Scenario.customer_a 1 Scenario.db_stay Scenario.stay eq_refl)
    as (Hiff & _).
  destruct (delete_booking_succeeds_iff Scenario.lib Scenario.dec_1_2024
              Scenario.admin 1 Scenario.db_stay Scenario.stay eq_refl)
    as (_ & _ & Hother).
  split.
  - apply Hiff. split; [reflexivity|]. split; [reflexivity|]. split; [by left|].
    vm_compute. reflexivity.
  - apply Hother. discriminate.
Defined.

(** X17. No request of a principal who is not a super administrator makes
    a hotel bookable that is pending or rejected: whichever of the show,
    hide, approve and reject routes is called, the hotel is still there
    afterwards and still not both approved and visible. *)
Theorem unapproved_hotel_stays_closed_without_super_admin
    (user : Principal) (id : ObjectId) (db : Db) (hotel : Hotel.t) :
  hotels db !! id = Some hotel →
  Hotel.status hotel ≠ Hotel.approved →
  role user ≠ User.super_admin →
  ∀ db',
    db' = (routes.post_hotel_show user id db).2
    ∨ db' = (routes.post_hotel_hide user id db).2
    ∨ db' = (routes.post_hotel_approve user id db).2
    ∨ db' = (routes.post_hotel_reject user id db).2 →
    ∃ hotel',
      hotels db' !! id = Some hotel'
      ∧ Hotel.status hotel' = Hotel.status hotel
      ∧ isPubliclyVisible hotel' = false.
Proof.
  intros Hh Hs Hr db' Hdb'.
  assert (isPubliclyVisible hotel = false) as Hclosed.
  { unfold isPubliclyVisible. destruct (Hotel.status hotel); done. }
  assert (Hotel.is_approved (Hotel.status hotel) = false) as Hna.
  { destruct (Hotel.status hotel); done. }
  assert (User.role_eqb (role user) User.super_admin = false) as Hnot.
  { apply not_true_iff_false. rewrite role_eqb_true_iff. done. }
  unfold routes.post_hotel_show, routes.post_hotel_hide, routes.post_hotel_approve,
    routes.post_hotel_reject, bind in Hdb'.
  rewrite !requireRole_run in Hdb'. simpl in Hdb'.
  rewrite Hnot in Hdb'. simpl in Hdb'. rewrite orb_false_r in Hdb'.
  destruct Hdb' as [-> | [-> | [-> | ->]]]; try by exists hotel.
  - destruct (User.role_eqb (role user) User.owner); [|by exists hotel].
    rewrite (showHotel_run user id db hotel Hh), Hna.
    destruct (isOwnedBy hotel (_id user)); by exists hotel.
  - destruct (User.role_eqb (role user) User.owner); [|by exists hotel].
    rewrite (hideHotel_run user id db hotel Hh).
    destruct (isOwnedBy hotel (_id user)); [|by exists hotel].
    simpl. exists (set_isVisible false hotel).
    split; [apply lookup_insert_eq|]. split; [done|].
    unfold isPubliclyVisible. simpl. apply andb_false_r.
Qed.

Lemma unapproved_hotel_stays_closed_without_super_admin_witness :
  ∃ hotel',
    hotels (routes.post_hotel_show Scenario.owner_a 10
              (rejectHotel 10 Scenario.db).2).2 !! 10%positive = Some hotel'
    ∧ isPubliclyVisible hotel' = false.
Proof.
  destruct (unapproved_hotel_stays_closed_without_super_admin Scenario.owner_a 10
              (rejectHotel 10 Scenario.db).2 (Hotel.mk 3 100 Hotel.rejected true)
              eq_refl ltac:(discriminate) ltac:(discriminate)
              (routes.post_hotel_show Scenario.owner_a 10
                 (rejectHotel 10 Scenario.db).2).2)
    as (hotel' & Hh & _ & Hclosed).
  - by left.
  - by exists hotel'.
Defined.

(** * Listings *)

Import bookingLists.




Lemma skip_limit_sublist {A} (skip limit : Z) (l : list A) :
  skip_limit skip limit l `sublist_of` l.
Proof.
  unfold skip_limit. destruct (limit =? 0).
  - apply sublist_drop.
  - etrans; [apply sublist_take | apply sublist_drop].
Qed.

Lemma skip_limit_length {A} (skip limit : Z) (l : list A) :
  limit ≠ 0 → Z.of_nat (length (skip_limit skip limit l)) ≤ Z.abs limit.
Proof.
  intros Hl. unfold skip_limit.
  destruct (limit =? 0) eqn:Hz; [apply Z.eqb_eq in Hz; lia|].
  rewrite length_take. lia.
Qed.

Lemma sort_desc_unless_asc_perm L q l : sort_desc_unless_asc L q l ≡ₚ l.
Proof.
  unfold sort_desc_unless_asc. destruct (String.eqb (sortDir q) "asc");
    apply merge_sort_Permutation.
Qed.

Lemma run_listing_run sort P q db :
  run_listing sort P q db =
    if (page q - 1) * pageSize q <? 0 then (Err negative_skip, db)
    else (Ok (mkListing
                (skip_limit ((page q - 1) * pageSize q) (pageSize q)
                   (sort (map_to_list (filter (λ kb, P kb = true) (bookings db)))))
                (pagination_of q (countDocuments P (bookings db)))),
          db).
Proof.
  unfold run_listing, bind, get, fail_if. simpl. by destruct (_ <? 0).
Qed.

Lemma countDocuments_length P (bs : gmap ObjectId Booking.t) :
  countDocuments P bs
  = Z.of_nat (length (map_to_list (filter (λ kb, P kb = true) bs))).
Proof. unfold countDocuments. by rewrite length_map_to_list. Qed.


(** What any of the listings returns, for a sort that only reorders. *)
Lemma run_listing_spec sort P q db listing db' :
  (∀ l, sort l ≡ₚ l) →
  run_listing sort P q db = (Ok listing, db') →
  db' = db
  ∧ (∀ k b, (k, b) ∈ items listing →
            bookings db !! k = Some b ∧ P (k, b) = true)
  ∧ NoDup (items listing)
  ∧ totalCount (pagination listing)
    = Z.of_nat (length (map_to_list (filter (λ kb, P kb = true) (bookings db))))
  ∧ Z.of_nat (length (items listing)) ≤ totalCount (pagination listing)
  ∧ (pageSize q ≠ 0 → Z.of_nat (length (items listing)) ≤ Z.abs (pageSize q)).
Proof.
  intros Hsort. rewrite run_listing_run.
  destruct (_ <? 0); [done|]. intros [= <- <-]. simpl.
  pose proof (skip_limit_sublist ((page q - 1) * pageSize q) (pageSize q)
                (sort (map_to_list (filter (λ kb, P kb = true) (bookings db)))))
    as Hsub.
  split; [done|]. split; [|split; [|split; [|split]]].
  - intros k b Hin. apply (elem_of_sublist _ _ _ Hin) in Hsub as Hin'.
    clear Hin; rename Hin' into Hin.
    rewrite Hsort in Hin.
    by apply elem_of_map_to_list, map_lookup_filter_Some in Hin.
  - eapply sublist_NoDup; [|exact Hsub]. rewrite Hsort. apply NoDup_map_to_list.
  - apply countDocuments_length.
  - rewrite countDocuments_length. apply sublist_length in Hsub.
    rewrite (Permutation_length (Hsort _)) in Hsub. lia.
  - apply skip_limit_length.
Qed.


Lemma getMyBookings_as_listing L user q p :
  getMyBookings L user (on_page p q)
  = run_listing (sort_desc_unless_asc L q)
      (λ kb, Pos.eqb (Booking.userId kb.2) (_id user) && status_filter q kb.2)
      (on_page p q).
Proof. done. Qed.

Lemma owner_sort_perm L q l : merge_sort (owner_order L q) l ≡ₚ l.
Proof. apply merge_sort_Permutation. Qed.

Lemma id_filter_true_iff wanted actual :
  id_filter wanted actual = true ↔ ∀ w, wanted = Some w → actual = w.
Proof.
  destruct wanted as [w|]; simpl.
  - rewrite Pos.eqb_eq. split; [by intros -> ? [= <-] | auto].
  - split; [by intros _ ? [=] | done].
Qed.

Lemma getOwnerBookings_as_listing L user q db :
  getOwnerBookings L user q db
  = run_listing (merge_sort (owner_order L (base q)))
      (λ kb, Pos.eqb (Booking.ownerId kb.2) (_id user)
             && status_filter (base q) kb.2
             && id_filter (q_hotelId q) (Booking.hotelId kb.2))
      (base q) db.
Proof.
  rewrite run_listing_run. unfold getOwnerBookings, bind, get, fail_if. simpl.
  destruct (_ <? 0); [done|]. simpl. unfold static_getOwnerBookings.
  match goal with
  | |- context [filter ?P (bookings db)] =>
      match P with
      | context [id_filter (Some _)] =>
          replace (filter P (bookings db))
            with (filter (λ kb : ObjectId * Booking.t,
                            Pos.eqb (Booking.ownerId kb.2) (_id user)
                            && status_filter (base q) kb.2
                            && id_filter (q_hotelId q) (Booking.hotelId kb.2) = true)
                    (bookings db))
      end
  end; [done|].
  apply map_filter_ext. intros k b _. simpl.
  by destruct (Pos.eqb (Booking.ownerId b) (_id user)).
Qed.

Lemma getAllBookings_as_listing L q db :
  getAllBookings L q db
  = run_listing (merge_sort (owner_order L (base q)))
      (λ kb, status_filter (base q) kb.2
             && id_filter (q_hotelId q) (Booking.hotelId kb.2)
             && id_filter (q_ownerId q) (Booking.ownerId kb.2)
             && search_filter L (base q) kb.2)
      (base q) db.
Proof.
  rewrite run_listing_run. unfold getAllBookings, bind, get, fail_if. simpl.
  destruct (_ <? 0); [done|]. simpl. by unfold static_getOwnerBookings.
Qed.


(** With a page size of 0 any of the listings returns every matching
    booking, whatever the page. *)
Lemma run_listing_page_size_zero sort P q db :
  (∀ l, sort l ≡ₚ l) →
  pageSize q = 0 →
  ∃ listing,
    run_listing sort P q db = (Ok listing, db)
    ∧ items listing ≡ₚ map_to_list (filter (λ kb, P kb = true) (bookings db))
    ∧ totalPages (pagination listing) = None
    ∧ hasNextPage (pagination listing)
      = negb (bool_decide (items listing = [])).
Proof.
  intros Hsort Hps. rewrite run_listing_run, Hps, Z.mul_0_r. simpl.
  eexists. split; [done|]. simpl.
  unfold skip_limit, totalPages_of. rewrite Hps. simpl.
  change (Z.to_nat 0) with 0%nat. rewrite drop_0.
  split; [by rewrite Hsort|]. split; [done|].
  rewrite countDocuments_length.
  pose proof (Permutation_length
                (Hsort (map_to_list (filter (λ kb, P kb = true) (bookings db)))))
    as Hlen.
  destruct (sort _) as [|x l].
  - simpl in Hlen. by rewrite <- Hlen.
  - simpl in Hlen. rewrite <- Hlen. rewrite bool_decide_eq_false_2 by done.
    simpl. apply Z.ltb_lt. lia.
Qed.

(** X18. A customer's listing returns only bookings that are stored, are
    the customer's own and have the status asked for, none of them twice;
    it reports as total the number of all such bookings, returns no more
    than that and, for a page size other than 0, no more than a page; and
    it changes nothing. *)
Theorem getMyBookings_lists_own_bookings
    (L : Lib) (user : Principal) (q : ListQuery) (db db' : Db)
    (listing : Listing) :
  getMyBookings L user q db = (Ok listing, db') →
  db' = db
  ∧ (∀ k b, (k, b) ∈ items listing →
       bookings db !! k = Some b
       ∧ Booking.userId b = _id user
       ∧ status_filter q b = true)
  ∧ NoDup (items listing)
  ∧ totalCount (pagination listing)
    = Z.of_nat (size (filter (λ kb : ObjectId * Booking.t,
                                Booking.userId kb.2 = _id user
                                ∧ status_filter q kb.2 = true)
                        (bookings db)))
  ∧ Z.of_nat (length (items listing)) ≤ totalCount (pagination listing)
  ∧ (pageSize q ≠ 0 → Z.of_nat (length (items listing)) ≤ Z.abs (pageSize q)).
Proof.
  intros Hrun. unfold getMyBookings in Hrun.
  apply run_listing_spec in Hrun as (-> & Hin & Hnd & Hcount & Hle & Hpage);
    [|apply sort_desc_unless_asc_perm].
  split; [done|]. split; [|split; [done|split; [|done]]].
  - intros k b Hkb. apply Hin in Hkb as [Hb Hf]. simpl in Hf.
    apply andb_true_iff in Hf as [Hu Hs]. by apply Pos.eqb_eq in Hu.
  - rewrite Hcount, length_map_to_list. do 2 f_equal.
    apply map_filter_ext. intros k b _. simpl.
    by rewrite andb_true_iff, Pos.eqb_eq.
Qed.

Lemma getMyBookings_lists_own_bookings_witness :
  (getMyBookings Scenario.lib Scenario.customer_a Scenario.first_page
     Scenario.db_rebooked).1
  = Ok (mkListing [(1%positive, Booking.set_status Booking.cancelled Scenario.stay)]
          (mkPagination 1 20 (Some 1) 1 false false))
  ∧ ∀ k b,
      (k, b) ∈ [(1%positive, Booking.set_status Booking.cancelled Scenario.stay)] →
      Booking.userId b = 1%positive.
Proof.
  assert (getMyBookings Scenario.lib Scenario.customer_a Scenario.first_page
            Scenario.db_rebooked
          = (Ok (mkListing
                   [(1%positive, Booking.set_status Booking.cancelled Scenario.stay)]
                   (mkPagination 1 20 (Some 1) 1 false false)),
             Scenario.db_rebooked)) as Hrun by (vm_compute; reflexivity).
  split; [exact (f_equal fst Hrun)|].
  destruct (getMyBookings_lists_own_bookings _ _ _ _ _ _ Hrun) as (_ & Hin & _).
  intros k b Hkb. by apply Hin in Hkb as (_ & Hu & _).
Defined.

(** X19. An owner's listing returns only stored bookings whose owner is
    the principal, of the hotel asked for when one is, with the status
    asked for, none of them twice; the administrator's listing returns only
    stored bookings that match the status, the hotel, the owner and the
    search asked for.  Neither returns more than the total it reports, and
    neither changes anything. *)
Theorem getOwnerBookings_and_getAllBookings_stay_in_scope
    (L : Lib) (user : Principal) (q : ManagerQuery) (db db' : Db)
    (listing : Listing) :
  (getOwnerBookings L user q db = (Ok listing, db') →
   db' = db
   ∧ (∀ k b, (k, b) ∈ items listing →
        bookings db !! k = Some b
        ∧ Booking.ownerId b = _id user
        ∧ (∀ h, q_hotelId q = Some h → Booking.hotelId b = h)
        ∧ status_filter (base q) b = true)
   ∧ NoDup (items listing)
   ∧ Z.of_nat (length (items listing)) ≤ totalCount (pagination listing))
  ∧ (getAllBookings L q db = (Ok listing, db') →
     db' = db
     ∧ (∀ k b, (k, b) ∈ items listing →
          bookings db !! k = Some b
          ∧ (∀ h, q_hotelId q = Some h → Booking.hotelId b = h)
          ∧ (∀ o, q_ownerId q = Some o → Booking.ownerId b = o)
          ∧ status_filter (base q) b = true
          ∧ search_filter L (base q) b = true)
     ∧ NoDup (items listing)
     ∧ Z.of_nat (length (items listing)) ≤ totalCount (pagination listing)).
Proof.
  split.
  - rewrite getOwnerBookings_as_listing. intros Hrun.
    apply run_listing_spec in Hrun as (-> & Hin & Hnd & _ & Hle & _);
      [|apply owner_sort_perm].
    split; [done|]. split; [|done].
    intros k b Hkb. apply Hin in Hkb as [Hb Hf]. simpl in Hf.
    apply andb_true_iff in Hf as [Hf Hh]. apply andb_true_iff in Hf as [Ho Hs].
    apply Pos.eqb_eq in Ho.
    pose proof (proj1 (id_filter_true_iff _ _) Hh) as Hhotel. done.
  - rewrite getAllBookings_as_listing. intros Hrun.
    apply run_listing_spec in Hrun as (-> & Hin & Hnd & _ & Hle & _);
      [|apply owner_sort_perm].
    split; [done|]. split; [|done].
    intros k b Hkb. apply Hin in Hkb as [Hb Hf]. simpl in Hf.
    apply andb_true_iff in Hf as [Hf Hsearch].
    apply andb_true_iff in Hf as [Hf Ho]. apply andb_true_iff in Hf as [Hs Hh].
    pose proof (proj1 (id_filter_true_iff _ _) Hh) as Hhotel.
    pose proof (proj1 (id_filter_true_iff _ _) Ho) as Howner. done.
Qed.

Lemma getOwnerBookings_and_getAllBookings_stay_in_scope_witness :
  (getOwnerBookings Scenario.lib Scenario.owner_a
     (mkManagerQuery Scenario.first_page (Some 10%positive) None)
     Scenario.db_rebooked).1
  = Ok (mkListing
          [(2%positive, Scenario.rival);
           (1%positive, Booking.set_status Booking.cancelled Scenario.stay)]
          (mkPagination 1 20 (Some 1) 2 false false))
  ∧ ∀ k b,
      (k, b) ∈ [(2%positive, Scenario.rival);
                (1%positive, Booking.set_status Booking.cancelled Scenario.stay)] →
      Booking.ownerId b = 3%positive.
Proof.
  assert (getOwnerBookings Scenario.lib Scenario.owner_a
            (mkManagerQuery Scenario.first_page (Some 10%positive) None)
            Scenario.db_rebooked
          = (Ok (mkListing
                   [(2%positive, Scenario.rival);
                    (1%positive,
                     Booking.set_status Booking.cancelled Scenario.stay)]
                   (mkPagination 1 20 (Some 1) 2 false false)),
             Scenario.db_rebooked)) as Hrun by (vm_compute; reflexivity).
  split; [exact (f_equal fst Hrun)|].
  destruct (proj1 (getOwnerBookings_and_getAllBookings_stay_in_scope
                     _ _ _ _ _ _) Hrun) as (_ & Hin & _).
  intros k b Hkb. by apply Hin in Hkb as (_ & Ho & _).
Defined.





(** X22. With a page size of 0 a customer's listing has no limit: on any
    page number it answers with all the customer's matching bookings at
    once, reports no finite number of pages, and still says that a next
    page exists whenever it returned anything. *)
Theorem getMyBookings_page_size_zero_lists_everything
    (L : Lib) (user : Principal) (q : ListQuery) (db : Db) :
  pageSize q = 0 →
  ∃ listing,
    getMyBookings L user q db = (Ok listing, db)
    ∧ NoDup (items listing)
    ∧ (∀ k b,
         (k, b) ∈ items listing
         ↔ bookings db !! k = Some b
           ∧ Booking.userId b = _id user
           ∧ status_filter q b = true)
    ∧ totalPages (pagination listing) = None
    ∧ hasNextPage (pagination listing)
      = negb (bool_decide (items listing = [])).
Proof.
  intros Hps. unfold getMyBookings.
  destruct (run_listing_page_size_zero (sort_desc_unless_asc L q)
              (λ kb, Pos.eqb (Booking.userId kb.2) (_id user)
                     && status_filter q kb.2)
              q db (sort_desc_unless_asc_perm L q) Hps)
    as (listing & Hrun & Hitems & Htotal & Hnext).
  exists listing. split; [done|]. split; [|split; [|done]].
  - rewrite Hitems. apply NoDup_map_to_list.
  - intros k b. rewrite Hitems, elem_of_map_to_list, map_lookup_filter_Some.
    simpl. by rewrite andb_true_iff, Pos.eqb_eq.
Qed.

Lemma getMyBookings_page_size_zero_lists_everything_witness :
  (getMyBookings Scenario.lib Scenario.customer_a
     (mkListQuery 7 0 None None "createdAt" "desc") Scenario.db_rebooked).1
  = Ok (mkListing
          [(1%positive, Booking.set_status Booking.cancelled Scenario.stay)]
          (mkPagination 7 0 None 1 true true)).
Proof.
  destruct (getMyBookings_page_size_zero_lists_everything Scenario.lib
              Scenario.customer_a (mkListQuery 7 0 None None "createdAt" "desc")
              Scenario.db_rebooked eq_refl) as (listing & Hrun & _).
  rewrite Hrun. simpl.
  assert (getMyBookings Scenario.lib Scenario.customer_a
            (mkListQuery 7 0 None None "createdAt" "desc") Scenario.db_rebooked
          = (Ok (mkListing
                   [(1%positive,
                     Booking.set_status Booking.cancelled Scenario.stay)]
                   (mkPagination 7 0 None 1 true true)),
             Scenario.db_rebooked)) as Hrun' by (vm_compute; reflexivity).
  rewrite Hrun' in Hrun. by injection Hrun as <-.
Defined.

(** * Statistics *)

Lemma has_status_true_iff s (kb : ObjectId * Booking.t) :
  has_status s kb = true ↔ Booking.status kb.2 = s.
Proof.
  unfold has_status. destruct (Booking.status kb.2), s; simpl; split; done.
Qed.

Lemma countDocuments_empty P : countDocuments P ∅ = 0.
Proof. unfold countDocuments. by rewrite map_filter_empty, map_size_empty. Qed.

Lemma countDocuments_insert_new P (bs : gmap ObjectId Booking.t) id b' :
  bs !! id = None →
  countDocuments P (<[id := b']> bs) = countDocuments P bs + Z.b2z (P (id, b')).
Proof.
  intros Hid. unfold countDocuments. destruct (P (id, b')) eqn:HP; simpl.
  - rewrite map_filter_insert_True by done.
    rewrite map_size_insert_None; [lia|].
    apply map_lookup_filter_None. by left.
  - rewrite map_filter_insert_False by (by rewrite HP).
    rewrite delete_id by done. lia.
Qed.

Lemma countDocuments_insert P (bs : gmap ObjectId Booking.t) id b b' :
  bs !! id = Some b →
  countDocuments P (<[id := b']> bs)
  = countDocuments P bs - Z.b2z (P (id, b)) + Z.b2z (P (id, b')).
Proof.
  intros Hid.
  rewrite <- (insert_delete_id bs id b Hid) at 2.
  rewrite <- (insert_delete_eq bs id b').
  rewrite !countDocuments_insert_new by apply lookup_delete_eq. lia.
Qed.

Lemma countDocuments_all (bs : gmap ObjectId Booking.t) :
  countDocuments (λ _, true) bs = Z.of_nat (size bs).
Proof. unfold countDocuments. by rewrite map_filter_id. Qed.

Lemma countDocuments_bounds P (bs : gmap ObjectId Booking.t) :
  0 ≤ countDocuments P bs ≤ Z.of_nat (size bs).
Proof.
  unfold countDocuments. split; [lia|].
  apply inj_le, map_subseteq_size, map_filter_subseteq.
Qed.

(** Every booking has one of the four statuses. *)
Lemma countDocuments_by_status (bs : gmap ObjectId Booking.t) :
  countDocuments (λ _, true) bs
  = countDocuments (has_status Booking.pending) bs
    + countDocuments (has_status Booking.confirmed) bs
    + countDocuments (has_status Booking.cancelled) bs
    + countDocuments (has_status Booking.rejected) bs.
Proof.
  induction bs as [|id b bs Hid IH] using map_ind.
  - by rewrite !countDocuments_empty.
  - rewrite !countDocuments_insert_new by done. rewrite IH.
    unfold has_status. simpl. destruct (Booking.status b); simpl; lia.
Qed.

(** The revenue does not move when a booking that is not confirmed is
    stored or replaced by one that is not confirmed. *)
Lemma confirmed_revenue_insert_other (bs : gmap ObjectId Booking.t) id b' :
  Booking.status b' ≠ Booking.confirmed →
  (∀ b, bs !! id = Some b → Booking.status b ≠ Booking.confirmed) →
  confirmed_revenue (<[id := b']> bs) = confirmed_revenue bs.
Proof.
  intros Hnew Hold. unfold confirmed_revenue.
  rewrite map_filter_insert_not'; [done| |].
  - intros H. by apply (has_status_true_iff Booking.confirmed (id, b')) in H.
  - intros b Hb H. apply (has_status_true_iff Booking.confirmed (id, b)) in H.
    by apply (Hold b Hb).
Qed.

Lemma getBookingStats_run db :
  getBookingStats db
  = (Ok (mkStats
           (countDocuments (λ _, true) (bookings db))
           (countDocuments (has_status Booking.pending) (bookings db))
           (countDocuments (has_status Booking.confirmed) (bookings db))
           (countDocuments (has_status Booking.cancelled) (bookings db))
           (countDocuments (has_status Booking.rejected) (bookings db))
           (confirmed_revenue (bookings db))),
     db).
Proof. done. Qed.

Lemma has_status_decide s id (b : Booking.t) :
  has_status s (id, b) = bool_decide (Booking.status b = s).
Proof.
  destruct (has_status s (id, b)) eqn:H.
  - apply has_status_true_iff in H. by rewrite bool_decide_eq_true_2.
  - rewrite bool_decide_eq_false_2; [done|].
    intros Hs. apply (has_status_true_iff s (id, b)) in Hs. congruence.
Qed.

(** What replacing the status of one stored booking does to the
    statistics. *)
Lemma set_status_stats db id (b : Booking.t) st :
  bookings db !! id = Some b →
  ∃ stats stats',
    getBookingStats db = (Ok stats, db)
    ∧ getBookingStats
        (with_bookings (<[id := Booking.set_status st b]> (bookings db)) db)
      = (Ok stats',
         with_bookings (<[id := Booking.set_status st b]> (bookings db)) db)
    ∧ totalBookings stats' = totalBookings stats
    ∧ (∀ s, count_of s stats'
            = count_of s stats
              - Z.b2z (bool_decide (Booking.status b = s))
              + Z.b2z (bool_decide (st = s)))
    ∧ (Booking.status b ≠ Booking.confirmed → st ≠ Booking.confirmed →
       totalRevenue stats' = totalRevenue stats).
Proof.
  intros Hb. eexists _, _. split; [apply getBookingStats_run|].
  split; [apply getBookingStats_run|]. simpl. split; [|split].
  - rewrite (countDocuments_insert _ _ _ b) by done. simpl. lia.
  - intros s.
    destruct s; simpl; rewrite (countDocuments_insert _ _ _ b) by done;
      by rewrite !has_status_decide.
  - intros Hold Hnew. apply confirmed_revenue_insert_other; [done|].
    intros b0 Hb0. congruence.
Qed.

(** X23. The statistics always answer and change nothing; the total is
    the number of stored bookings and is the sum of the four counters, each
    of which lies between 0 and the total; and the revenue is 0 when no
    booking is confirmed. *)
Theorem getBookingStats_counters_add_up (db : Db) :
  ∃ stats,
    getBookingStats db = (Ok stats, db)
    ∧ totalBookings stats = Z.of_nat (size (bookings db))
    ∧ totalBookings stats
      = pendingBookings stats + confirmedBookings stats
        + cancelledBookings stats + rejectedBookings stats
    ∧ (∀ s, 0 ≤ count_of s stats ≤ totalBookings stats)
    ∧ (confirmedBookings stats = 0 → totalRevenue stats = 0%Q).
Proof.
  eexists. split; [apply getBookingStats_run|]. simpl.
  split; [apply countDocuments_all|]. split; [apply countDocuments_by_status|].
  split.
  - intros s. rewrite countDocuments_all.
    destruct s; simpl; apply countDocuments_bounds.
  - unfold countDocuments, confirmed_revenue. intros Hnone.
    assert (filter (λ kb, has_status Booking.confirmed kb = true) (bookings db) = ∅)
      as -> by (apply map_size_empty_iff; lia).
    by rewrite map_to_list_empty.
Qed.

(** X24. An accepted booking request adds one booking to the total and to
    the pending counter of the statistics and leaves the other counters and
    the revenue as they were. *)
Theorem createRoomBooking_counts_one_more_pending
    (L : Lib) (now : Instant) (user : Principal) (body : validation.CreateBody)
    (db db' : Db) (id : ObjectId) (b : Booking.t) :
  createRoomBooking L now user body db = (Ok (id, b), db') →
  ∃ stats stats',
    getBookingStats db = (Ok stats, db)
    ∧ getBookingStats db' = (Ok stats', db')
    ∧ totalBookings stats' = totalBookings stats + 1
    ∧ pendingBookings stats' = pendingBookings stats + 1
    ∧ confirmedBookings stats' = confirmedBookings stats
    ∧ cancelledBookings stats' = cancelledBookings stats
    ∧ rejectedBookings stats' = rejectedBookings stats
    ∧ (totalRevenue stats' == totalRevenue stats)%Q.
Proof.
  intros Hrun.
  apply createRoomBooking_ok in Hrun
    as (room & hotel & _ & _ & _ & _ & -> & Hfresh & ->).
  eexists _, _. split; [apply getBookingStats_run|].
  split; [apply getBookingStats_run|]. simpl.
  rewrite !countDocuments_insert_new by done.
  rewrite confirmed_revenue_insert_other; [|done|by rewrite Hfresh].
  unfold has_status. simpl.
  repeat split; lia.
Qed.

Lemma createRoomBooking_counts_one_more_pending_witness :
  ∃ stats stats',
    getBookingStats Scenario.db = (Ok stats, Scenario.db)
    ∧ getBookingStats Scenario.db_stay = (Ok stats', Scenario.db_stay)
    ∧ totalBookings stats' = totalBookings stats + 1
    ∧ pendingBookings stats' = pendingBookings stats + 1.
Proof.
  destruct (createRoomBooking_counts_one_more_pending Scenario.lib
              Scenario.dec_1_2024 Scenario.customer_a Scenario.request
              Scenario.db Scenario.db_stay 1 Scenario.stay)
    as (stats & stats' & H & H' & Htotal & Hpending & _).
  - vm_compute. reflexivity.
  - by exists stats, stats'.
Defined.

(** X25. A cancellation that succeeds moves one booking in the statistics
    from the counter of its status -- pending or confirmed -- to the
    cancelled counter: the total and the rejected counter stay, and the
    revenue stays when the booking was pending.  (When it was confirmed
    the revenue is summed anew over the confirmed bookings that remain;
    the sums are sums of doubles, and nothing is said of how the new one
    relates to the old one and the price.) *)
Theorem cancelBooking_moves_one_booking_to_cancelled
    (L : Lib) (now : Instant) (user : Principal) (id : ObjectId)
    (db db' : Db) (b : Booking.t) (r : option (ObjectId * Booking.t)) :
  bookings db !! id = Some b →
  cancelBooking L now user id db = (Ok r, db') →
  ∃ stats stats',
    getBookingStats db = (Ok stats, db)
    ∧ getBookingStats db' = (Ok stats', db')
    ∧ totalBookings stats' = totalBookings stats
    ∧ cancelledBookings stats' = cancelledBookings stats + 1
    ∧ count_of (Booking.status b) stats'
      = count_of (Booking.status b) stats - 1
    ∧ pendingBookings stats' + confirmedBookings stats'
      = pendingBookings stats + confirmedBookings stats - 1
    ∧ rejectedBookings stats' = rejectedBookings stats
    ∧ (Booking.status b = Booking.pending →
       totalRevenue stats' = totalRevenue stats).
Proof.
  intros Hb. rewrite (cancelBooking_run L now user id db b Hb).
  destruct (RoomBooking.isOwnedByUser b (_id user)); [|done]. simpl.
  destruct (RoomBooking.canBeCancelled now b) eqn:Hcan; [|done]. simpl.
  intros [= _ <-].
  apply canBeCancelled_true_iff in Hcan as [Hactive _].
  destruct (set_status_stats db id b Booking.cancelled Hb)
    as (stats & stats' & H & H' & Htotal & Hcount & Hrev).
  exists stats, stats'. split; [done|]. split; [done|]. split; [done|].
  pose proof (Hcount Booking.pending) as Hp.
  pose proof (Hcount Booking.confirmed) as Hc.
  pose proof (Hcount Booking.cancelled) as Hx.
  pose proof (Hcount Booking.rejected) as Hr.
  simpl in Hp, Hc, Hx, Hr.
  assert (Booking.status b = Booking.pending →
          totalRevenue stats' = totalRevenue stats) as Hpending.
  { intros Hs. apply Hrev; [by rewrite Hs|done]. }
  destruct Hactive as [Hs | Hs]; rewrite Hs in *; simpl in *;
    (split; [lia|]); (split; [lia|]); (split; [lia|]); (split; [lia|]); done.
Qed.

Lemma cancelBooking_moves_one_booking_to_cancelled_witness :
  ∃ stats stats',
    getBookingStats Scenario.db_stay = (Ok stats, Scenario.db_stay)
    ∧ getBookingStats Scenario.db_cancelled = (Ok stats', Scenario.db_cancelled)
    ∧ cancelledBookings stats' = cancelledBookings stats + 1
    ∧ totalRevenue stats' = totalRevenue stats.
Proof.
  destruct (cancelBooking_moves_one_booking_to_cancelled Scenario.lib
              Scenario.dec_1_2024 Scenario.customer_a 1
              Scenario.db_stay Scenario.db_cancelled Scenario.stay
              (Some (1%positive, Booking.set_status Booking.cancelled Scenario.stay)))
    as (stats & stats' & H & H' & _ & Hx & _ & _ & _ & Hrev).
  - reflexivity.
  - vm_compute. reflexivity.
  - exists stats, stats'. split; [done|]. split; [done|]. split; [done|].
    by apply Hrev.
Defined.

(** X26. A status update that succeeds moves the booking in the
    statistics from the counter of its old status to the counter of the one
    asked for, whichever they are; the total stays; and the revenue stays
    when the booking neither was nor becomes confirmed.  (Otherwise the
    revenue is summed anew over the bookings then confirmed; the sums are
    sums of doubles, and nothing is said of how the new one relates to the
    old one and the price.) *)
Theorem updateBookingStatus_moves_booking_between_counters
    (L : Lib) (now : Instant) (user : Principal) (id : ObjectId)
    (status : string) (db db' : Db) (b : Booking.t)
    (r : option (ObjectId * Booking.t)) :
  bookings db !! id = Some b →
  updateBookingStatus L now user id status db = (Ok r, db') →
  ∃ st stats stats',
    Booking.parse_status status = Some st
    ∧ getBookingStats db = (Ok stats, db)
    ∧ getBookingStats db' = (Ok stats', db')
    ∧ totalBookings stats' = totalBookings stats
    ∧ (∀ s, count_of s stats'
            = count_of s stats
              - Z.b2z (bool_decide (Booking.status b = s))
              + Z.b2z (bool_decide (st = s)))
    ∧ (Booking.status b ≠ Booking.confirmed → st ≠ Booking.confirmed →
       totalRevenue stats' = totalRevenue stats).
Proof.
  intros Hb. rewrite (updateBookingStatus_run L now user id db b status Hb).
  destruct (canUpdateStatus user b); [|done]. simpl.
  destruct (Booking.parse_status status) as [st|]; [|done].
  intros [= _ <-]. exists st.
  destruct (set_status_stats db id b st Hb) as (stats & stats' & H).
  by exists stats, stats'.
Qed.

Lemma updateBookingStatus_moves_booking_between_counters_witness :
  ∃ stats stats',
    getBookingStats Scenario.db_stay = (Ok stats, Scenario.db_stay)
    ∧ getBookingStats Scenario.db_confirmed = (Ok stats', Scenario.db_confirmed)
    ∧ confirmedBookings stats' = confirmedBookings stats + 1
    ∧ pendingBookings stats' = pendingBookings stats - 1.
Proof.
  destruct (updateBookingStatus_moves_booking_between_counters Scenario.lib
              Scenario.dec_1_2024 Scenario.owner_a 1 "confirmed"
              Scenario.db_stay Scenario.db_confirmed Scenario.stay
              (Some (1%positive, Booking.set_status Booking.confirmed Scenario.stay)))
    as (st & stats & stats' & Hst & H & H' & _ & Hcount & _).
  - reflexivity.
  - vm_compute. reflexivity.
  - injection Hst as <-. exists stats, stats'.
    split; [done|]. split; [done|]. split.
    + pose proof (Hcount Booking.confirmed) as Hc. simpl in Hc. lia.
    + pose proof (Hcount Booking.pending) as Hp. simpl in Hp. lia.
Defined.
